(** * H2 ODBC driver: wire codec, connection/statement state machine and
      descriptor binding engine, embedded from the C++ sources.

    Sources embedded:
    - [src/h2/src/odbc/driver/sockets.cpp]        (module [Socket])
    - [src/h2/src/odbc/driver/sqlUtils.cpp]       (module [SqlUtils])
    - [src/h2/src/odbc/driver/odbcDescriptor.cpp] (modules [DescriptorRecord], [Descriptor])
    - [src/h2/src/odbc/driver/odbcStatement.cpp]  (module [Statement])
    - [src/trunk/h2/src/odbc/driver/odbc.cpp]     (modules [Connection], [Environment])
    - [src/h2/src/odbc/driver/sql.cpp]            (module [Api])
    - [src/h2/src/odbc/driver/h2odbc.h]           (class layouts, inline members)

    Conventions.  A C [int] is a [Z] kept in the 32-bit two's-complement range
    by [wrap32]; a [char] is a [byte], read as a signed value by [char_to_int];
    a [char*] string is the [list byte] in front of its terminator; a pointer
    is a [Z] address, [0] being the null pointer.  Calls to [trace] only append
    to a log file and are left out. *)

From Stdlib Require Import String Ascii Strings.Byte DecimalString.
From coqutil Require Import Byte Z.bitblast.
From Stdlib Require Import ZArith List Lia Bool.
Import ListNotations.
Local Open Scope Z_scope.

(** ** Machine integers and characters *)

(** A value stored in a 32-bit [int]. *)
Definition wrap32 (z : Z) : Z := (z + 2 ^ 31) mod 2 ^ 32 - 2 ^ 31.

(** A value stored in a 16-bit [SQLSMALLINT]. *)
Definition wrap16 (z : Z) : Z := (z + 2 ^ 15) mod 2 ^ 16 - 2 ^ 15.

Definition int32 (z : Z) : Prop := - 2 ^ 31 <= z < 2 ^ 31.

Definition int32b (z : Z) : bool := (- 2 ^ 31 <=? z) && (z <? 2 ^ 31).

(** Storing an [int] into a [char] keeps the low eight bits. *)
Definition char_of_int (z : Z) : byte := byte.of_Z z.

(** Reading a [char] as an [int]: plain [char] is signed in this driver's
    tool chain, so bytes from 0x80 on are negative. *)
Definition char_to_int (b : byte) : Z :=
  let u := byte.unsigned b in if u <? 128 then u else u - 256.

Definition NUL : byte := Byte.x00.

Definition is_NUL (b : byte) : bool := Byte.eqb b NUL.

(** The text of a [char*]: the bytes in front of the first terminator. *)
Fixpoint c_str (l : list byte) : list byte :=
  match l with
  | [] => []
  | b :: l' => if is_NUL b then [] else b :: c_str l'
  end.

(** [strlen]. *)
Definition strlen (s : list byte) : Z := Z.of_nat (length (c_str s)).

(** A byte sequence that holds no terminator: the text of a C string. *)
Definition is_text (s : list byte) : Prop := Forall (fun b => is_NUL b = false) s.

Definition is_textb (s : list byte) : bool := forallb (fun b => negb (is_NUL b)) s.

(** A string literal of the source. *)
Definition lit (s : string) : list byte := list_byte_of_string s.

(** A character literal of the source, as the [int] it is. *)
Definition chr (s : string) : Z :=
  match lit s with
  | b :: _ => char_to_int b
  | [] => 0
  end.

(** ** Application memory

    Buffers and indicators bound by the application live in its address
    space; the driver reaches them through the raw pointers it was given.
    The target is a little-endian 32-bit machine. *)

Definition Mem : Type := Z -> byte.

Definition store_byte (m : Mem) (a : Z) (b : byte) : Mem :=
  fun x => if x =? a then b else m x.

Fixpoint store_bytes (m : Mem) (a : Z) (bs : list byte) : Mem :=
  match bs with
  | [] => m
  | b :: bs' => store_bytes (store_byte m a b) (a + 1) bs'
  end.

Fixpoint load_bytes (m : Mem) (a : Z) (n : nat) : list byte :=
  match n with
  | O => []
  | S n' => m a :: load_bytes m (a + 1) n'
  end.

(** Little-endian layout of the [n] low bytes of [z]. *)
Fixpoint le_bytes (n : nat) (z : Z) : list byte :=
  match n with
  | O => []
  | S n' => byte.of_Z z :: le_bytes n' (Z.shiftr z 8)
  end.

Fixpoint le_value (bs : list byte) : Z :=
  match bs with
  | [] => 0
  | b :: bs' => Z.lor (byte.unsigned b) (Z.shiftl (le_value bs') 8)
  end.

(** [*(SQLINTEGER* )a = v] and [*(SQLUINTEGER* )a = v]. *)
Definition store_int32 (m : Mem) (a : Z) (v : Z) : Mem := store_bytes m a (le_bytes 4 v).

(** [*(SQLSMALLINT* )a = v]. *)
Definition store_int16 (m : Mem) (a : Z) (v : Z) : Mem := store_bytes m a (le_bytes 2 v).

(** [*(SQLINTEGER* )a]. *)
Definition load_int32 (m : Mem) (a : Z) : Z := wrap32 (le_value (load_bytes m a 4)).

(** [*(SQLSMALLINT* )a]. *)
Definition load_int16 (m : Mem) (a : Z) : Z := wrap16 (le_value (load_bytes m a 2)).

(** ** Constants of the ODBC headers

    [sql.h] and [sqlext.h] belong to the platform, not to the repository;
    the values are those of the ODBC 3 headers the driver is compiled
    against. *)

Definition SQL_NULL_DATA : Z := -1.
Definition SQL_DATA_AT_EXEC : Z := -2.
Definition SQL_NTS : Z := -3.
Definition SQL_DEFAULT_PARAM : Z := -5.

Definition SQL_CHAR : Z := 1.
Definition SQL_NUMERIC : Z := 2.
Definition SQL_DECIMAL : Z := 3.
Definition SQL_INTEGER : Z := 4.
Definition SQL_SMALLINT : Z := 5.
Definition SQL_FLOAT : Z := 6.
Definition SQL_REAL : Z := 7.
Definition SQL_DOUBLE : Z := 8.
Definition SQL_VARCHAR : Z := 12.

Definition SQL_SIGNED_OFFSET : Z := -20.
Definition SQL_UNSIGNED_OFFSET : Z := -22.
Definition SQL_C_CHAR : Z := SQL_CHAR.
Definition SQL_C_LONG : Z := SQL_INTEGER.
Definition SQL_C_SHORT : Z := SQL_SMALLINT.
Definition SQL_C_DOUBLE : Z := SQL_DOUBLE.
Definition SQL_C_SLONG : Z := SQL_C_LONG + SQL_SIGNED_OFFSET.
Definition SQL_C_ULONG : Z := SQL_C_LONG + SQL_UNSIGNED_OFFSET.
Definition SQL_C_SSHORT : Z := SQL_C_SHORT + SQL_SIGNED_OFFSET.

Definition SQL_SUCCESS : Z := 0.
Definition SQL_ERROR : Z := -1.
Definition SQL_INVALID_HANDLE : Z := -2.

(** [SOCKET_ERROR] of [winsock.h]. *)
Definition SOCKET_ERROR : Z := -1.

(** Further constants of [sql.h] and [sqlext.h]. *)
Definition SQL_NO_DATA : Z := 100.
Definition SQL_C_DEFAULT : Z := 99.
Definition SQL_NULLABLE_UNKNOWN : Z := 2.

Definition SQL_LONGVARCHAR : Z := -1.
Definition SQL_BINARY : Z := -2.
Definition SQL_VARBINARY : Z := -3.
Definition SQL_LONGVARBINARY : Z := -4.
Definition SQL_BIGINT : Z := -5.
Definition SQL_TINYINT : Z := -6.
Definition SQL_BIT : Z := -7.
Definition SQL_WCHAR : Z := -8.
Definition SQL_WVARCHAR : Z := -9.
Definition SQL_WLONGVARCHAR : Z := -10.
Definition SQL_GUID : Z := -11.
Definition SQL_DATE : Z := 9.
Definition SQL_TIME : Z := 10.
Definition SQL_TIMESTAMP : Z := 11.
Definition SQL_TYPE_DATE : Z := 91.
Definition SQL_TYPE_TIME : Z := 92.
Definition SQL_TYPE_TIMESTAMP : Z := 93.

Definition SQL_C_WCHAR : Z := SQL_WCHAR.
Definition SQL_C_BIT : Z := SQL_BIT.
Definition SQL_C_TINYINT : Z := SQL_TINYINT.
Definition SQL_C_SBIGINT : Z := SQL_BIGINT + SQL_SIGNED_OFFSET.
Definition SQL_C_FLOAT : Z := SQL_REAL.
Definition SQL_C_BINARY : Z := SQL_BINARY.
Definition SQL_C_DATE : Z := SQL_DATE.
Definition SQL_C_TIME : Z := SQL_TIME.
Definition SQL_C_TIMESTAMP : Z := SQL_TIMESTAMP.

Definition SQL_PARAM_INPUT : Z := 1.
Definition SQL_PARAM_INPUT_OUTPUT : Z := 2.
Definition SQL_PARAM_OUTPUT : Z := 4.

Definition SQL_COMMIT : Z := 0.
Definition SQL_ROLLBACK : Z := 1.


(** ** Diagnostics ([h2odbc.h], the [E_xxxxx] macros) *)

Definition E_07009 : string := "07009 Invalid descriptor index".
Definition E_08001 : string := "08001 Client unable to establish connection".
Definition E_08004 : string := "08004 Server rejected the connection".
Definition E_42000 : string := "42000 Syntax error or access violation".
Definition E_22002 : string := "22002 Indicator variable required but not supplied".
Definition E_HY012 : string := "HY012 Invalid transaction operation code".

(** The five-character SQLSTATE class at the head of a diagnostic. *)
Definition sqlstate (e : string) : string := substring 0 5 e.

(** ** Transport session ([sockets.cpp], class [Socket]) *)

Module Socket.

(** What one call of [recv] finds: a segment of bytes that has arrived, or a
    failure of the connection.  When the list of events is used up the peer
    has closed the stream.  A call that would block for ever is outside the
    model. *)
Inductive recv_event : Type :=
| Segment (bs : list byte)
| RecvError.

(** What one call of [send] does: take up to [n] of the offered bytes, or
    fail.  When the list is used up every later call takes all it is given. *)
Inductive send_event : Type :=
| Accept (n : nat)
| SendError.

(** The object and the environment it runs in: [m_socket] is the member of
    the class; [incoming] and [sending] script the peer and the operating
    system; [wire] collects the bytes handed to the peer; [garbage i] is the
    indeterminate byte found at index [i] of a stack buffer that has not been
    written yet. *)
Record t : Type := mk {
  m_socket : Z;
  incoming : list recv_event;
  sending : list send_event;
  wire : list byte;
  garbage : nat -> byte
}.

(** Computations that use the session. *)
Definition Net (A : Type) : Type := t -> A * t.

Definition ret {A : Type} (a : A) : Net A := fun s => (a, s).

Definition bind {A B : Type} (m : Net A) (k : A -> Net B) : Net B :=
  fun s => let '(a, s') := m s in k a s'.

(** A fresh [char buffer[n]]. *)
Definition uninit (s : t) (n : nat) : list byte := map (garbage s) (seq 0 n).

(** [Socket::setError]: the session is dead from here on. *)
Definition setError (s : t) : t :=
  {| m_socket := 0; incoming := incoming s; sending := sending s;
     wire := wire s; garbage := garbage s |}.

(** [Socket::close]. *)
Definition close (s : t) : t :=
  if m_socket s =? 0 then s
  else {| m_socket := 0; incoming := incoming s; sending := sending s;
          wire := wire s; garbage := garbage s |}.

(** [Socket::isClosed], as [h2odbc.h] defines it: [return m_socket != 0;]. *)
Definition isClosed (s : t) : bool := negb (m_socket s =? 0).

(** [recv(m_socket, buffer, len, 0)]: the result, the bytes put at the head
    of the buffer, and the session afterwards. *)
Definition recv (s : t) (len : nat) : Z * list byte * t :=
  let rest l := {| m_socket := m_socket s; incoming := l; sending := sending s;
                   wire := wire s; garbage := garbage s |} in
  match incoming s with
  | [] => (0, [], s)
  | RecvError :: l => (SOCKET_ERROR, [], rest l)
  | Segment bs :: l =>
      if (length bs <=? len)%nat then (Z.of_nat (length bs), bs, rest l)
      else (Z.of_nat len, firstn len bs, rest (Segment (skipn len bs) :: l))
  end.

(** The [do ... while(len>0)] of [Socket::read]; [got] are the bytes put in
    the buffer so far.  Every turn that goes on has received at least one
    byte, so [S (Z.to_nat len)] turns always suffice. *)
Fixpoint read_loop (fuel : nat) (s : t) (got : list byte) (len : Z) : list byte * t :=
  match fuel with
  | O => (got, s)
  | S fuel' =>
      let '(result, bs, s1) := recv s (Z.to_nat len) in
      if result =? 0 then (got, setError s1)
      else if result =? SOCKET_ERROR then (got, setError s1)
      else
        let len' := len - result in
        if 0 <? len' then read_loop fuel' s1 (got ++ bs) len'
        else (got ++ bs, s1)
  end.

(** [Socket::read]: the buffer afterwards and the session. *)
Definition read (buffer : list byte) (len : Z) : Net (list byte) := fun s =>
  if m_socket s =? 0 then (buffer, s)
  else
    let '(got, s') := read_loop (S (Z.to_nat len)) s [] len in
    (got ++ skipn (length got) buffer, s').

(** [send(m_socket, buffer, len, 0)]. *)
Definition send (s : t) (buffer : list byte) : Z * t :=
  let next l w := {| m_socket := m_socket s; incoming := incoming s; sending := l;
                     wire := w; garbage := garbage s |} in
  match sending s with
  | [] => (Z.of_nat (length buffer), next [] (wire s ++ buffer))
  | SendError :: l => (SOCKET_ERROR, next l (wire s))
  | Accept n :: l =>
      let k := Nat.min n (length buffer) in
      (Z.of_nat k, next l (wire s ++ firstn k buffer))
  end.

(** The [do ... while(len>0)] of [Socket::write]; [buffer] holds the [len]
    bytes still to go.  Each turn uses up one event of the script, and the
    turn after the last event sends everything. *)
Fixpoint write_loop (fuel : nat) (s : t) (buffer : list byte) : t :=
  match fuel with
  | O => s
  | S fuel' =>
      let '(result, s1) := send s buffer in
      if result =? SOCKET_ERROR then setError s1
      else
        let buffer' := skipn (Z.to_nat result) buffer in
        if (0 <? length buffer')%nat then write_loop fuel' s1 buffer' else s1
  end.

(** [Socket::write]. *)
Definition write (buffer : list byte) (len : Z) : Net unit := fun s =>
  if m_socket s =? 0 then (tt, s)
  else (tt, write_loop (S (length (sending s))) s (firstn (Z.to_nat len) buffer)).

(** [Socket::readByte]. *)
Definition readByte : Net Z := fun s =>
  if m_socket s =? 0 then (-1, s)
  else
    let '(buffer, s') := read (uninit s 1) 1 s in
    (char_to_int (nth 0 buffer NUL), s').

(** The expression [readInt] computes from its [buffer]: each [char] is
    masked to eight bits, shifted into place, and the four are or-ed into an
    [int]. *)
Definition int_of_buffer (buffer : list byte) : Z :=
  let b i := char_to_int (nth i buffer NUL) in
  wrap32 (Z.lor (Z.lor (Z.lor (Z.shiftl (Z.land (b 0%nat) 255) 24)
                              (Z.shiftl (Z.land (b 1%nat) 255) 16))
                       (Z.shiftl (Z.land (b 2%nat) 255) 8))
                (Z.land (b 3%nat) 255)).

(** [Socket::readInt]. *)
Definition readInt : Net Z := fun s =>
  if m_socket s =? 0 then (-1, s)
  else
    let '(buffer, s') := read (uninit s 4) 4 s in
    (int_of_buffer buffer, s').

(** [Socket::readBool]. *)
Definition readBool : Net bool := fun s =>
  let '(x, s') := readInt s in (x =? 1, s').

(** [Socket::readString]: the [std::string] built from [buffer]. *)
Definition readString : Net (list byte) := fun s =>
  if m_socket s =? 0 then ([], s)
  else
    let '(len0, s1) := readInt s in
    let len := if len0 <? 0 then 0 else len0 in
    let buffer := uninit s1 (Z.to_nat (len + 1)) in
    if len =? 0 then (c_str (NUL :: skipn 1 buffer), s1)
    else
      let '(buffer', s2) := read buffer len s1 in
      (c_str (firstn (Z.to_nat len) buffer' ++ [NUL]), s2).

(** [Socket::writeByte]. *)
Definition writeByte (byte : Z) : Net unit :=
  write [char_of_int byte] 1.

(** The [buffer] that [writeInt] fills. *)
Definition buffer_of_int (x : Z) : list byte :=
  [char_of_int (Z.land (Z.shiftr x 24) 255);
   char_of_int (Z.land (Z.shiftr x 16) 255);
   char_of_int (Z.land (Z.shiftr x 8) 255);
   char_of_int (Z.land x 255)].

(** [Socket::writeInt]. *)
Definition writeInt (x : Z) : Net unit :=
  write (buffer_of_int x) 4.

(** [Socket::writeBool]. *)
Definition writeBool (x : bool) : Net unit :=
  writeInt (if x then 1 else 0).

(** [Socket::writeString]: [string] is the memory the pointer designates. *)
Definition writeString (string : list byte) : Net unit :=
  let len := wrap32 (strlen string) in
  bind (writeInt len) (fun _ => write string len).

(** The resources behind the constructor: whether [socket], name resolution
    and [connect] succeed for a host and port, and if so the descriptor the
    operating system hands out and the peer's behaviour. *)
Record peer : Type := mkPeer {
  handle : Z;
  peer_incoming : list recv_event;
  peer_sending : list send_event
}.

Definition Network : Type := list byte -> Z -> option peer.

(** [Socket::Socket]: each failing step calls [setError] and returns. *)
Definition new (net : Network) (stack : nat -> byte) (host : list byte) (port : Z) : t :=
  match net host port with
  | Some p => {| m_socket := handle p; incoming := peer_incoming p;
                 sending := peer_sending p; wire := []; garbage := stack |}
  | None => {| m_socket := 0; incoming := []; sending := []; wire := [];
               garbage := stack |}
  end.

End Socket.

Notation "x <- m ;; k" := (Socket.bind m (fun x => k))
  (at level 61, m at next level, right associativity).
Notation "m ;;; k" := (Socket.bind m (fun _ => k))
  (at level 61, right associativity).

(** ** C library routines the driver calls *)

(** [itoa(value, buffer, 10)]. *)
Definition itoa (value : Z) : list byte :=
  list_byte_of_string (NilEmpty.string_of_int (Z.to_int value)).

Definition is_space (b : byte) : bool :=
  let u := byte.unsigned b in (u =? 32) || ((9 <=? u) && (u <=? 13)).

Definition digit_value (b : byte) : option Z :=
  let u := byte.unsigned b in
  if (48 <=? u) && (u <=? 57) then Some (u - 48) else None.

Fixpoint skip_spaces (l : list byte) : list byte :=
  match l with
  | b :: l' => if is_space b then skip_spaces l' else l
  | [] => []
  end.

Fixpoint atoi_digits (acc : Z) (l : list byte) : Z :=
  match l with
  | b :: l' =>
      match digit_value b with
      | Some d => atoi_digits (acc * 10 + d) l'
      | None => acc
      end
  | [] => acc
  end.

(** [atoi]; a value out of range wraps, as the C runtime of the tool chain
    does. *)
Definition atoi (s : list byte) : Z :=
  match skip_spaces (c_str s) with
  | b :: l' =>
      if byte.unsigned b =? 45 then wrap32 (- atoi_digits 0 l')
      else if byte.unsigned b =? 43 then wrap32 (atoi_digits 0 l')
      else wrap32 (atoi_digits 0 (b :: l'))
  | [] => 0
  end.

(** ** Output helpers ([sqlUtils.cpp])

    A result of [None] stands for undefined behaviour: a store through a null
    pointer or a copy with a negative count. *)

Module SqlUtils.

(** [returnString(SQLPOINTER dest, SQLINTEGER dest_len, SQLINTEGER* dest_pt,
    const char* source)]; [source] is [None] for a null pointer. *)
Definition returnString (dest dest_len dest_pt : Z) (source : option (list byte))
    (m : Mem) : option Mem :=
  if dest_len =? 0 then Some m
  else
    let s := match source with Some s => c_str s | None => [] end in
    let len := wrap32 (Z.of_nat (length s)) in
    let len := if dest_len <? len then dest_len else len in
    let m1 := if dest_pt =? 0 then m else store_int32 m dest_pt len in
    if dest =? 0 then Some m1
    else if len <? 0 then None
    else Some (store_byte (store_bytes m1 dest (firstn (Z.to_nat len) s)) (dest + len) NUL).

(** [returnInt(SQLPOINTER InfoValue, SQLINTEGER* LengthPtr, SQLUINTEGER value)]. *)
Definition returnInt (InfoValue LengthPtr value : Z) (m : Mem) : option Mem :=
  let m1 := if LengthPtr =? 0 then m else store_int32 m LengthPtr 4 in
  if InfoValue =? 0 then None else Some (store_int32 m1 InfoValue value).

(** [returnSmall(SQLPOINTER InfoValue, SQLINTEGER* LengthPtr, SQLUSMALLINT value)]. *)
Definition returnSmall (InfoValue LengthPtr value : Z) (m : Mem) : option Mem :=
  let m1 := if LengthPtr =? 0 then m else store_int32 m LengthPtr 2 in
  if InfoValue =? 0 then None else Some (store_int16 m1 InfoValue value).

(** [returnString(SQLCHAR* dest, SQLSMALLINT dest_len, SQLSMALLINT* dest_pt,
    const char* source)], the overload whose length goes to a
    [SQLSMALLINT]. *)
Definition returnStringSmall (dest dest_len dest_pt : Z) (source : option (list byte))
    (m : Mem) : option Mem :=
  if dest_len =? 0 then Some m
  else
    let s := match source with Some s => c_str s | None => [] end in
    let len := wrap32 (Z.of_nat (length s)) in
    let len := if dest_len <? len then dest_len else len in
    let m1 := if dest_pt =? 0 then m else store_int16 m dest_pt len in
    if dest =? 0 then Some m1
    else if len <? 0 then None
    else Some (store_byte (store_bytes m1 dest (firstn (Z.to_nat len) s)) (dest + len) NUL).

(** [returnInt(SQLPOINTER NumericPtr, int value)], the one overload of two
    arguments that [h2odbc.h] declares. *)
Definition returnIntPtr (NumericPtr value : Z) (m : Mem) : Mem :=
  if NumericPtr =? 0 then m else store_int32 m NumericPtr value.

(** What [strncpy(dest, source, n)] puts at [dest]: the bytes of [source] in
    front of its terminator, [n] at most, filled up with terminators to [n]
    bytes.  [source] is the memory from the pointer on. *)
Definition strncpy_bytes (source : list byte) (n : nat) : list byte :=
  let text := c_str (firstn n source) in
  text ++ repeat NUL (n - length text).

(** The [len] that [setString] copies. *)
Definition setString_len (dest_len : Z) (source : list byte) (source_len : Z) : Z :=
  let len := if source_len =? SQL_NTS then wrap32 (strlen source) else source_len in
  if dest_len <? len then dest_len else len.

(** [setString(char* dest, int dest_len, SQLCHAR* source, SQLSMALLINT
    source_len)]; [source] is [None] for a null pointer. *)
Definition setString (dest dest_len : Z) (source : option (list byte)) (source_len : Z)
    (m : Mem) : option Mem :=
  if (dest =? 0) || (dest_len =? 0) then Some m
  else
    match source with
    | None => Some (store_byte m dest NUL)
    | Some src =>
        let len := setString_len dest_len src source_len in
        if len <? 0 then None
        else Some (store_byte (store_bytes m dest (strncpy_bytes src (Z.to_nat len)))
                     (dest + len) NUL)
    end.

(** [getDefaultCType]. *)
Definition getDefaultCType (sqlType : Z) : Z :=
  if (sqlType =? SQL_CHAR) || (sqlType =? SQL_VARCHAR) || (sqlType =? SQL_LONGVARCHAR)
     || (sqlType =? SQL_DECIMAL) || (sqlType =? SQL_NUMERIC) || (sqlType =? SQL_GUID)
  then SQL_C_CHAR
  else if (sqlType =? SQL_WCHAR) || (sqlType =? SQL_WVARCHAR) || (sqlType =? SQL_WLONGVARCHAR)
  then SQL_C_WCHAR
  else if sqlType =? SQL_BIT then SQL_C_BIT
  else if sqlType =? SQL_TINYINT then SQL_C_TINYINT
  else if sqlType =? SQL_SMALLINT then SQL_C_SHORT
  else if sqlType =? SQL_INTEGER then SQL_C_LONG
  else if sqlType =? SQL_BIGINT then SQL_C_SBIGINT
  else if sqlType =? SQL_REAL then SQL_C_FLOAT
  else if (sqlType =? SQL_FLOAT) || (sqlType =? SQL_DOUBLE) then SQL_C_DOUBLE
  else if (sqlType =? SQL_BINARY) || (sqlType =? SQL_VARBINARY)
          || (sqlType =? SQL_LONGVARBINARY)
  then SQL_C_BINARY
  else if sqlType =? SQL_TYPE_DATE then SQL_C_DATE
  else if sqlType =? SQL_TYPE_TIME then SQL_C_TIME
  else if sqlType =? SQL_TYPE_TIMESTAMP then SQL_C_TIMESTAMP
  else SQL_C_CHAR.

End SqlUtils.

(** ** Magic numbers ([h2odbc.h]) *)

Definition MAGIC_ENVIRONMENT : Z := 0xABC0.
Definition MAGIC_CONNECTION : Z := 0xABC1.
Definition MAGIC_STATEMENT : Z := 0xABC2.
Definition MAGIC_DESCRIPTOR : Z := 0xABC3.
Definition MAGIC_DESCRIPTOR_RECORD : Z := 0xABC4.

(** What a handle check sees of the heap: the [int] at the address, which is
    the [m_magic] member when an object of the driver lives there. *)
Definition MagicView : Type := Z -> Z.

(** ** Descriptor records ([odbcDescriptor.cpp], class [DescriptorRecord]) *)

Module DescriptorRecord.

Record t : Type := mk {
  m_magic : Z;
  m_sqlDataType : Z;
  m_cDataType : Z;
  m_name : list byte;
  m_columnName : list byte;
  m_tableName : list byte;
  m_pointer : Z;
  m_statusPointer : Z;
  m_targetBufferLength : Z;
  m_dataInt : Z;
  m_dataString : list byte;
  m_precision : Z;
  m_scale : Z;
  m_displaySize : Z;
  m_wasNull : bool
}.

(** The constructor. *)
Definition new : t :=
  {| m_magic := MAGIC_DESCRIPTOR_RECORD; m_sqlDataType := 0; m_cDataType := 0;
     m_name := []; m_columnName := []; m_tableName := [];
     m_pointer := 0; m_statusPointer := 0; m_targetBufferLength := 0;
     m_dataInt := 0; m_dataString := []; m_precision := 0; m_scale := 0;
     m_displaySize := 0; m_wasNull := false |}.

(** [setCDataType], [setTargetPointer], [setTargetBufferLength] and
    [setTargetStatusPointer], as [SQLBindCol] calls them in a row. *)
Definition bind_target (cDataType pointer len statusPointer : Z) (r : t) : t :=
  {| m_magic := m_magic r; m_sqlDataType := m_sqlDataType r; m_cDataType := cDataType;
     m_name := m_name r; m_columnName := m_columnName r; m_tableName := m_tableName r;
     m_pointer := pointer; m_statusPointer := statusPointer;
     m_targetBufferLength := len;
     m_dataInt := m_dataInt r; m_dataString := m_dataString r;
     m_precision := m_precision r; m_scale := m_scale r;
     m_displaySize := m_displaySize r; m_wasNull := m_wasNull r |}.

Definition setSqlDataType (sqlDataType : Z) (r : t) : t :=
  {| m_magic := m_magic r; m_sqlDataType := sqlDataType; m_cDataType := m_cDataType r;
     m_name := m_name r; m_columnName := m_columnName r; m_tableName := m_tableName r;
     m_pointer := m_pointer r; m_statusPointer := m_statusPointer r;
     m_targetBufferLength := m_targetBufferLength r;
     m_dataInt := m_dataInt r; m_dataString := m_dataString r;
     m_precision := m_precision r; m_scale := m_scale r;
     m_displaySize := m_displaySize r; m_wasNull := m_wasNull r |}.

(** The value members a fetch rewrites. *)
Definition with_data (wasNull : bool) (dataInt : Z) (dataString : list byte) (r : t) : t :=
  {| m_magic := m_magic r; m_sqlDataType := m_sqlDataType r; m_cDataType := m_cDataType r;
     m_name := m_name r; m_columnName := m_columnName r; m_tableName := m_tableName r;
     m_pointer := m_pointer r; m_statusPointer := m_statusPointer r;
     m_targetBufferLength := m_targetBufferLength r;
     m_dataInt := dataInt; m_dataString := dataString;
     m_precision := m_precision r; m_scale := m_scale r;
     m_displaySize := m_displaySize r; m_wasNull := wasNull |}.

(** [DescriptorRecord::readMeta]. *)
Definition readMeta (r : t) : Socket.Net t :=
  sqlDataType <- Socket.readInt ;;
  tableName <- Socket.readString ;;
  name <- Socket.readString ;;
  precision <- Socket.readInt ;;
  scale <- Socket.readInt ;;
  displaySize <- Socket.readInt ;;
  Socket.ret
    {| m_magic := m_magic r; m_sqlDataType := sqlDataType; m_cDataType := m_cDataType r;
       m_name := name; m_columnName := name; m_tableName := tableName;
       m_pointer := m_pointer r; m_statusPointer := m_statusPointer r;
       m_targetBufferLength := m_targetBufferLength r;
       m_dataInt := m_dataInt r; m_dataString := m_dataString r;
       m_precision := precision; m_scale := scale;
       m_displaySize := displaySize; m_wasNull := m_wasNull r |}.

(** [DescriptorRecord::readData]. *)
Definition readData (r : t) : Socket.Net t :=
  if m_sqlDataType r =? 0 then
    Socket.ret (with_data true 0 (m_dataString r) r)
  else if (m_sqlDataType r =? SQL_SMALLINT) || (m_sqlDataType r =? SQL_INTEGER) then
    wasNull <- Socket.readBool ;;
    if (wasNull : bool) then Socket.ret (with_data true 0 (m_dataString r) r)
    else
      dataInt <- Socket.readInt ;;
      Socket.ret (with_data false dataInt (m_dataString r) r)
  else if m_sqlDataType r =? SQL_VARCHAR then
    dataString <- Socket.readString ;;
    Socket.ret (with_data false (m_dataInt r) dataString r)
  else Socket.ret (with_data false (m_dataInt r) (m_dataString r) r).

(** [DescriptorRecord::getString]; [None] is the null pointer of [case 0]. *)
Definition getString (r : t) : option (list byte) :=
  if m_sqlDataType r =? SQL_VARCHAR then Some (m_dataString r)
  else if (m_sqlDataType r =? SQL_SMALLINT) || (m_sqlDataType r =? SQL_INTEGER) then
    Some (itoa (m_dataInt r))
  else if m_sqlDataType r =? 0 then None
  else Some [].

(** [DescriptorRecord::getInt]. *)
Definition getInt (r : t) : Z :=
  if m_sqlDataType r =? SQL_VARCHAR then atoi (m_dataString r)
  else if (m_sqlDataType r =? SQL_SMALLINT) || (m_sqlDataType r =? SQL_INTEGER) then
    m_dataInt r
  else 0.

(** [DescriptorRecord::setNull], on the application record. *)
Definition setNull (ar : t) (m : Mem) : Mem :=
  if m_statusPointer ar =? 0 then m
  else store_int32 m (m_statusPointer ar) SQL_NULL_DATA.

(** [DescriptorRecord::copyData]: [ir] is [this], [ar] the application
    record. *)
Definition copyData (ir ar : t) (m : Mem) : option Mem :=
  if m_wasNull ir then Some (setNull ar m)
  else if m_cDataType ar =? SQL_C_CHAR then
    SqlUtils.returnString (m_pointer ar) (m_targetBufferLength ar) (m_statusPointer ar)
      (getString ir) m
  else if (m_cDataType ar =? SQL_C_SLONG) || (m_cDataType ar =? SQL_C_ULONG) then
    SqlUtils.returnInt (m_pointer ar) (m_statusPointer ar) (getInt ir) m
  else if m_cDataType ar =? SQL_C_SSHORT then
    SqlUtils.returnSmall (m_pointer ar) (m_statusPointer ar) (getInt ir) m
  else Some m.

(** The [switch(m_cDataType)] of [sendParameterValue]. *)
Definition sendValue (m : Mem) (r : t) (length : Z) : Socket.Net unit :=
  if m_cDataType r =? SQL_C_SHORT then
    Socket.writeInt SQL_INTEGER ;;; Socket.writeInt (load_int16 m (m_pointer r))
  else if m_cDataType r =? SQL_C_LONG then
    Socket.writeInt SQL_INTEGER ;;; Socket.writeInt (load_int32 m (m_pointer r))
  else if m_cDataType r =? SQL_C_CHAR then
    if length <? 0 then Socket.writeInt 0
    else
      let buff := load_bytes m (m_pointer r) (Z.to_nat length) ++ [NUL] in
      Socket.writeInt SQL_VARCHAR ;;; Socket.writeString buff
  else Socket.ret tt.

(** [DescriptorRecord::sendParameterValue]; [m] is the application's memory,
    read through [m_statusPointer] and [m_pointer]. *)
Definition sendParameterValue (m : Mem) (r : t) : Socket.Net unit :=
  let send length :=
    if m_pointer r =? 0 then Socket.writeInt 0 else sendValue m r length in
  if m_statusPointer r =? 0 then send (m_targetBufferLength r)
  else
    let ind := load_int32 m (m_statusPointer r) in
    if ind =? SQL_NULL_DATA then Socket.writeInt 0
    else if (ind =? SQL_NTS) || (ind =? SQL_DEFAULT_PARAM) || (ind =? SQL_DATA_AT_EXEC)
    then send (m_targetBufferLength r)
    else send ind.

(** [DescriptorRecord::cast]. *)
Definition cast (magic : MagicView) (pointer : Z) : Z :=
  if pointer =? 0 then 0
  else if negb (magic pointer =? MAGIC_DESCRIPTOR_RECORD) then 0
  else pointer.

(** [DescriptorRecord::getSuffix]. *)
Definition getSuffix (r : t) : list byte :=
  if (m_sqlDataType r =? SQL_VARCHAR) || (m_sqlDataType r =? SQL_TYPE_DATE)
     || (m_sqlDataType r =? SQL_TYPE_TIME) || (m_sqlDataType r =? SQL_TYPE_TIMESTAMP)
  then lit ","
  else [].

(** [DescriptorRecord::getPrefix]. *)
Definition getPrefix (r : t) : list byte := getSuffix r.

(** [DescriptorRecord::getLength]. *)
Definition getLength (r : t) : Z :=
  let ty := m_sqlDataType r in
  if ty =? SQL_VARCHAR then 255
  else if (ty =? SQL_DECIMAL) || (ty =? SQL_NUMERIC) then 100
  else if ty =? SQL_BIT then 1
  else if ty =? SQL_TINYINT then 3
  else if ty =? SQL_SMALLINT then 5
  else if ty =? SQL_INTEGER then 10
  else if ty =? SQL_BIGINT then 20
  else if ty =? SQL_REAL then 7
  else if (ty =? SQL_FLOAT) || (ty =? SQL_DOUBLE) then 15
  else if ty =? SQL_TYPE_DATE then 10
  else if ty =? SQL_TYPE_TIME then 8
  else if ty =? SQL_TYPE_TIMESTAMP then 40
  else 255.

(** [DescriptorRecord::hasFixedPrecisionScale]: every branch of the switch
    returns [false]. *)
Definition hasFixedPrecisionScale (r : t) : bool :=
  if (m_sqlDataType r =? SQL_VARCHAR) || (m_sqlDataType r =? SQL_INTEGER)
     || (m_sqlDataType r =? SQL_SMALLINT) || (m_sqlDataType r =? 0)
  then false
  else false.

End DescriptorRecord.

(** ** Descriptors ([odbcDescriptor.cpp] and [h2odbc.h], class [Descriptor]) *)

Inductive DescriptorState : Type := D_ACTIVE | D_FREE.
Inductive DescriptorType : Type := DT_DEFAULT | DT_SHARED.
Inductive ConnectionState : Type := C_INIT | C_OPEN | C_CLOSED.
Inductive StatementState : Type := S_PREPARED | S_EXECUTED | S_POSITIONED | S_CLOSED.

Definition SQL_ROW_SUCCESS : Z := 0.
Definition SQL_ROW_NOROW : Z := 3.

Module Descriptor.

Record t : Type := mk {
  m_magic : Z;
  m_type : DescriptorType;
  m_arraySize : Z;
  m_count : Z;
  m_statusPointer : Z;
  m_rowsProcessedPointer : Z;
  m_state : DescriptorState;
  m_records : list DescriptorRecord.t;
  m_error : option string;
  m_rowWiseBinding : bool;
  m_rowSize : Z
}.

Definition set_m_magic (v : Z) (x : t) : t :=
  {| m_magic := v; m_type := m_type x; m_arraySize := m_arraySize x;
     m_count := m_count x; m_statusPointer := m_statusPointer x;
     m_rowsProcessedPointer := m_rowsProcessedPointer x; m_state := m_state x;
     m_records := m_records x; m_error := m_error x;
     m_rowWiseBinding := m_rowWiseBinding x; m_rowSize := m_rowSize x |}.

Definition set_m_records (v : list DescriptorRecord.t) (x : t) : t :=
  {| m_magic := m_magic x; m_type := m_type x; m_arraySize := m_arraySize x;
     m_count := m_count x; m_statusPointer := m_statusPointer x;
     m_rowsProcessedPointer := m_rowsProcessedPointer x; m_state := m_state x;
     m_records := v; m_error := m_error x; m_rowWiseBinding := m_rowWiseBinding x;
     m_rowSize := m_rowSize x |}.

Definition set_m_error (v : option string) (x : t) : t :=
  {| m_magic := m_magic x; m_type := m_type x; m_arraySize := m_arraySize x;
     m_count := m_count x; m_statusPointer := m_statusPointer x;
     m_rowsProcessedPointer := m_rowsProcessedPointer x; m_state := m_state x;
     m_records := m_records x; m_error := v; m_rowWiseBinding := m_rowWiseBinding x;
     m_rowSize := m_rowSize x |}.

Definition set_m_statusPointer (v : Z) (x : t) : t :=
  {| m_magic := m_magic x; m_type := m_type x; m_arraySize := m_arraySize x;
     m_count := m_count x; m_statusPointer := v;
     m_rowsProcessedPointer := m_rowsProcessedPointer x; m_state := m_state x;
     m_records := m_records x; m_error := m_error x;
     m_rowWiseBinding := m_rowWiseBinding x; m_rowSize := m_rowSize x |}.

Definition set_m_rowsProcessedPointer (v : Z) (x : t) : t :=
  {| m_magic := m_magic x; m_type := m_type x; m_arraySize := m_arraySize x;
     m_count := m_count x; m_statusPointer := m_statusPointer x;
     m_rowsProcessedPointer := v; m_state := m_state x; m_records := m_records x;
     m_error := m_error x; m_rowWiseBinding := m_rowWiseBinding x;
     m_rowSize := m_rowSize x |}.

(** [Descriptor::init] followed by [m_type = DT_DEFAULT]: the constructor of
    the descriptors a statement embeds. *)
Definition new : t :=
  {| m_magic := MAGIC_DESCRIPTOR; m_type := DT_DEFAULT; m_arraySize := 0; m_count := 0;
     m_statusPointer := 0; m_rowsProcessedPointer := 0; m_state := D_ACTIVE;
     m_records := []; m_error := None; m_rowWiseBinding := false; m_rowSize := 0 |}.

(** [clearRecords]. *)
Definition clearRecords (d : t) : t := set_m_records [] d.

(** [addRecord]. *)
Definition addRecord (rec : DescriptorRecord.t) (d : t) : t :=
  set_m_records (m_records d ++ [rec]) d.

(** [getRecord]: [m_records[i]] is not range-checked; [None] stands for the
    undefined behaviour of an index outside the vector. *)
Definition getRecord (d : t) (i : Z) : option DescriptorRecord.t :=
  if i <? 0 then None else nth_error (m_records d) (Z.to_nat i).

(** [getRecordCount]. *)
Definition getRecordCount (d : t) : Z := Z.of_nat (length (m_records d)).

(** Overwriting record [i] in place. *)
Fixpoint replace_nth {A : Type} (n : nat) (a : A) (l : list A) : list A :=
  match l, n with
  | [], _ => []
  | _ :: l', O => a :: l'
  | x :: l', S n' => x :: replace_nth n' a l'
  end.

(** [Descriptor::readData]. *)
Definition readData (i : Z) (d : t) : Socket.Net (option t) :=
  match getRecord d i with
  | None => Socket.ret None
  | Some rec =>
      rec' <- DescriptorRecord.readData rec ;;
      Socket.ret (Some (set_m_records (replace_nth (Z.to_nat i) rec' (m_records d)) d))
  end.

(** [setStatus]: a store to the caller's [SQLUSMALLINT]. *)
Definition setStatus (value : Z) (d : t) (m : Mem) : Mem :=
  if m_statusPointer d =? 0 then m else store_int16 m (m_statusPointer d) value.

(** [setRowsProcessed]: a store to the caller's [SQLUINTEGER]. *)
Definition setRowsProcessed (rows : Z) (d : t) (m : Mem) : Mem :=
  if m_rowsProcessedPointer d =? 0 then m
  else store_int32 m (m_rowsProcessedPointer d) rows.

(** [Descriptor::cast].  The body obtains [desc] by calling
    [Descriptor::cast(pointer)] again, so the function is recursive; [fuel]
    bounds the depth of calls, and [None] says that no call has returned
    within that depth. *)
Fixpoint cast (fuel : nat) (magic : MagicView) (pointer : Z) : option Z :=
  match fuel with
  | O => None
  | S fuel' =>
      if pointer =? 0 then Some 0
      else
        match cast fuel' magic pointer with
        | None => None
        | Some desc =>
            if negb (magic desc =? MAGIC_DESCRIPTOR) then Some 0 else Some desc
        end
  end.

(** The destructor: the tag is cleared and the records are deleted. *)
Definition destroy (d : t) : t :=
  if m_magic d =? MAGIC_DESCRIPTOR then set_m_records [] (set_m_magic 0 d) else d.

End Descriptor.

(** ** Statements ([odbcStatement.cpp], class [Statement])

    [m_appRow], [m_impRow], [m_appParam] and [m_impParam] always point at the
    four descriptors the statement embeds; the record holds the descriptors
    themselves.  The session is the one [m_connection->getSocket()] returns;
    it is threaded through [Socket.Net]. *)

Module Statement.

Record t : Type := mk {
  m_magic : Z;
  m_appRow : Descriptor.t;
  m_impRow : Descriptor.t;
  m_appParam : Descriptor.t;
  m_impParam : Descriptor.t;
  m_state : StatementState;
  m_sql : list byte;
  m_columnCount : Z;
  m_updateCount : Z;
  m_resultSetId : Z;
  m_preparedId : Z;
  m_rowId : Z;
  m_hasResultSet : bool;
  m_parameterCount : Z;
  m_useBookmarks : bool;
  m_error : option string
}.

Definition set_m_magic (v : Z) (x : t) : t :=
  {| m_magic := v; m_appRow := m_appRow x; m_impRow := m_impRow x;
     m_appParam := m_appParam x; m_impParam := m_impParam x; m_state := m_state x;
     m_sql := m_sql x; m_columnCount := m_columnCount x;
     m_updateCount := m_updateCount x; m_resultSetId := m_resultSetId x;
     m_preparedId := m_preparedId x; m_rowId := m_rowId x;
     m_hasResultSet := m_hasResultSet x; m_parameterCount := m_parameterCount x;
     m_useBookmarks := m_useBookmarks x; m_error := m_error x |}.

Definition set_m_appRow (v : Descriptor.t) (x : t) : t :=
  {| m_magic := m_magic x; m_appRow := v; m_impRow := m_impRow x;
     m_appParam := m_appParam x; m_impParam := m_impParam x; m_state := m_state x;
     m_sql := m_sql x; m_columnCount := m_columnCount x;
     m_updateCount := m_updateCount x; m_resultSetId := m_resultSetId x;
     m_preparedId := m_preparedId x; m_rowId := m_rowId x;
     m_hasResultSet := m_hasResultSet x; m_parameterCount := m_parameterCount x;
     m_useBookmarks := m_useBookmarks x; m_error := m_error x |}.

Definition set_m_impRow (v : Descriptor.t) (x : t) : t :=
  {| m_magic := m_magic x; m_appRow := m_appRow x; m_impRow := v;
     m_appParam := m_appParam x; m_impParam := m_impParam x; m_state := m_state x;
     m_sql := m_sql x; m_columnCount := m_columnCount x;
     m_updateCount := m_updateCount x; m_resultSetId := m_resultSetId x;
     m_preparedId := m_preparedId x; m_rowId := m_rowId x;
     m_hasResultSet := m_hasResultSet x; m_parameterCount := m_parameterCount x;
     m_useBookmarks := m_useBookmarks x; m_error := m_error x |}.

Definition set_m_appParam (v : Descriptor.t) (x : t) : t :=
  {| m_magic := m_magic x; m_appRow := m_appRow x; m_impRow := m_impRow x;
     m_appParam := v; m_impParam := m_impParam x; m_state := m_state x;
     m_sql := m_sql x; m_columnCount := m_columnCount x;
     m_updateCount := m_updateCount x; m_resultSetId := m_resultSetId x;
     m_preparedId := m_preparedId x; m_rowId := m_rowId x;
     m_hasResultSet := m_hasResultSet x; m_parameterCount := m_parameterCount x;
     m_useBookmarks := m_useBookmarks x; m_error := m_error x |}.

Definition set_m_impParam (v : Descriptor.t) (x : t) : t :=
  {| m_magic := m_magic x; m_appRow := m_appRow x; m_impRow := m_impRow x;
     m_appParam := m_appParam x; m_impParam := v; m_state := m_state x;
     m_sql := m_sql x; m_columnCount := m_columnCount x;
     m_updateCount := m_updateCount x; m_resultSetId := m_resultSetId x;
     m_preparedId := m_preparedId x; m_rowId := m_rowId x;
     m_hasResultSet := m_hasResultSet x; m_parameterCount := m_parameterCount x;
     m_useBookmarks := m_useBookmarks x; m_error := m_error x |}.

Definition set_m_state (v : StatementState) (x : t) : t :=
  {| m_magic := m_magic x; m_appRow := m_appRow x; m_impRow := m_impRow x;
     m_appParam := m_appParam x; m_impParam := m_impParam x; m_state := v;
     m_sql := m_sql x; m_columnCount := m_columnCount x;
     m_updateCount := m_updateCount x; m_resultSetId := m_resultSetId x;
     m_preparedId := m_preparedId x; m_rowId := m_rowId x;
     m_hasResultSet := m_hasResultSet x; m_parameterCount := m_parameterCount x;
     m_useBookmarks := m_useBookmarks x; m_error := m_error x |}.

Definition set_m_sql (v : list byte) (x : t) : t :=
  {| m_magic := m_magic x; m_appRow := m_appRow x; m_impRow := m_impRow x;
     m_appParam := m_appParam x; m_impParam := m_impParam x; m_state := m_state x;
     m_sql := v; m_columnCount := m_columnCount x; m_updateCount := m_updateCount x;
     m_resultSetId := m_resultSetId x; m_preparedId := m_preparedId x;
     m_rowId := m_rowId x; m_hasResultSet := m_hasResultSet x;
     m_parameterCount := m_parameterCount x; m_useBookmarks := m_useBookmarks x;
     m_error := m_error x |}.

Definition set_m_columnCount (v : Z) (x : t) : t :=
  {| m_magic := m_magic x; m_appRow := m_appRow x; m_impRow := m_impRow x;
     m_appParam := m_appParam x; m_impParam := m_impParam x; m_state := m_state x;
     m_sql := m_sql x; m_columnCount := v; m_updateCount := m_updateCount x;
     m_resultSetId := m_resultSetId x; m_preparedId := m_preparedId x;
     m_rowId := m_rowId x; m_hasResultSet := m_hasResultSet x;
     m_parameterCount := m_parameterCount x; m_useBookmarks := m_useBookmarks x;
     m_error := m_error x |}.

Definition set_m_updateCount (v : Z) (x : t) : t :=
  {| m_magic := m_magic x; m_appRow := m_appRow x; m_impRow := m_impRow x;
     m_appParam := m_appParam x; m_impParam := m_impParam x; m_state := m_state x;
     m_sql := m_sql x; m_columnCount := m_columnCount x; m_updateCount := v;
     m_resultSetId := m_resultSetId x; m_preparedId := m_preparedId x;
     m_rowId := m_rowId x; m_hasResultSet := m_hasResultSet x;
     m_parameterCount := m_parameterCount x; m_useBookmarks := m_useBookmarks x;
     m_error := m_error x |}.

Definition set_m_resultSetId (v : Z) (x : t) : t :=
  {| m_magic := m_magic x; m_appRow := m_appRow x; m_impRow := m_impRow x;
     m_appParam := m_appParam x; m_impParam := m_impParam x; m_state := m_state x;
     m_sql := m_sql x; m_columnCount := m_columnCount x;
     m_updateCount := m_updateCount x; m_resultSetId := v;
     m_preparedId := m_preparedId x; m_rowId := m_rowId x;
     m_hasResultSet := m_hasResultSet x; m_parameterCount := m_parameterCount x;
     m_useBookmarks := m_useBookmarks x; m_error := m_error x |}.

Definition set_m_preparedId (v : Z) (x : t) : t :=
  {| m_magic := m_magic x; m_appRow := m_appRow x; m_impRow := m_impRow x;
     m_appParam := m_appParam x; m_impParam := m_impParam x; m_state := m_state x;
     m_sql := m_sql x; m_columnCount := m_columnCount x;
     m_updateCount := m_updateCount x; m_resultSetId := m_resultSetId x;
     m_preparedId := v; m_rowId := m_rowId x; m_hasResultSet := m_hasResultSet x;
     m_parameterCount := m_parameterCount x; m_useBookmarks := m_useBookmarks x;
     m_error := m_error x |}.

Definition set_m_rowId (v : Z) (x : t) : t :=
  {| m_magic := m_magic x; m_appRow := m_appRow x; m_impRow := m_impRow x;
     m_appParam := m_appParam x; m_impParam := m_impParam x; m_state := m_state x;
     m_sql := m_sql x; m_columnCount := m_columnCount x;
     m_updateCount := m_updateCount x; m_resultSetId := m_resultSetId x;
     m_preparedId := m_preparedId x; m_rowId := v; m_hasResultSet := m_hasResultSet x;
     m_parameterCount := m_parameterCount x; m_useBookmarks := m_useBookmarks x;
     m_error := m_error x |}.

Definition set_m_hasResultSet (v : bool) (x : t) : t :=
  {| m_magic := m_magic x; m_appRow := m_appRow x; m_impRow := m_impRow x;
     m_appParam := m_appParam x; m_impParam := m_impParam x; m_state := m_state x;
     m_sql := m_sql x; m_columnCount := m_columnCount x;
     m_updateCount := m_updateCount x; m_resultSetId := m_resultSetId x;
     m_preparedId := m_preparedId x; m_rowId := m_rowId x; m_hasResultSet := v;
     m_parameterCount := m_parameterCount x; m_useBookmarks := m_useBookmarks x;
     m_error := m_error x |}.

Definition set_m_parameterCount (v : Z) (x : t) : t :=
  {| m_magic := m_magic x; m_appRow := m_appRow x; m_impRow := m_impRow x;
     m_appParam := m_appParam x; m_impParam := m_impParam x; m_state := m_state x;
     m_sql := m_sql x; m_columnCount := m_columnCount x;
     m_updateCount := m_updateCount x; m_resultSetId := m_resultSetId x;
     m_preparedId := m_preparedId x; m_rowId := m_rowId x;
     m_hasResultSet := m_hasResultSet x; m_parameterCount := v;
     m_useBookmarks := m_useBookmarks x; m_error := m_error x |}.

Definition set_m_error (v : option string) (x : t) : t :=
  {| m_magic := m_magic x; m_appRow := m_appRow x; m_impRow := m_impRow x;
     m_appParam := m_appParam x; m_impParam := m_impParam x; m_state := m_state x;
     m_sql := m_sql x; m_columnCount := m_columnCount x;
     m_updateCount := m_updateCount x; m_resultSetId := m_resultSetId x;
     m_preparedId := m_preparedId x; m_rowId := m_rowId x;
     m_hasResultSet := m_hasResultSet x; m_parameterCount := m_parameterCount x;
     m_useBookmarks := m_useBookmarks x; m_error := v |}.

(** The constructor; it leaves [m_state] unset, [state0] is what the member
    happens to hold. *)
Definition new (state0 : StatementState) : t :=
  {| m_magic := MAGIC_STATEMENT;
     m_appRow := Descriptor.new; m_impRow := Descriptor.new;
     m_appParam := Descriptor.new; m_impParam := Descriptor.new;
     m_state := state0; m_sql := []; m_columnCount := 0; m_updateCount := 0;
     m_resultSetId := -1; m_preparedId := 0; m_rowId := 0; m_hasResultSet := false;
     m_parameterCount := 0; m_useBookmarks := false; m_error := None |}.

(** The destructor; the four embedded descriptors are destroyed with the
    statement, whichever way the body leaves. *)
Definition destroy (st : t) : t :=
  let members x :=
    set_m_appRow (Descriptor.destroy (m_appRow x))
      (set_m_impRow (Descriptor.destroy (m_impRow x))
         (set_m_appParam (Descriptor.destroy (m_appParam x))
            (set_m_impParam (Descriptor.destroy (m_impParam x)) x))) in
  if m_magic st =? MAGIC_STATEMENT then members (set_m_magic 0 st) else members st.

(** [Statement::cast]. *)
Definition cast (magic : MagicView) (pointer : Z) : Z :=
  if pointer =? 0 then 0
  else if negb (magic pointer =? MAGIC_STATEMENT) then 0
  else pointer.

Definition setError (error : option string) (st : t) : t := set_m_error error st.

(** The [for] loop of [processResultSet]: [n] columns still to register. *)
Fixpoint readColumns (n : nat) (imp app : Descriptor.t)
    : Socket.Net (Descriptor.t * Descriptor.t) :=
  match n with
  | O => Socket.ret (imp, app)
  | S n' =>
      rec <- DescriptorRecord.readMeta DescriptorRecord.new ;;
      readColumns n' (Descriptor.addRecord rec imp)
                     (Descriptor.addRecord DescriptorRecord.new app)
  end.

(** [Statement::processResultSet]. *)
Definition processResultSet (st : t) : Socket.Net t :=
  let st := set_m_hasResultSet true
              (set_m_state S_EXECUTED (set_m_updateCount 0 (set_m_rowId 0 st))) in
  resultSetId <- Socket.readInt ;;
  columnCount <- Socket.readInt ;;
  let st := set_m_columnCount columnCount (set_m_resultSetId resultSetId st) in
  descs <- readColumns (Z.to_nat columnCount)
             (Descriptor.clearRecords (m_impRow st))
             (Descriptor.clearRecords (m_appRow st)) ;;
  Socket.ret (set_m_appRow (snd descs) (set_m_impRow (fst descs) st)).

(** [Statement::prepare]. *)
Definition prepare (sql : list byte) (st : t) : Socket.Net (bool * t) :=
  let st := set_m_state S_PREPARED st in
  Socket.writeByte (chr "P") ;;;
  Socket.writeString sql ;;;
  let st := set_m_sql (c_str sql) st in
  result <- Socket.readByte ;;
  if result =? chr "E" then
    Socket.ret (false, setError (Some E_42000)
                         (set_m_state S_CLOSED (set_m_parameterCount 0 st)))
  else if result =? chr "O" then
    preparedId <- Socket.readInt ;;
    parameterCount <- Socket.readInt ;;
    Socket.ret (true,
      set_m_appParam (Descriptor.clearRecords (m_appParam st))
        (set_m_impParam (Descriptor.clearRecords (m_impParam st))
           (set_m_parameterCount parameterCount (set_m_preparedId preparedId st))))
  else Socket.ret (true, st).

(** [Statement::addParameter]. *)
Definition addParameter (st : t) : t :=
  set_m_appParam (Descriptor.addRecord DescriptorRecord.new (m_appParam st))
    (set_m_impParam (Descriptor.addRecord DescriptorRecord.new (m_impParam st)) st).

(** The [for] loop of [executePrepared]: [n] parameters still to send, the
    next one being [i].  The result is [false] when [getRecord(i)] left the
    vector, where the behaviour is undefined. *)
Fixpoint sendParameters (m : Mem) (desc : Descriptor.t) (n : nat) (i : Z)
    : Socket.Net bool :=
  match n with
  | O => Socket.ret true
  | S n' =>
      Socket.writeByte (chr "1") ;;;
      Socket.writeInt i ;;;
      match Descriptor.getRecord desc i with
      | None => Socket.ret false
      | Some rec =>
          DescriptorRecord.sendParameterValue m rec ;;;
          sendParameters m desc n' (i + 1)
      end
  end.

(** [Statement::executePrepared]; [None] is undefined behaviour. *)
Definition executePrepared (m : Mem) (st : t) : Socket.Net (option (bool * t)) :=
  Socket.writeByte (chr "Q") ;;;
  Socket.writeInt (m_preparedId st) ;;;
  defined <- sendParameters m (m_appParam st) (Z.to_nat (m_parameterCount st)) 0 ;;
  if negb defined then Socket.ret None
  else
    Socket.writeByte (chr "0") ;;;
    result <- Socket.readByte ;;
    let st := set_m_updateCount 0 (set_m_columnCount 0 (set_m_resultSetId 0
                (set_m_rowId 0 (set_m_state S_EXECUTED st)))) in
    if result =? chr "E" then
      Socket.ret (Some (false, setError (Some E_42000) (set_m_state S_CLOSED st)))
    else if result =? chr "R" then
      st' <- processResultSet st ;;
      Socket.ret (Some (true, st'))
    else if result =? chr "U" then
      updateCount <- Socket.readInt ;;
      Socket.ret (Some (true, set_m_updateCount updateCount
                                (set_m_hasResultSet false (set_m_state S_EXECUTED st))))
    else Socket.ret (Some (true, st)).

(** [Statement::execute]. *)
Definition execute (m : Mem) (sql : list byte) (st : t) : Socket.Net (option (bool * t)) :=
  Socket.writeByte (chr "E") ;;;
  Socket.writeString sql ;;;
  let st := set_m_sql (c_str sql) st in
  result <- Socket.readByte ;;
  let st := set_m_parameterCount 0 (set_m_updateCount 0 (set_m_columnCount 0
              (set_m_resultSetId 0 (set_m_rowId 0 (set_m_state S_EXECUTED st))))) in
  if result =? chr "E" then
    Socket.ret (Some (false, setError (Some E_42000) (set_m_state S_CLOSED st)))
  else if result =? chr "R" then
    st' <- processResultSet st ;;
    Socket.ret (Some (true, st'))
  else if result =? chr "U" then
    updateCount <- Socket.readInt ;;
    Socket.ret (Some (true, set_m_updateCount updateCount
                              (set_m_hasResultSet false (set_m_state S_EXECUTED st))))
  else if result =? chr "O" then
    preparedId <- Socket.readInt ;;
    parameterCount <- Socket.readInt ;;
    executePrepared m (set_m_parameterCount parameterCount (set_m_preparedId preparedId st))
  else Socket.ret (Some (true, st)).

(** The [for] loop of [next]: [n] columns still to fetch, the next one being
    [i].  [None] is undefined behaviour: a record index outside a descriptor
    or a failing store of [copyData]. *)
Fixpoint fetchColumns (n : nat) (i : Z) (imp app : Descriptor.t) (m : Mem)
    : Socket.Net (option (Descriptor.t * Mem)) :=
  match n with
  | O => Socket.ret (Some (imp, m))
  | S n' =>
      imp1 <- Descriptor.readData i imp ;;
      match imp1 with
      | None => Socket.ret None
      | Some imp' =>
          match Descriptor.getRecord imp' i, Descriptor.getRecord app i with
          | Some ir, Some ar =>
              match DescriptorRecord.copyData ir ar m with
              | Some m' => fetchColumns n' (i + 1) imp' app m'
              | None => Socket.ret None
              end
          | _, _ => Socket.ret None
          end
      end
  end.

(** [Statement::next]. *)
Definition next (m : Mem) (st : t) : Socket.Net (option (bool * t * Mem)) :=
  if negb (m_hasResultSet st) then Socket.ret (Some (false, st, m))
  else
    let st := set_m_rowId (wrap32 (m_rowId st + 1)) st in
    Socket.writeByte (chr "G") ;;;
    Socket.writeInt (m_resultSetId st) ;;;
    result <- Socket.readByte ;;
    if result =? chr "E" then Socket.ret (Some (false, set_m_state S_CLOSED st, m))
    else if result =? chr "1" then
      fetched <- fetchColumns (Z.to_nat (m_columnCount st)) 0 (m_impRow st) (m_appRow st) m ;;
      match fetched with
      | None => Socket.ret None
      | Some (imp, m') =>
          let m1 := Descriptor.setStatus SQL_ROW_SUCCESS imp m' in
          let m2 := Descriptor.setRowsProcessed 1 imp m1 in
          Socket.ret (Some (true, set_m_impRow imp st, m2))
      end
    else
      let m1 := Descriptor.setStatus SQL_ROW_NOROW (m_impRow st) m in
      let m2 := Descriptor.setRowsProcessed 0 (m_impRow st) m1 in
      Socket.ret (Some (false, st, m2)).

(** [Statement::closeCursor]. *)
Definition closeCursor (st : t) : Socket.Net t :=
  if 0 <=? m_resultSetId st then
    Socket.writeByte (chr "F") ;;;
    Socket.writeInt (m_resultSetId st) ;;;
    Socket.ret (set_m_state S_CLOSED (set_m_resultSetId (-1) st))
  else Socket.ret (set_m_state S_CLOSED st).

(** [Statement::getMetaTables]. *)
Definition getMetaTables (catalog schema table tabletypes : list byte) (st : t)
    : Socket.Net t :=
  Socket.writeByte (chr "M") ;;;
  Socket.writeByte (chr "T") ;;;
  Socket.writeString catalog ;;;
  Socket.writeString schema ;;;
  Socket.writeString table ;;;
  Socket.writeString tabletypes ;;;
  processResultSet st.

(** [Statement::getMetaBestRowIdentifier]. *)
Definition getMetaBestRowIdentifier (catalog schema table : list byte) (scope : Z)
    (nullable : bool) (st : t) : Socket.Net t :=
  Socket.writeByte (chr "M") ;;;
  Socket.writeByte (chr "B") ;;;
  Socket.writeString catalog ;;;
  Socket.writeString schema ;;;
  Socket.writeString table ;;;
  Socket.writeInt scope ;;;
  Socket.writeBool nullable ;;;
  processResultSet st.

(** [Statement::getMetaVersionColumns]. *)
Definition getMetaVersionColumns (catalog schema table : list byte) (st : t)
    : Socket.Net t :=
  Socket.writeByte (chr "M") ;;;
  Socket.writeByte (chr "V") ;;;
  Socket.writeString catalog ;;;
  Socket.writeString schema ;;;
  Socket.writeString table ;;;
  processResultSet st.

(** [Statement::getMetaIndexInfo]. *)
Definition getMetaIndexInfo (catalog schema table : list byte) (unique approximate : bool)
    (st : t) : Socket.Net t :=
  Socket.writeByte (chr "M") ;;;
  Socket.writeByte (chr "I") ;;;
  Socket.writeString catalog ;;;
  Socket.writeString schema ;;;
  Socket.writeString table ;;;
  Socket.writeBool unique ;;;
  Socket.writeBool approximate ;;;
  processResultSet st.

(** [Statement::getMetaColumns]. *)
Definition getMetaColumns (catalog schema table column : list byte) (st : t)
    : Socket.Net t :=
  Socket.writeByte (chr "M") ;;;
  Socket.writeByte (chr "C") ;;;
  Socket.writeString catalog ;;;
  Socket.writeString schema ;;;
  Socket.writeString table ;;;
  Socket.writeString column ;;;
  processResultSet st.

(** [Statement::getMetaTypeInfoAll]. *)
Definition getMetaTypeInfoAll (st : t) : Socket.Net t :=
  Socket.writeByte (chr "M") ;;;
  Socket.writeByte (chr "D") ;;;
  Socket.writeByte (chr "A") ;;;
  processResultSet st.

(** [Statement::getMetaTypeInfo]. *)
Definition getMetaTypeInfo (sqlType : Z) (st : t) : Socket.Net t :=
  Socket.writeByte (chr "M") ;;;
  Socket.writeByte (chr "D") ;;;
  Socket.writeByte (chr "T") ;;;
  Socket.writeInt sqlType ;;;
  processResultSet st.

End Statement.

(** ** Connections and environments ([odbc.cpp]) *)

Definition bytes_eqb (a b : list byte) : bool :=
  if list_eq_dec Byte.byte_eq_dec a b then true else false.

(** [std::string::find(char)], converted to [int]: [-1] when absent. *)
Fixpoint find_from (c : byte) (l : list byte) (i : Z) : Z :=
  match l with
  | [] => -1
  | b :: l' => if Byte.eqb b c then i else find_from c l' (i + 1)
  end.

Definition find (c : byte) (l : list byte) : Z := find_from c l 0.

(** [std::string::substr(pos)]. *)
Definition substr (l : list byte) (pos : Z) : list byte := skipn (Z.to_nat pos) l.

(** [std::string::substr(0, n)]; a negative [n] converts to a count beyond
    every length. *)
Definition substr0 (l : list byte) (n : Z) : list byte :=
  if n <? 0 then l else firstn (Z.to_nat n) l.

Definition byte_lit (s : string) : byte :=
  match lit s with
  | b :: _ => b
  | [] => NUL
  end.

Module Environment.

Record t : Type := mk {
  m_magic : Z;
  m_id : Z;
  m_openConnections : Z;
  m_behavior : Z;
  m_error : option string
}.

(** The constructor sets the tag and nothing else. *)
Definition new (id openConnections behavior : Z) (error : option string) : t :=
  {| m_magic := MAGIC_ENVIRONMENT; m_id := id; m_openConnections := openConnections;
     m_behavior := behavior; m_error := error |}.

(** [Environment::cast]. *)
Definition cast (magic : MagicView) (pointer : Z) : Z :=
  if pointer =? 0 then 0
  else if negb (magic pointer =? MAGIC_ENVIRONMENT) then 0
  else pointer.

Definition setError (error : option string) (e : t) : t :=
  {| m_magic := m_magic e; m_id := m_id e; m_openConnections := m_openConnections e;
     m_behavior := m_behavior e; m_error := error |}.

(** The destructor. *)
Definition destroy (e : t) : t :=
  if m_magic e =? MAGIC_ENVIRONMENT then
    {| m_magic := 0; m_id := m_id e; m_openConnections := m_openConnections e;
       m_behavior := m_behavior e; m_error := m_error e |}
  else e.

(** The counter update of [closeConnection]. *)
Definition closeConnection (e : t) : t :=
  {| m_magic := m_magic e; m_id := m_id e;
     m_openConnections := wrap32 (m_openConnections e - 1);
     m_behavior := m_behavior e; m_error := m_error e |}.

(** The counter update of [createConnection]. *)
Definition createConnection (e : t) : t :=
  {| m_magic := m_magic e; m_id := m_id e;
     m_openConnections := wrap32 (m_openConnections e + 1);
     m_behavior := m_behavior e; m_error := m_error e |}.

End Environment.

Module Connection.

Record t : Type := mk {
  m_magic : Z;
  m_environment : Z;
  m_state : ConnectionState;
  m_name : list byte;
  m_user : list byte;
  m_password : list byte;
  m_readOnly : bool;
  m_autoCommit : bool;
  m_error : option string;
  m_dataSourceName : list byte
}.

Definition set_m_magic (v : Z) (x : t) : t :=
  {| m_magic := v; m_environment := m_environment x; m_state := m_state x;
     m_name := m_name x; m_user := m_user x; m_password := m_password x;
     m_readOnly := m_readOnly x; m_autoCommit := m_autoCommit x; m_error := m_error x;
     m_dataSourceName := m_dataSourceName x |}.

Definition set_m_state (v : ConnectionState) (x : t) : t :=
  {| m_magic := m_magic x; m_environment := m_environment x; m_state := v;
     m_name := m_name x; m_user := m_user x; m_password := m_password x;
     m_readOnly := m_readOnly x; m_autoCommit := m_autoCommit x; m_error := m_error x;
     m_dataSourceName := m_dataSourceName x |}.

Definition set_m_name (v : list byte) (x : t) : t :=
  {| m_magic := m_magic x; m_environment := m_environment x; m_state := m_state x;
     m_name := v; m_user := m_user x; m_password := m_password x;
     m_readOnly := m_readOnly x; m_autoCommit := m_autoCommit x; m_error := m_error x;
     m_dataSourceName := m_dataSourceName x |}.

Definition set_m_user (v : list byte) (x : t) : t :=
  {| m_magic := m_magic x; m_environment := m_environment x; m_state := m_state x;
     m_name := m_name x; m_user := v; m_password := m_password x;
     m_readOnly := m_readOnly x; m_autoCommit := m_autoCommit x; m_error := m_error x;
     m_dataSourceName := m_dataSourceName x |}.

Definition set_m_password (v : list byte) (x : t) : t :=
  {| m_magic := m_magic x; m_environment := m_environment x; m_state := m_state x;
     m_name := m_name x; m_user := m_user x; m_password := v;
     m_readOnly := m_readOnly x; m_autoCommit := m_autoCommit x; m_error := m_error x;
     m_dataSourceName := m_dataSourceName x |}.

Definition set_m_autoCommit (v : bool) (x : t) : t :=
  {| m_magic := m_magic x; m_environment := m_environment x; m_state := m_state x;
     m_name := m_name x; m_user := m_user x; m_password := m_password x;
     m_readOnly := m_readOnly x; m_autoCommit := v; m_error := m_error x;
     m_dataSourceName := m_dataSourceName x |}.

Definition set_m_error (v : option string) (x : t) : t :=
  {| m_magic := m_magic x; m_environment := m_environment x; m_state := m_state x;
     m_name := m_name x; m_user := m_user x; m_password := m_password x;
     m_readOnly := m_readOnly x; m_autoCommit := m_autoCommit x; m_error := v;
     m_dataSourceName := m_dataSourceName x |}.

(** The constructor; [m_readOnly] and [m_autoCommit] are not set by it and
    hold whatever the two arguments say. *)
Definition new (environment : Z) (readOnly autoCommit : bool) : t :=
  {| m_magic := MAGIC_CONNECTION; m_environment := environment; m_state := C_INIT;
     m_name := []; m_user := []; m_password := []; m_readOnly := readOnly;
     m_autoCommit := autoCommit; m_error := None; m_dataSourceName := [] |}.

(** The destructor. *)
Definition destroy (c : t) : t :=
  if m_magic c =? MAGIC_CONNECTION then set_m_magic 0 c else c.

(** [Connection::cast]. *)
Definition cast (magic : MagicView) (pointer : Z) : Z :=
  if pointer =? 0 then 0
  else if negb (magic pointer =? MAGIC_CONNECTION) then 0
  else pointer.

Definition setError (error : option string) (c : t) : t := set_m_error error c.

(** [Connection::isClosed]. *)
Definition isClosed (c : t) : bool :=
  match m_state c with
  | C_CLOSED => true
  | _ => false
  end.

(** The handshake of [open]: request and one byte of reply. *)
Definition handshake (dbname user password : list byte) : Socket.Net Z :=
  Socket.writeByte (chr "C") ;;;
  Socket.writeString dbname ;;;
  Socket.writeString user ;;;
  Socket.writeString password ;;;
  Socket.readByte.

(** [Connection::open].  The result holds the connection and the [Socket]
    that [m_socket] points at, if one was created.  The statements
    [m_state == C_CLOSED;] and [m_state == C_OPEN;] of the source compare and
    drop the result, so no branch assigns [m_state]. *)
Definition open (net : Socket.Network) (stack : nat -> byte)
    (name user password : list byte) (c : t) : t * option Socket.t :=
  let c := set_m_password password (set_m_user user (set_m_name name c)) in
  let prefix := lit "jdbc:h2:odbc://" in
  if negb (bytes_eqb (firstn (length prefix) name) prefix) then (c, None)
  else
    let server := substr name (Z.of_nat (length prefix)) in
    let dbnameIdx := find (byte_lit "/") server in
    if dbnameIdx <=? 0 then (setError (Some "Wrong URL format"%string) c, None)
    else
      let dbname := substr server (dbnameIdx + 1) in
      let server := substr0 server dbnameIdx in
      let portIdx := find (byte_lit ":") server in
      let port := if negb (portIdx =? 0) then atoi (substr server (portIdx + 1)) else 9082 in
      let server := if negb (portIdx =? 0) then substr0 server portIdx else server in
      let s := Socket.new net stack server port in
      if Socket.isClosed s then (setError (Some E_08001) c, Some s)
      else
        let '(result, s') := handshake dbname (m_user c) (m_password c) s in
        if result =? chr "O" then (c, Some s')
        else (setError (Some E_08004) c, Some s').

(** [Connection::setAutoCommit]. *)
Definition setAutoCommit (autocommit : bool) (c : t) : Socket.Net t :=
  if negb (Bool.eqb autocommit (m_autoCommit c)) then
    Socket.writeByte (chr "A") ;;;
    Socket.writeByte (if autocommit then chr "1" else chr "0") ;;;
    Socket.ret (set_m_autoCommit autocommit c)
  else Socket.ret c.

(** [Connection::commit]. *)
Definition commit : Socket.Net unit :=
  Socket.writeByte (chr "A") ;;; Socket.writeByte (chr "C").

(** [Connection::rollback]. *)
Definition rollback : Socket.Net unit :=
  Socket.writeByte (chr "A") ;;; Socket.writeByte (chr "R").

(** [Connection::close]. *)
Definition close (c : t) : Socket.Net t := fun s =>
  match m_state c with
  | C_OPEN => (set_m_state C_CLOSED c, Socket.close s)
  | _ => (c, s)
  end.

(** [Connection::getNativeSQL]. *)
Definition getNativeSQL (sql : list byte) : Socket.Net (list byte) :=
  Socket.writeByte (chr "M") ;;;
  Socket.writeByte (chr "N") ;;;
  Socket.writeString sql ;;;
  Socket.readString.

(** [setDataSourceName]. *)
Definition setDataSourceName (dataSourceName : list byte) (c : t) : t :=
  {| m_magic := m_magic c; m_environment := m_environment c; m_state := m_state c;
     m_name := m_name c; m_user := m_user c; m_password := m_password c;
     m_readOnly := m_readOnly c; m_autoCommit := m_autoCommit c; m_error := m_error c;
     m_dataSourceName := dataSourceName |}.

End Connection.

(** ** Entry points ([sql.cpp]) *)

Module Api.

(** What lives at an address the application may pass as a handle: an object
    of the driver, destroyed or not, or foreign memory whose first [int] is
    [first_word]. *)
Inductive object : Type :=
| Env (e : Environment.t)
| Conn (c : Connection.t)
| Stat (st : Statement.t)
| Desc (d : Descriptor.t)
| Foreign (first_word : Z).

Definition Heap : Type := Z -> object.

(** [m_magic] is the first member of every class. *)
Definition magic_of (o : object) : Z :=
  match o with
  | Env e => Environment.m_magic e
  | Conn c => Connection.m_magic c
  | Stat st => Statement.m_magic st
  | Desc d => Descriptor.m_magic d
  | Foreign w => w
  end.

Definition magic_at (h : Heap) : MagicView := fun p => magic_of (h p).

Definition update (h : Heap) (p : Z) (o : object) : Heap :=
  fun q => if q =? p then o else h q.

Definition SQL_HANDLE_ENV : Z := 1.
Definition SQL_HANDLE_DBC : Z := 2.
Definition SQL_HANDLE_STMT : Z := 3.
Definition SQL_HANDLE_DESC : Z := 4.

(** The value of a [SQLUSMALLINT]. *)
Definition usmallint (z : Z) : Z := z mod 2 ^ 16.

(** [SQLBindCol]; [None] is undefined behaviour: a record index outside the
    descriptor, or a tag that matched where no statement lives. *)
Definition SQLBindCol (h : Heap) (StatementHandle ColumnNumber TargetType TargetValue
    BufferLength StrLen_or_Ind : Z) : option (Z * Heap) :=
  let stat := Statement.cast (magic_at h) StatementHandle in
  if stat =? 0 then Some (SQL_INVALID_HANDLE, h)
  else
    match h stat with
    | Stat st =>
        let st := Statement.setError None st in
        let desc := Statement.m_appRow st in
        let ColumnNumber := usmallint (ColumnNumber - 1) in
        if Statement.m_columnCount st <? ColumnNumber then
          Some (SQL_ERROR, update h stat (Stat st))
        else
          match Descriptor.getRecord desc ColumnNumber with
          | None => None
          | Some rec =>
              let rec := DescriptorRecord.bind_target TargetType TargetValue
                           BufferLength StrLen_or_Ind rec in
              let desc := Descriptor.set_m_records
                            (Descriptor.replace_nth (Z.to_nat ColumnNumber) rec
                               (Descriptor.m_records desc)) desc in
              Some (SQL_SUCCESS, update h stat (Stat (Statement.set_m_appRow desc st)))
          end
    | _ => None
    end.

(** [SQLFreeHandle]; [fuel] bounds the depth of calls inside
    [Descriptor::cast], and [None] means that the call has not returned
    within it or that its behaviour is undefined. *)
Definition SQLFreeHandle (fuel : nat) (h : Heap) (HandleType Handle : Z)
    : option (Z * Heap) :=
  if HandleType =? SQL_HANDLE_ENV then
    let env := Environment.cast (magic_at h) Handle in
    if env =? 0 then Some (SQL_INVALID_HANDLE, h)
    else
      match h env with
      | Env e =>
          let e := Environment.setError None e in
          if 0 <? Environment.m_openConnections e then Some (SQL_ERROR, update h env (Env e))
          else Some (SQL_SUCCESS, update h env (Env (Environment.destroy e)))
      | _ => None
      end
  else if HandleType =? SQL_HANDLE_DBC then
    let conn := Connection.cast (magic_at h) Handle in
    if conn =? 0 then Some (SQL_INVALID_HANDLE, h)
    else
      match h conn with
      | Conn c =>
          let c := Connection.setError None c in
          if negb (Connection.isClosed c) then Some (SQL_ERROR, update h conn (Conn c))
          else
            let h1 := update h conn (Conn (Connection.destroy c)) in
            match h1 (Connection.m_environment c) with
            | Env e =>
                Some (SQL_SUCCESS,
                      update h1 (Connection.m_environment c)
                        (Env (Environment.closeConnection e)))
            | _ => None
            end
      | _ => None
      end
  else if HandleType =? SQL_HANDLE_STMT then
    let stat := Statement.cast (magic_at h) Handle in
    if stat =? 0 then Some (SQL_INVALID_HANDLE, h)
    else
      match h stat with
      | Stat st =>
          Some (SQL_SUCCESS,
                update h stat (Stat (Statement.destroy (Statement.setError None st))))
      | _ => None
      end
  else if HandleType =? SQL_HANDLE_DESC then
    match Descriptor.cast fuel (magic_at h) Handle with
    | None => None
    | Some desc =>
        if desc =? 0 then Some (SQL_INVALID_HANDLE, h)
        else
          match h desc with
          | Desc d =>
              Some (SQL_SUCCESS,
                    update h desc (Desc (Descriptor.destroy (Descriptor.set_m_error None d))))
          | _ => None
          end
    end
  else Some (SQL_INVALID_HANDLE, h).

(** The text a local [char name[size]] holds once
    [setString(name, sizeof(name), source, source_len)] has filled it, as the
    caller then reads it; [None] where [setString] copies a negative count or
    puts its terminator at [name[size]], outside the array. *)
Definition local_string (size : Z) (source : option (list byte)) (source_len : Z)
    : option (list byte) :=
  match source with
  | None => Some []
  | Some src =>
      let len := SqlUtils.setString_len size src source_len in
      if (len <? 0) || (size <=? len) then None
      else Some (c_str (firstn (Z.to_nat len) src))
  end.

(** [SQLBindParameter]: the [while] loop that adds records until
    [ParameterNumber] is an index of the application descriptor.  Each turn
    adds one record, so [S ParameterNumber] turns always suffice. *)
Fixpoint addParameters (fuel : nat) (ParameterNumber : Z) (st : Statement.t)
    : Statement.t :=
  match fuel with
  | O => st
  | S fuel' =>
      if Descriptor.getRecordCount (Statement.m_appParam st) <=? ParameterNumber then
        addParameters fuel' ParameterNumber (Statement.addParameter st)
      else st
  end.

(** [SQLBindParameter]. *)
Definition SQLBindParameter (h : Heap) (StatementHandle ParameterNumber InputOutputType
    ValueType ParameterType ColumnSize DecimalDigits ParameterValuePtr BufferLength
    StrLen_or_IndPtr : Z) : option (Z * Heap) :=
  let stat := Statement.cast (magic_at h) StatementHandle in
  if stat =? 0 then Some (SQL_INVALID_HANDLE, h)
  else
    match h stat with
    | Stat st =>
        let st := Statement.setError None st in
        if negb ((InputOutputType =? SQL_PARAM_INPUT)
                 || (InputOutputType =? SQL_PARAM_INPUT_OUTPUT)
                 || (InputOutputType =? SQL_PARAM_OUTPUT))
        then Some (SQL_ERROR, update h stat (Stat st))
        else
          let ParameterNumber := usmallint (ParameterNumber - 1) in
          let st := addParameters (S (Z.to_nat ParameterNumber)) ParameterNumber st in
          let desc := Statement.m_appParam st in
          match Descriptor.getRecord desc ParameterNumber with
          | None => None
          | Some rec =>
              let ValueType :=
                if ValueType =? SQL_C_DEFAULT then SqlUtils.getDefaultCType ParameterType
                else ValueType in
              let rec := DescriptorRecord.bind_target ValueType ParameterValuePtr
                           (wrap32 ColumnSize) StrLen_or_IndPtr
                           (DescriptorRecord.setSqlDataType ParameterType rec) in
              let desc := Descriptor.set_m_records
                            (Descriptor.replace_nth (Z.to_nat ParameterNumber) rec
                               (Descriptor.m_records desc)) desc in
              Some (SQL_SUCCESS, update h stat (Stat (Statement.set_m_appParam desc st)))
          end
    | _ => None
    end.

(** [SQLDescribeCol]; [None] is a store through a null pointer. *)
Definition SQLDescribeCol (h : Heap) (m : Mem) (StatementHandle ColumnNumber ColumnName
    BufferLength NameLengthPtr DataTypePtr ColumnSizePtr DecimalDigitsPtr NullablePtr : Z)
    : option (Z * Heap * Mem) :=
  let stat := Statement.cast (magic_at h) StatementHandle in
  if stat =? 0 then Some (SQL_INVALID_HANDLE, h, m)
  else
    match h stat with
    | Stat st =>
        let st := Statement.setError None st in
        let desc := Statement.m_impRow st in
        let ColumnNumber := usmallint (ColumnNumber - 1) in
        if Descriptor.getRecordCount desc <=? ColumnNumber then
          Some (SQL_ERROR, update h stat (Stat (Statement.setError (Some E_07009) st)), m)
        else
          match Descriptor.getRecord desc ColumnNumber with
          | None => None
          | Some rec =>
              match SqlUtils.returnStringSmall ColumnName BufferLength NameLengthPtr
                      (Some (DescriptorRecord.m_columnName rec)) m with
              | None => None
              | Some m1 =>
                  match SqlUtils.returnSmall DataTypePtr 0
                          (DescriptorRecord.m_sqlDataType rec) m1 with
                  | None => None
                  | Some m2 =>
                      let m3 := SqlUtils.returnIntPtr ColumnSizePtr
                                  (DescriptorRecord.m_displaySize rec) m2 in
                      match SqlUtils.returnSmall DecimalDigitsPtr 0 0 m3 with
                      | None => None
                      | Some m4 =>
                          match SqlUtils.returnSmall NullablePtr 0 SQL_NULLABLE_UNKNOWN m4 with
                          | None => None
                          | Some m5 => Some (SQL_SUCCESS, update h stat (Stat st), m5)
                          end
                      end
                  end
              end
          end
    | _ => None
    end.

(** [SQLGetData]; [None] is undefined behaviour: a record index outside the
    descriptor or a store through a null pointer. *)
Definition SQLGetData (h : Heap) (m : Mem) (StatementHandle ColumnNumber TargetType
    TargetValue BufferLength StrLen_or_Ind : Z) : option (Z * Heap * Mem) :=
  let stat := Statement.cast (magic_at h) StatementHandle in
  if stat =? 0 then Some (SQL_INVALID_HANDLE, h, m)
  else
    match h stat with
    | Stat st =>
        let st := Statement.setError None st in
        let desc := Statement.m_impRow st in
        let ColumnNumber := usmallint (ColumnNumber - 1) in
        if Statement.m_columnCount st <? ColumnNumber then
          Some (SQL_ERROR, update h stat (Stat st), m)
        else
          match Descriptor.getRecord desc ColumnNumber with
          | None => None
          | Some rec =>
              if DescriptorRecord.m_wasNull rec then
                if StrLen_or_Ind =? 0 then
                  Some (SQL_ERROR,
                        update h stat (Stat (Statement.setError (Some E_22002) st)), m)
                else
                  Some (SQL_SUCCESS, update h stat (Stat st),
                        store_int32 m StrLen_or_Ind SQL_NULL_DATA)
              else
                let TargetType :=
                  if TargetType =? SQL_C_DEFAULT
                  then SqlUtils.getDefaultCType (DescriptorRecord.m_sqlDataType rec)
                  else TargetType in
                let copied :=
                  if (TargetType =? SQL_CHAR) || (TargetType =? SQL_VARCHAR) then
                    SqlUtils.returnString TargetValue BufferLength StrLen_or_Ind
                      (DescriptorRecord.getString rec) m
                  else if TargetType =? SQL_INTEGER then
                    SqlUtils.returnInt TargetValue StrLen_or_Ind (DescriptorRecord.getInt rec) m
                  else if TargetType =? SQL_SMALLINT then
                    SqlUtils.returnSmall TargetValue StrLen_or_Ind
                      (DescriptorRecord.getInt rec) m
                  else Some m in
                match copied with
                | None => None
                | Some m' => Some (SQL_SUCCESS, update h stat (Stat st), m')
                end
          end
    | _ => None
    end.

(** [SQLNumResultCols]: the count goes out through
    [returnInt(SQLPOINTER, int)], as four bytes. *)
Definition SQLNumResultCols (h : Heap) (m : Mem) (StatementHandle ColumnCount : Z)
    : option (Z * Heap * Mem) :=
  let stat := Statement.cast (magic_at h) StatementHandle in
  if stat =? 0 then Some (SQL_INVALID_HANDLE, h, m)
  else
    match h stat with
    | Stat st =>
        let st := Statement.setError None st in
        Some (SQL_SUCCESS, update h stat (Stat st),
              SqlUtils.returnIntPtr ColumnCount (Statement.m_columnCount st) m)
    | _ => None
    end.

(** [SQLNumParams]. *)
Definition SQLNumParams (h : Heap) (m : Mem) (StatementHandle ParameterCountPtr : Z)
    : option (Z * Heap * Mem) :=
  let stat := Statement.cast (magic_at h) StatementHandle in
  if stat =? 0 then Some (SQL_INVALID_HANDLE, h, m)
  else
    match h stat with
    | Stat st =>
        let st := Statement.setError None st in
        Some (SQL_SUCCESS, update h stat (Stat st),
              SqlUtils.returnIntPtr ParameterCountPtr (Statement.m_parameterCount st) m)
    | _ => None
    end.


(** [SQLPrepare]; the statement text goes through a local [char sql[512]]
    before the handle is looked at. *)
Definition SQLPrepare (h : Heap) (StatementHandle : Z) (StatementText : option (list byte))
    (TextLength : Z) : Socket.Net (option (Z * Heap)) :=
  match local_string 512 StatementText (wrap16 TextLength) with
  | None => Socket.ret None
  | Some sql =>
      let stat := Statement.cast (magic_at h) StatementHandle in
      if stat =? 0 then Socket.ret (Some (SQL_INVALID_HANDLE, h))
      else
        match h stat with
        | Stat st =>
            r <- Statement.prepare sql (Statement.setError None st) ;;
            Socket.ret (Some (if fst r then SQL_SUCCESS else SQL_ERROR,
                              update h stat (Stat (snd r))))
        | _ => Socket.ret None
        end
  end.



(** [SQLFetch]. *)
Definition SQLFetch (h : Heap) (m : Mem) (StatementHandle : Z)
    : Socket.Net (option (Z * Heap * Mem)) :=
  let stat := Statement.cast (magic_at h) StatementHandle in
  if stat =? 0 then Socket.ret (Some (SQL_INVALID_HANDLE, h, m))
  else
    match h stat with
    | Stat st =>
        r <- Statement.next m (Statement.setError None st) ;;
        match r with
        | None => Socket.ret None
        | Some (more, st', m') =>
            Socket.ret (Some (if (more : bool) then SQL_SUCCESS else SQL_NO_DATA,
                              update h stat (Stat st'), m'))
        end
    | _ => Socket.ret None
    end.



(** [SQLEndTran]. *)
Definition SQLEndTran (h : Heap) (HandleType Handle CompletionType : Z)
    : Socket.Net (option (Z * Heap)) :=
  if HandleType =? SQL_HANDLE_ENV then
    let env := Environment.cast (magic_at h) Handle in
    if env =? 0 then Socket.ret (Some (SQL_INVALID_HANDLE, h))
    else
      match h env with
      | Env e => Socket.ret (Some (SQL_SUCCESS, update h env (Env (Environment.setError None e))))
      | _ => Socket.ret None
      end
  else if HandleType =? SQL_HANDLE_DBC then
    let conn := Connection.cast (magic_at h) Handle in
    if conn =? 0 then Socket.ret (Some (SQL_INVALID_HANDLE, h))
    else
      match h conn with
      | Conn c =>
          let c := Connection.setError None c in
          if CompletionType =? SQL_COMMIT then
            Connection.commit ;;;
            Socket.ret (Some (SQL_SUCCESS, update h conn (Conn c)))
          else if CompletionType =? SQL_ROLLBACK then
            Connection.rollback ;;;
            Socket.ret (Some (SQL_SUCCESS, update h conn (Conn c)))
          else
            Socket.ret (Some (SQL_ERROR,
                              update h conn (Conn (Connection.setError (Some E_HY012) c))))
      | _ => Socket.ret None
      end
  else Socket.ret (Some (SQL_ERROR, h)).

(** [SQLDisconnect]. *)
Definition SQLDisconnect (h : Heap) (ConnectionHandle : Z)
    : Socket.Net (option (Z * Heap)) :=
  let conn := Connection.cast (magic_at h) ConnectionHandle in
  if conn =? 0 then Socket.ret (Some (SQL_INVALID_HANDLE, h))
  else
    match h conn with
    | Conn c =>
        c' <- Connection.close (Connection.setError None c) ;;
        Socket.ret (Some (SQL_SUCCESS, update h conn (Conn c')))
    | _ => Socket.ret None
    end.

(** [SQLConnect]: whatever [open] finds, the result is [SQL_SUCCESS].  The
    third component is the [Socket] created by [open], if any. *)
Definition SQLConnect (net : Socket.Network) (stack : nat -> byte) (h : Heap)
    (ConnectionHandle : Z) (ServerName : option (list byte)) (NameLength1 : Z)
    (UserName : option (list byte)) (NameLength2 : Z)
    (Authentication : option (list byte)) (NameLength3 : Z)
    : option (Z * Heap * option Socket.t) :=
  let conn := Connection.cast (magic_at h) ConnectionHandle in
  if conn =? 0 then Some (SQL_INVALID_HANDLE, h, None)
  else
    match h conn with
    | Conn c =>
        let c := Connection.setError None c in
        match local_string 512 ServerName NameLength1,
              local_string 512 UserName NameLength2,
              local_string 512 Authentication NameLength3 with
        | Some name, Some user, Some password =>
            let c := Connection.setDataSourceName name c in
            let '(c', s) := Connection.open net stack name user password c in
            Some (SQL_SUCCESS, update h conn (Conn c'), s)
        | _, _, _ => None
        end
    | _ => None
    end.

(** The diagnostic of a handle as a [char*]. *)
Definition error_text (e : option string) : option (list byte) :=
  match e with
  | Some msg => Some (lit msg)
  | None => None
  end.

(** [SQLGetDiagRec]; [fuel] bounds the depth of calls inside
    [Descriptor::cast].  The handle's object is only read. *)
Definition SQLGetDiagRec (fuel : nat) (h : Heap) (m : Mem) (HandleType Handle RecNumber
    Sqlstate NativeError MessageText BufferLength TextLength : Z) : option (Z * Mem) :=
  if RecNumber <? 0 then Some (SQL_ERROR, m)
  else if 1 <? RecNumber then Some (SQL_NO_DATA, m)
  else if BufferLength <? 0 then Some (SQL_ERROR, m)
  else
    let report (error : option string) : option (Z * Mem) :=
      match error with
      | None => Some (SQL_NO_DATA, m)
      | Some msg =>
          match SqlUtils.returnStringSmall Sqlstate 6 0 (Some (lit msg)) m with
          | None => None
          | Some m1 =>
              match SqlUtils.returnStringSmall MessageText BufferLength TextLength
                      (Some (skipn 6 (lit msg))) m1 with
              | None => None
              | Some m2 =>
                  Some (SQL_SUCCESS,
                        if NativeError =? 0 then m2 else store_int32 m2 NativeError 0)
              end
          end
      end in
    if HandleType =? SQL_HANDLE_ENV then
      let env := Environment.cast (magic_at h) Handle in
      if env =? 0 then Some (SQL_INVALID_HANDLE, m)
      else match h env with
           | Env e => report (Environment.m_error e)
           | _ => None
           end
    else if HandleType =? SQL_HANDLE_DBC then
      let conn := Connection.cast (magic_at h) Handle in
      if conn =? 0 then Some (SQL_INVALID_HANDLE, m)
      else match h conn with
           | Conn c => report (Connection.m_error c)
           | _ => None
           end
    else if HandleType =? SQL_HANDLE_STMT then
      let stat := Statement.cast (magic_at h) Handle in
      if stat =? 0 then Some (SQL_INVALID_HANDLE, m)
      else match h stat with
           | Stat st => report (Statement.m_error st)
           | _ => None
           end
    else if HandleType =? SQL_HANDLE_DESC then
      match Descriptor.cast fuel (magic_at h) Handle with
      | None => None
      | Some desc =>
          if desc =? 0 then Some (SQL_INVALID_HANDLE, m)
          else match h desc with
               | Desc d => report (Descriptor.m_error d)
               | _ => None
               end
      end
    else Some (SQL_INVALID_HANDLE, m).

End Api.

(** ** Vocabulary of the statements below *)

(** The session has not been marked dead. *)
Definition live (s : Socket.t) : bool := negb (Socket.m_socket s =? 0).

Definition no_send_error (l : list Socket.send_event) : bool :=
  forallb (fun e => match e with Socket.SendError => false | Socket.Accept _ => true end) l.

(** The session is live and no [send] will fail. *)
Definition reliable (s : Socket.t) : bool := live s && no_send_error (Socket.sending s).

(** The bytes that reach [recv] before the stream closes or fails. *)
Fixpoint stream (l : list Socket.recv_event) : list byte :=
  match l with
  | Socket.Segment (b :: bs) :: l' => (b :: bs) ++ stream l'
  | _ => []
  end.

Definition inbound (s : Socket.t) : list byte := stream (Socket.incoming s).

(** The bytes an operation adds to the wire of [s]. *)
Definition emitted {A : Type} (op : Socket.Net A) (s : Socket.t) : list byte :=
  skipn (length (Socket.wire s)) (Socket.wire (snd (op s))).

(** An operation that leaves the wire as it found it. *)
Definition silent {A : Type} (op : Socket.Net A) : Prop :=
  forall s, Socket.wire (snd (op s)) = Socket.wire s.

(** The request of [Statement::prepare] and the reply byte it reads. *)
Definition prepare_reply (sql : list byte) : Socket.Net Z :=
  Socket.writeByte (chr "P") ;;; Socket.writeString sql ;;; Socket.readByte.

(** The request of [Statement::execute] and the reply byte it reads. *)
Definition execute_reply (sql : list byte) : Socket.Net Z :=
  Socket.writeByte (chr "E") ;;; Socket.writeString sql ;;; Socket.readByte.

(** The request of [Statement::executePrepared] and the reply byte it reads;
    [None] when the parameter loop left the descriptor. *)
Definition executePrepared_reply (m : Mem) (st : Statement.t) : Socket.Net (option Z) :=
  Socket.writeByte (chr "Q") ;;;
  Socket.writeInt (Statement.m_preparedId st) ;;;
  defined <- Statement.sendParameters m (Statement.m_appParam st)
               (Z.to_nat (Statement.m_parameterCount st)) 0 ;;
  if negb defined then Socket.ret None
  else
    Socket.writeByte (chr "0") ;;;
    result <- Socket.readByte ;;
    Socket.ret (Some result).

(** Record counts of the two descriptors of each role. *)
Definition row_counts (st : Statement.t) : Z * Z :=
  (Descriptor.getRecordCount (Statement.m_impRow st),
   Descriptor.getRecordCount (Statement.m_appRow st)).

Definition param_counts (st : Statement.t) : Z * Z :=
  (Descriptor.getRecordCount (Statement.m_impParam st),
   Descriptor.getRecordCount (Statement.m_appParam st)).

(** The bound indicator lies apart from the [n] bytes at [p]. *)
Definition apart (sp p n : Z) : bool := (sp + 4 <=? p) || (p + n <=? sp).

(** [s'] is [s] after [bs] went out on the wire, the session staying
    reliable. *)
Definition wrote (s s' : Socket.t) (bs : list byte) : Prop :=
  Socket.m_socket s' = Socket.m_socket s /\
  Socket.incoming s' = Socket.incoming s /\
  Socket.garbage s' = Socket.garbage s /\
  Socket.wire s' = Socket.wire s ++ bs /\
  reliable s' = true.

(** [s'] is [s] after [bs] came in from the stream. *)
Definition took (s s' : Socket.t) (bs : list byte) : Prop :=
  Socket.m_socket s' = Socket.m_socket s /\
  inbound s = bs ++ inbound s' /\
  Socket.sending s' = Socket.sending s /\
  Socket.wire s' = Socket.wire s /\
  Socket.garbage s' = Socket.garbage s.

(** The text [copyData] hands to [returnString]: what [getString] points at,
    or the empty string for its null pointer. *)
Definition fetched_text (ir : DescriptorRecord.t) : list byte :=
  match DescriptorRecord.getString ir with
  | Some s => c_str s
  | None => []
  end.

(** The wire form of a string: its length as an [int], then its bytes. *)
Definition wire_string (str : list byte) : list byte :=
  Socket.buffer_of_int (Z.of_nat (length str)) ++ str.

(** A text whose length fits the [int] in front of it. *)
Definition sendable (str : list byte) : bool :=
  is_textb str && (Z.of_nat (length str) <? 2 ^ 31).

(** The value of a [char]: the [int] that a stored [int] reads back as. *)
Definition as_char (c : Z) : Z := (c + 128) mod 256 - 128.

(** The byte [c] does not occur in [l]. *)
Definition without (c : byte) (l : list byte) : bool :=
  forallb (fun b => negb (Byte.eqb b c)) l.

(** The prefix [open] expects in front of the target. *)
Definition url_prefix : list byte := lit "jdbc:h2:odbc://".

(** ** Concrete sessions, statements and memories used as test inputs *)

Definition no_garbage : nat -> byte := fun _ => NUL.

(** A live session with nothing to read, on which every [send] succeeds. *)
Definition quiet_session : Socket.t :=
  {| Socket.m_socket := 3; Socket.incoming := []; Socket.sending := [];
     Socket.wire := []; Socket.garbage := no_garbage |}.

(** A live session whose peer delivers the given segments and then closes. *)
Definition session_receiving (segments : list (list byte)) : Socket.t :=
  {| Socket.m_socket := 3; Socket.incoming := map Socket.Segment segments;
     Socket.sending := []; Socket.wire := []; Socket.garbage := no_garbage |}.

(** A sender whose [send] takes one byte, then two, then everything. *)
Definition slow_sender : Socket.t :=
  {| Socket.m_socket := 5; Socket.incoming := [];
     Socket.sending := [Socket.Accept 1; Socket.Accept 2];
     Socket.wire := []; Socket.garbage := no_garbage |}.

(** The encoding of -2 arriving one byte at a time, with more behind it. *)
Definition int_receiver : Socket.t :=
  session_receiving [[Byte.xff]; [Byte.xff]; [Byte.xff]; [Byte.xfe]; lit "tail"].

(** The encoding of "Ada" arriving split inside the length and inside the
    text, with more behind it. *)
Definition string_receiver : Socket.t :=
  session_receiving [[Byte.x00; Byte.x00]; [Byte.x00; Byte.x03; Byte.x41];
                     lit "da"; lit "tail"].

(** A session whose peer sends two of the four bytes of an [int] and then
    closes; unwritten stack bytes hold 0xAB. *)
Definition torn_int_session : Socket.t :=
  {| Socket.m_socket := 3; Socket.incoming := [Socket.Segment [Byte.x12; Byte.x34]];
     Socket.sending := []; Socket.wire := []; Socket.garbage := fun _ => Byte.xab |}.

(** A session whose peer announces a string of five bytes, sends "Hi" and
    then fails. *)
Definition torn_string_session : Socket.t :=
  {| Socket.m_socket := 3;
     Socket.incoming := [Socket.Segment (Socket.buffer_of_int 5 ++ lit "Hi");
                         Socket.RecvError];
     Socket.sending := []; Socket.wire := []; Socket.garbage := fun _ => Byte.x3f |}.

(** Application memory filled with 0xFF. *)
Definition blank_memory : Mem := fun _ => Byte.xff.

(** An implementation record holding the fetched text "Hello". *)
Definition hello_record : DescriptorRecord.t :=
  DescriptorRecord.with_data false 0 (lit "Hello")
    (DescriptorRecord.setSqlDataType SQL_VARCHAR DescriptorRecord.new).

(** An application record binding a text buffer of capacity 3 at address
    100, with its indicator at address 200. *)
Definition small_buffer_record : DescriptorRecord.t :=
  DescriptorRecord.bind_target SQL_C_CHAR 100 3 200 DescriptorRecord.new.

(** An implementation record whose last fetch was null. *)
Definition null_record : DescriptorRecord.t :=
  DescriptorRecord.with_data true 0 []
    (DescriptorRecord.setSqlDataType SQL_INTEGER DescriptorRecord.new).

(** A connection with auto-commit on. *)
Definition autocommit_connection : Connection.t :=
  {| Connection.m_magic := MAGIC_CONNECTION; Connection.m_environment := 16;
     Connection.m_state := C_OPEN; Connection.m_name := []; Connection.m_user := [];
     Connection.m_password := []; Connection.m_readOnly := false;
     Connection.m_autoCommit := true; Connection.m_error := None;
     Connection.m_dataSourceName := [] |}.

(** Application memory holding the indicator value [SQL_NULL_DATA] at
    address 200. *)
Definition null_indicator_memory : Mem := store_int32 blank_memory 200 SQL_NULL_DATA.

(** A parameter bound as [SQL_C_LONG] at address 100 with its indicator at
    200. *)
Definition long_parameter : DescriptorRecord.t :=
  DescriptorRecord.bind_target SQL_C_LONG 100 4 200 DescriptorRecord.new.

(** A parameter bound as [SQL_C_DOUBLE] at address 100, without indicator. *)
Definition double_parameter : DescriptorRecord.t :=
  DescriptorRecord.bind_target SQL_C_DOUBLE 100 8 0 DescriptorRecord.new.

(** A prepared statement with id 7 and the one parameter above. *)
Definition double_statement : Statement.t :=
  Statement.set_m_appParam
    (Descriptor.addRecord double_parameter Descriptor.new)
    (Statement.set_m_impParam
       (Descriptor.addRecord DescriptorRecord.new Descriptor.new)
       (Statement.set_m_parameterCount 1
          (Statement.set_m_preparedId 7 (Statement.new S_PREPARED)))).

(** A session whose peer answers an execute with 'U' and the count 1. *)
Definition update_session : Socket.t :=
  session_receiving [lit "U" ++ Socket.buffer_of_int 1].

(** A session whose peer answers a prepare with 'O', the id 7 and two
    parameters. *)
Definition prepared_session : Socket.t :=
  session_receiving [lit "O"; Socket.buffer_of_int 7 ++ Socket.buffer_of_int 2].

(** The wire form of the metadata of one column. *)
Definition column_meta (sqlType : Z) (table name : list byte) : list byte :=
  Socket.buffer_of_int sqlType
  ++ Socket.buffer_of_int (Z.of_nat (length table)) ++ table
  ++ Socket.buffer_of_int (Z.of_nat (length name)) ++ name
  ++ Socket.buffer_of_int 10 ++ Socket.buffer_of_int 0 ++ Socket.buffer_of_int 11.

(** The result set of the two-column query: id 7, columns ID and NAME. *)
Definition two_columns : list byte :=
  Socket.buffer_of_int 7 ++ Socket.buffer_of_int 2
  ++ column_meta SQL_INTEGER (lit "TEST") (lit "ID")
  ++ column_meta SQL_VARCHAR (lit "TEST") (lit "NAME").

(** A session whose peer answers an execute with 'R' and that result set. *)
Definition query_session : Socket.t :=
  session_receiving [lit "R"; two_columns].

(** The statement after the result set above has been processed. *)
Definition two_column_statement : Statement.t :=
  fst (Statement.processResultSet (Statement.new S_PREPARED)
         (session_receiving [two_columns])).

(** A heap with that statement at address 64 and foreign memory elsewhere. *)
Definition statement_heap : Api.Heap :=
  fun p => if p =? 64 then Api.Stat two_column_statement else Api.Foreign 0.

(** A session whose peer answers a prepare with 'E' and whatever is sent
    next with 'U' and the count 0. *)
Definition rejecting_session : Socket.t :=
  session_receiving [lit "E"; lit "U" ++ Socket.buffer_of_int 0].

(** A network on which localhost:9082 accepts the connection and its server
    answers the connect request with 'O'; every other endpoint fails. *)
Definition accepting_network : Socket.Network :=
  fun host port =>
    if bytes_eqb host (lit "localhost") && (port =? 9082) then
      Some {| Socket.handle := 5;
              Socket.peer_incoming := [Socket.Segment (lit "O")];
              Socket.peer_sending := [] |}
    else None.

(** A network on which nothing can be reached. *)
Definition unreachable_network : Socket.Network := fun _ _ => None.

(** A connection as [createConnection] returns it. *)
Definition fresh_connection : Connection.t := Connection.new 16 false true.

Definition test_url : list byte := lit "jdbc:h2:odbc://localhost:9082/test".

(** A heap with a live descriptor at address 64. *)
Definition descriptor_heap : Api.Heap :=
  fun p => if p =? 64 then Api.Desc Descriptor.new else Api.Foreign 0.

(** The two-column statement with column 1 bound as a long at address 300
    (indicator at 400) and column 2 as a text buffer of capacity 20 at address
    100 (indicator at 200), both through [SQLBindCol]. *)
Definition bound_statement : Statement.t :=
  match Api.SQLBindCol statement_heap 64 1 SQL_C_SLONG 300 4 400 with
  | Some (_, h1) =>
      match Api.SQLBindCol h1 64 2 SQL_C_CHAR 100 20 200 with
      | Some (_, h2) =>
          match h2 64 with
          | Api.Stat st => st
          | _ => two_column_statement
          end
      | None => two_column_statement
      end
  | None => two_column_statement
  end.

(** A session whose peer answers a fetch with the row (42, "Ada"). *)
Definition row_session : Socket.t :=
  session_receiving
    [lit "1" ++ Socket.buffer_of_int 0 ++ Socket.buffer_of_int 42
     ++ Socket.buffer_of_int 3 ++ lit "Ada"].

(** A session whose peer answers an execute with 'U' and the count 3. *)
Definition three_rows_session : Socket.t :=
  session_receiving [lit "U" ++ Socket.buffer_of_int 3].


(** A session that has been marked dead, with bytes still in its stream. *)
Definition dead_session : Socket.t :=
  {| Socket.m_socket := 0; Socket.incoming := [Socket.Segment (lit "O")];
     Socket.sending := []; Socket.wire := lit "C"; Socket.garbage := no_garbage |}.

(** The wire form of the metadata of the column NAME of table TEST, a
    VARCHAR of precision 50, followed by more. *)
Definition name_column_stream : list byte :=
  Socket.buffer_of_int SQL_VARCHAR ++ wire_string (lit "TEST") ++ wire_string (lit "NAME")
  ++ Socket.buffer_of_int 50 ++ Socket.buffer_of_int 0 ++ Socket.buffer_of_int 50
  ++ lit "tail".

(** An implementation record of an INTEGER column and one of a VARCHAR
    column. *)
Definition integer_column : DescriptorRecord.t :=
  DescriptorRecord.setSqlDataType SQL_INTEGER DescriptorRecord.new.

Definition varchar_column : DescriptorRecord.t :=
  DescriptorRecord.setSqlDataType SQL_VARCHAR DescriptorRecord.new.

(** An application record binding a text buffer of capacity 16 at address
    100, with its indicator at address 200. *)
Definition wide_buffer_record : DescriptorRecord.t :=
  DescriptorRecord.bind_target SQL_C_CHAR 100 16 200 DescriptorRecord.new.

(** Application records binding a [long] and a [short] at address 100, with
    the indicator at address 200. *)
Definition long_target : DescriptorRecord.t :=
  DescriptorRecord.bind_target SQL_C_SLONG 100 4 200 DescriptorRecord.new.

Definition short_target : DescriptorRecord.t :=
  DescriptorRecord.bind_target SQL_C_SSHORT 100 2 200 DescriptorRecord.new.

(** An implementation record of an INTEGER column holding 70000, which does
    not fit a [short]. *)
Definition seventy_thousand : DescriptorRecord.t :=
  DescriptorRecord.with_data false 70000 [] integer_column.

(** A session whose peer answers with 'E' and leaves more in the stream. *)
Definition refusing_session : Socket.t :=
  session_receiving [lit "E" ++ lit "syntax"].

(** A heap whose statement at address 64 is the bound two-column statement. *)
Definition bound_heap : Api.Heap :=
  fun p => if p =? 64 then Api.Stat bound_statement else Api.Foreign 0.

(** A heap with the auto-commit connection at address 32. *)
Definition connection_heap : Api.Heap :=
  fun p => if p =? 32 then Api.Conn autocommit_connection else Api.Foreign 0.

(** A heap with a statement at address 64 that has been prepared and has no
    parameter bound yet. *)
Definition prepared_heap : Api.Heap :=
  fun p => if p =? 64 then Api.Stat (Statement.new S_PREPARED) else Api.Foreign 0.

(** The implementation record of the first column of the two-column
    statement. *)
Definition id_column : DescriptorRecord.t :=
  nth 0 (Descriptor.m_records (Statement.m_impRow two_column_statement))
    DescriptorRecord.new.

(** A heap whose statement at address 64 carries the diagnostic 07009. *)
Definition failed_heap : Api.Heap :=
  fun p =>
    if p =? 64 then Api.Stat (Statement.setError (Some E_07009) two_column_statement)
    else Api.Foreign 0.


(** * Properties *)

(** ** Bytes and machine integers *)

Lemma wrap32_id (z : Z) : int32 z -> wrap32 z = z.
Proof.
  unfold int32, wrap32. intros H.
  rewrite Z.mod_small; lia.
Qed.

Lemma int32b_true (z : Z) : int32b z = true -> int32 z.
Proof.
  unfold int32b, int32. intros H.
  apply andb_true_iff in H. destruct H as [H1 H2].
  apply Z.leb_le in H1. apply Z.ltb_lt in H2. lia.
Qed.

Lemma char_to_int_mask (b : byte) : Z.land (char_to_int b) 255 = byte.unsigned b.
Proof.
  unfold char_to_int.
  pose proof (byte.unsigned_range b) as Hr.
  change 255 with (Z.ones 8). rewrite Z.land_ones by lia.
  destruct (byte.unsigned b <? 128) eqn:E.
  - apply Z.mod_small. lia.
  - apply Z.ltb_ge in E.
    replace (byte.unsigned b - 256) with (byte.unsigned b + (-1) * 2 ^ 8) by lia.
    rewrite Z.mod_add by lia. apply Z.mod_small. lia.
Qed.

Lemma unsigned_char_of_int (z : Z) : byte.unsigned (char_of_int z) = z mod 2 ^ 8.
Proof. unfold char_of_int. rewrite byte.unsigned_of_Z. reflexivity. Qed.

Lemma be_bytes_value (x : Z) :
  Z.lor (Z.lor (Z.lor (Z.shiftl (Z.land (Z.shiftr x 24) (Z.ones 8)) 24)
                      (Z.shiftl (Z.land (Z.shiftr x 16) (Z.ones 8)) 16))
               (Z.shiftl (Z.land (Z.shiftr x 8) (Z.ones 8)) 8))
        (Z.land x (Z.ones 8))
  = Z.land x (Z.ones 32).
Proof. Z.bitblast. Qed.

Lemma wrap32_mod (x : Z) : wrap32 (x mod 2 ^ 32) = wrap32 x.
Proof.
  unfold wrap32. rewrite Zplus_mod_idemp_l. reflexivity.
Qed.

(** The four bytes [writeInt] produces decode to the value they came from. *)
Lemma int_of_buffer_of_int (x : Z) :
  int32 x -> Socket.int_of_buffer (Socket.buffer_of_int x) = x.
Proof.
  intros Hx. unfold Socket.int_of_buffer, Socket.buffer_of_int. cbn [nth].
  rewrite !char_to_int_mask, !unsigned_char_of_int.
  change 255 with (Z.ones 8). rewrite <- !Z.land_ones by lia.
  rewrite <- !Z.land_assoc, Z.land_diag.
  rewrite be_bytes_value, Z.land_ones by lia.
  rewrite wrap32_mod. apply wrap32_id, Hx.
Qed.

(** ** The transport session: writes *)

Lemma reliable_inv (s : Socket.t) :
  reliable s = true ->
  (Socket.m_socket s =? 0) = false /\ no_send_error (Socket.sending s) = true.
Proof.
  unfold reliable, live. intros H. apply andb_true_iff in H. destruct H as [H1 H2].
  split; [apply negb_true_iff, H1 | exact H2].
Qed.

Lemma wrote_refl (s : Socket.t) : reliable s = true -> wrote s s [].
Proof.
  intros H. unfold wrote. rewrite app_nil_r. auto.
Qed.

Lemma wrote_trans (s1 s2 s3 : Socket.t) (a b : list byte) :
  wrote s1 s2 a -> wrote s2 s3 b -> wrote s1 s3 (a ++ b).
Proof.
  unfold wrote. intros (A1 & A2 & A3 & A4 & A5) (B1 & B2 & B3 & B4 & B5).
  repeat split; try congruence.
  rewrite B4, A4, app_assoc. reflexivity.
Qed.

Lemma wrote_split (s1 s2 s3 : Socket.t) (a b c : list byte) :
  wrote s1 s2 a -> wrote s2 s3 b -> c = a ++ b -> wrote s1 s3 c.
Proof. intros H1 H2 ->. eapply wrote_trans; eassumption. Qed.

Lemma write_loop_wrote (fuel : nat) :
  forall s buffer,
    (length (Socket.sending s) < fuel)%nat ->
    reliable s = true ->
    wrote s (Socket.write_loop fuel s buffer) buffer.
Proof.
  induction fuel as [|fuel IH]; intros s buffer Hfuel Hrel; [lia|].
  destruct (reliable_inv s Hrel) as [Hlive Hsend].
  destruct s as [sock inc out w g]. cbn in Hfuel, Hlive, Hsend.
  cbn [Socket.write_loop]. unfold Socket.send. cbn [Socket.sending Socket.wire
    Socket.m_socket Socket.incoming Socket.garbage].
  destruct out as [|[n|] out'].
  - (* the script is used up: everything goes out at once *)
    replace (Z.of_nat (length buffer) =? SOCKET_ERROR) with false
      by (symmetry; apply Z.eqb_neq; unfold SOCKET_ERROR; lia).
    rewrite Nat2Z.id, skipn_all. cbn.
    unfold wrote, reliable, live. cbn. rewrite Hlive. auto.
  - cbn in Hsend, Hfuel.
    replace (Z.of_nat (Nat.min n (length buffer)) =? SOCKET_ERROR) with false
      by (symmetry; apply Z.eqb_neq; unfold SOCKET_ERROR; lia).
    rewrite Nat2Z.id.
    set (k := Nat.min n (length buffer)).
    set (s1 := {| Socket.m_socket := sock; Socket.incoming := inc;
                  Socket.sending := out'; Socket.wire := w ++ firstn k buffer;
                  Socket.garbage := g |}).
    assert (H1 : wrote (Socket.mk sock inc (Socket.Accept n :: out') w g) s1 (firstn k buffer)).
    { unfold wrote, reliable, live. cbn. rewrite Hlive, Hsend. auto. }
    destruct (0 <? length (skipn k buffer))%nat eqn:E.
    + eapply wrote_split; [exact H1 | | symmetry; apply firstn_skipn].
      apply IH; [cbn; lia | apply H1].
    + apply Nat.ltb_ge in E.
      assert (E' : skipn k buffer = []) by (apply length_zero_iff_nil; lia).
      eapply wrote_split; [exact H1 | apply wrote_refl, H1 |].
      rewrite app_nil_r, <- (firstn_skipn k buffer) at 1.
      rewrite E', app_nil_r. reflexivity.
  - cbn in Hsend. discriminate.
Qed.

Lemma write_wrote (buffer : list byte) (len : Z) (s : Socket.t) :
  reliable s = true ->
  wrote s (snd (Socket.write buffer len s)) (firstn (Z.to_nat len) buffer).
Proof.
  intros Hrel. unfold Socket.write.
  destruct (reliable_inv s Hrel) as [Hlive _]. rewrite Hlive. cbn [snd].
  apply write_loop_wrote; [lia | exact Hrel].
Qed.

Lemma writeByte_wrote (c : Z) (s : Socket.t) :
  reliable s = true -> wrote s (snd (Socket.writeByte c s)) [char_of_int c].
Proof. intros H. apply (write_wrote [char_of_int c] 1 s H). Qed.

Lemma writeInt_wrote (x : Z) (s : Socket.t) :
  reliable s = true -> wrote s (snd (Socket.writeInt x s)) (Socket.buffer_of_int x).
Proof. intros H. apply (write_wrote (Socket.buffer_of_int x) 4 s H). Qed.

Lemma bind_snd {A B : Type} (m : Socket.Net A) (k : A -> Socket.Net B) (s : Socket.t) :
  Socket.bind m k s = k (fst (m s)) (snd (m s)).
Proof. unfold Socket.bind. destruct (m s). reflexivity. Qed.

Lemma c_str_text (s rest : list byte) : is_text s -> c_str (s ++ NUL :: rest) = s.
Proof.
  induction 1 as [|b s Hb Hs IH]; cbn.
  - reflexivity.
  - rewrite Hb, IH. reflexivity.
Qed.

Lemma c_str_firstn (l : list byte) : firstn (length (c_str l)) l = c_str l.
Proof.
  induction l as [|b l IH]; cbn; [reflexivity|].
  destruct (is_NUL b); cbn; [reflexivity | rewrite IH; reflexivity].
Qed.

Lemma is_textb_true (s : list byte) : is_textb s = true -> is_text s.
Proof.
  unfold is_textb, is_text. intros H. apply Forall_forall. intros b Hb.
  rewrite forallb_forall in H. apply negb_true_iff, H, Hb.
Qed.

(** With a length that fits an [int], [writeString] sends the length and
    then the text. *)
Lemma writeString_wrote (str : list byte) (s : Socket.t) :
  reliable s = true ->
  Z.of_nat (length (c_str str)) < 2 ^ 31 ->
  wrote s (snd (Socket.writeString str s))
    (Socket.buffer_of_int (Z.of_nat (length (c_str str))) ++ c_str str).
Proof.
  intros Hrel Hlen. unfold Socket.writeString. rewrite bind_snd.
  unfold strlen. rewrite wrap32_id by (unfold int32; lia).
  pose proof (writeInt_wrote (Z.of_nat (length (c_str str))) s Hrel) as H1.
  eapply wrote_split; [exact H1 | apply write_wrote, H1 |].
  rewrite Nat2Z.id, c_str_firstn. reflexivity.
Qed.

Lemma wrote_emitted {A : Type} (op : Socket.Net A) (s : Socket.t) (bs : list byte) :
  wrote s (snd (op s)) bs -> emitted op s = bs.
Proof.
  unfold wrote, emitted. intros (_ & _ & _ & H & _).
  rewrite H, skipn_app, skipn_all, Nat.sub_diag. reflexivity.
Qed.

(** ** The transport session: reads *)

Lemma stream_segment (bs : list byte) (l : list Socket.recv_event) :
  bs <> [] -> stream (Socket.Segment bs :: l) = bs ++ stream l.
Proof. destruct bs; [congruence | reflexivity]. Qed.

Lemma took_refl (s : Socket.t) : took s s [].
Proof. unfold took. auto. Qed.

Lemma took_trans (s1 s2 s3 : Socket.t) (a b : list byte) :
  took s1 s2 a -> took s2 s3 b -> took s1 s3 (a ++ b).
Proof.
  unfold took. intros (A1 & A2 & A3 & A4 & A5) (B1 & B2 & B3 & B4 & B5).
  repeat split; try congruence.
  rewrite A2, B2, app_assoc. reflexivity.
Qed.

Lemma took_reliable (s s' : Socket.t) (bs : list byte) :
  took s s' bs -> reliable s = true -> reliable s' = true.
Proof.
  unfold took, reliable, live. intros (A1 & _ & A3 & _) H. rewrite A1, A3. exact H.
Qed.

Lemma took_live (s s' : Socket.t) (bs : list byte) :
  took s s' bs -> live s = true -> live s' = true.
Proof. unfold took, live. intros (A1 & _) H. rewrite A1. exact H. Qed.

(** When enough bytes arrive the loop collects exactly [len] of them, in
    whatever segments they come. *)
Lemma read_loop_took (fuel : nat) :
  forall s got len,
    0 < len ->
    (Z.to_nat len < fuel)%nat ->
    len <= Z.of_nat (length (inbound s)) ->
    fst (Socket.read_loop fuel s got len) = got ++ firstn (Z.to_nat len) (inbound s) /\
    took s (snd (Socket.read_loop fuel s got len)) (firstn (Z.to_nat len) (inbound s)).
Proof.
  induction fuel as [|fuel IH]; intros s got len Hpos Hfuel Hlen; [lia|].
  destruct s as [sock inc out w g]. unfold inbound in *. cbn [Socket.incoming] in *.
  cbn [Socket.read_loop]. unfold Socket.recv. cbn [Socket.incoming Socket.m_socket
    Socket.sending Socket.wire Socket.garbage].
  destruct inc as [|[seg|] inc']; try (cbn in Hlen; lia).
  destruct seg as [|b seg']; [cbn in Hlen; lia|].
  set (seg := b :: seg') in *.
  assert (Hseg : seg <> []) by (unfold seg; congruence).
  assert (Hsl : (0 < length seg)%nat) by (unfold seg; cbn; lia).
  rewrite stream_segment in * by exact Hseg.
  rewrite length_app in Hlen.
  destruct (length seg <=? Z.to_nat len)%nat eqn:E.
  - apply Nat.leb_le in E.
    replace (Z.of_nat (length seg) =? 0) with false by (symmetry; apply Z.eqb_neq; lia).
    replace (Z.of_nat (length seg) =? SOCKET_ERROR) with false
      by (symmetry; apply Z.eqb_neq; unfold SOCKET_ERROR; lia).
    rewrite firstn_app, (firstn_all2 (n := Z.to_nat len) seg) by lia.
    set (s1 := {| Socket.m_socket := sock; Socket.incoming := inc'; Socket.sending := out;
                  Socket.wire := w; Socket.garbage := g |}).
    assert (H1 : took (Socket.mk sock (Socket.Segment seg :: inc') out w g) s1 seg).
    { unfold took, inbound, s1. cbn [Socket.m_socket Socket.incoming Socket.sending
        Socket.wire Socket.garbage].
      rewrite stream_segment by exact Hseg. auto. }
    destruct (0 <? len - Z.of_nat (length seg)) eqn:E2.
    + apply Z.ltb_lt in E2.
      destruct (IH s1 (got ++ seg) (len - Z.of_nat (length seg))) as [F T].
      { lia. }
      { lia. }
      { unfold s1. cbn [Socket.incoming]. lia. }
      replace (Z.to_nat (len - Z.of_nat (length seg)))
        with (Z.to_nat len - length seg)%nat in F, T by lia.
      unfold s1 in F at 2. unfold s1 in T at 3. cbn [Socket.incoming] in F, T.
      split.
      * rewrite F, app_assoc. reflexivity.
      * eapply took_trans; [exact H1 | exact T].
    + apply Z.ltb_ge in E2.
      replace (Z.to_nat len - length seg)%nat with 0%nat by lia.
      cbn [firstn fst snd]. rewrite app_nil_r. split; [reflexivity | exact H1].
  - apply Nat.leb_gt in E.
    replace (Z.of_nat (Z.to_nat len) =? 0) with false by (symmetry; apply Z.eqb_neq; lia).
    replace (Z.of_nat (Z.to_nat len) =? SOCKET_ERROR) with false
      by (symmetry; apply Z.eqb_neq; unfold SOCKET_ERROR; lia).
    replace (0 <? len - Z.of_nat (Z.to_nat len)) with false
      by (symmetry; apply Z.ltb_ge; lia).
    rewrite firstn_app. replace (Z.to_nat len - length seg)%nat with 0%nat by lia.
    cbn [firstn fst snd]. rewrite app_nil_r. split; [reflexivity|].
    unfold took, inbound. cbn [Socket.m_socket Socket.incoming Socket.sending
      Socket.wire Socket.garbage].
    assert (Hrest : skipn (Z.to_nat len) seg <> []).
    { intros C. apply (f_equal (@length byte)) in C. rewrite length_skipn in C.
      cbn [length] in C. lia. }
    rewrite (stream_segment seg) by exact Hseg.
    rewrite (stream_segment (skipn (Z.to_nat len) seg)) by exact Hrest.
    rewrite app_assoc, firstn_skipn. auto.
Qed.

Lemma live_inv (s : Socket.t) : live s = true -> (Socket.m_socket s =? 0) = false.
Proof. unfold live. apply negb_true_iff. Qed.

Lemma read_took (buffer : list byte) (len : Z) (s : Socket.t) :
  live s = true ->
  0 < len ->
  len <= Z.of_nat (length (inbound s)) ->
  fst (Socket.read buffer len s)
    = firstn (Z.to_nat len) (inbound s) ++ skipn (Z.to_nat len) buffer /\
  took s (snd (Socket.read buffer len s)) (firstn (Z.to_nat len) (inbound s)).
Proof.
  intros Hlive Hpos Hlen. unfold Socket.read. rewrite (live_inv s Hlive).
  destruct (read_loop_took (S (Z.to_nat len)) s [] len) as [F T]; [lia | lia | lia |].
  destruct (Socket.read_loop (S (Z.to_nat len)) s [] len) as [got s'].
  cbn [fst snd] in *. subst got. cbn [app]. split; [|exact T].
  rewrite length_firstn. replace (Nat.min (Z.to_nat len) (length (inbound s)))
    with (Z.to_nat len) by lia.
  reflexivity.
Qed.

(** [readByte] on a stream that still holds a byte. *)
Lemma readByte_took (b : byte) (rest : list byte) (s : Socket.t) :
  live s = true ->
  inbound s = b :: rest ->
  fst (Socket.readByte s) = char_to_int b /\ took s (snd (Socket.readByte s)) [b].
Proof.
  intros Hlive Hin. unfold Socket.readByte. rewrite (live_inv s Hlive).
  destruct (read_took (Socket.uninit s 1) 1 s Hlive) as [F T];
    [lia | rewrite Hin; cbn [length]; lia |].
  destruct (Socket.read (Socket.uninit s 1) 1 s) as [buffer s'].
  cbn [fst snd] in *. rewrite Hin in F, T. cbn in F, T. subst buffer.
  split; [reflexivity | exact T].
Qed.

(** [readInt] on a stream that still holds four bytes. *)
Lemma readInt_took (bs rest : list byte) (s : Socket.t) :
  live s = true ->
  length bs = 4%nat ->
  inbound s = bs ++ rest ->
  fst (Socket.readInt s) = Socket.int_of_buffer bs /\ took s (snd (Socket.readInt s)) bs.
Proof.
  intros Hlive Hbs Hin. unfold Socket.readInt. rewrite (live_inv s Hlive).
  destruct (read_took (Socket.uninit s 4) 4 s Hlive) as [F T];
    [lia | rewrite Hin, length_app; lia |].
  destruct (Socket.read (Socket.uninit s 4) 4 s) as [buffer s'].
  cbn [fst snd] in *. rewrite Hin in F, T.
  change (Z.to_nat 4) with 4%nat in F, T.
  rewrite firstn_app, firstn_all2, Hbs in F, T by lia.
  cbn [Nat.sub firstn] in F, T. rewrite app_nil_r in F, T.
  split; [|exact T].
  subst buffer. do 5 (destruct bs as [|? bs]; try discriminate). reflexivity.
Qed.

Lemma buffer_of_int_length (x : Z) : length (Socket.buffer_of_int x) = 4%nat.
Proof. reflexivity. Qed.

(** [readString] on a stream that holds a length and that many bytes of
    text. *)
Lemma readString_took (str rest : list byte) (s : Socket.t) :
  live s = true ->
  is_text str ->
  Z.of_nat (length str) < 2 ^ 31 ->
  inbound s = Socket.buffer_of_int (Z.of_nat (length str)) ++ str ++ rest ->
  fst (Socket.readString s) = str /\
  took s (snd (Socket.readString s)) (Socket.buffer_of_int (Z.of_nat (length str)) ++ str).
Proof.
  intros Hlive Htext Hlen Hin. unfold Socket.readString. rewrite (live_inv s Hlive).
  destruct (readInt_took _ _ s Hlive (buffer_of_int_length _) Hin) as [F T].
  destruct (Socket.readInt s) as [len0 s1]. cbn [fst snd] in F, T.
  rewrite int_of_buffer_of_int in F by (unfold int32; lia). subst len0.
  replace (Z.of_nat (length str) <? 0) with false by (symmetry; apply Z.ltb_ge; lia).
  assert (Hin1 : inbound s1 = str ++ rest).
  { destruct T as (_ & T2 & _). rewrite Hin in T2. apply app_inv_head in T2. auto. }
  destruct (Z.of_nat (length str) =? 0) eqn:E.
  - apply Z.eqb_eq in E. assert (str = []) by (apply length_zero_iff_nil; lia). subst str.
    rewrite app_nil_r. cbn [fst snd]. split; [reflexivity | exact T].
  - apply Z.eqb_neq in E.
    destruct (read_took (Socket.uninit s1 (Z.to_nat (Z.of_nat (length str) + 1)))
                (Z.of_nat (length str)) s1) as [F2 T2].
    { eapply took_live; eassumption. }
    { lia. }
    { rewrite Hin1, length_app. lia. }
    destruct (Socket.read _ _ s1) as [buffer' s2]. cbn [fst snd] in *.
    rewrite Hin1, Nat2Z.id in F2, T2.
    rewrite firstn_app, firstn_all, Nat.sub_diag in F2, T2. cbn [firstn] in F2, T2.
    rewrite app_nil_r in F2, T2. subst buffer'.
    rewrite Nat2Z.id, firstn_app, firstn_all, Nat.sub_diag. cbn [firstn].
    rewrite app_nil_r. split.
    + apply c_str_text, Htext.
    + eapply took_trans; eassumption.
Qed.

(** ** Claim C1: the codec round trip *)

(** C1.  For every 32-bit integer [x], [readInt] applied to the four bytes
    that [writeInt x] puts on the wire yields [x]; for every string [str],
    the empty one included, [readString] applied to what [writeString] puts
    on the wire (the length as an [int], then exactly that many bytes) yields
    [str].  The sender is a session on which no [send] fails; the bytes may
    reach the receiver in any segmentation, followed by any [rest], which is
    left in the stream.  A string is the text before the terminator of a
    [char*], and its length fits the [int] prefix. *)
Theorem C1_codec_round_trip
    (x : Z) (str after rest : list byte) (sender int_rcv str_rcv : Socket.t) :
  int32b x = true ->
  is_textb str = true ->
  (Z.of_nat (length str) <? 2 ^ 31) = true ->
  reliable sender = true ->
  live int_rcv = true ->
  live str_rcv = true ->
  inbound int_rcv = emitted (Socket.writeInt x) sender ++ rest ->
  inbound str_rcv = emitted (Socket.writeString (str ++ NUL :: after)) sender ++ rest ->
  (fst (Socket.readInt int_rcv) = x /\
   inbound (snd (Socket.readInt int_rcv)) = rest) /\
  (fst (Socket.readString str_rcv) = str /\
   inbound (snd (Socket.readString str_rcv)) = rest).
Proof.
  intros Hx Htext Hlen Hsend Hli Hls Hint Hstr.
  apply int32b_true in Hx. apply is_textb_true in Htext. apply Z.ltb_lt in Hlen.
  split.
  - rewrite (wrote_emitted _ _ _ (writeInt_wrote x sender Hsend)) in Hint.
    destruct (readInt_took _ _ int_rcv Hli (buffer_of_int_length x) Hint) as [F T].
    split.
    + rewrite F. apply int_of_buffer_of_int, Hx.
    + destruct T as (_ & T2 & _). rewrite Hint in T2. apply app_inv_head in T2. auto.
  - assert (Hc : c_str (str ++ NUL :: after) = str) by (apply c_str_text, Htext).
    pose proof (writeString_wrote (str ++ NUL :: after) sender Hsend) as W.
    rewrite Hc in W. specialize (W Hlen).
    rewrite (wrote_emitted _ _ _ W), <- app_assoc in Hstr.
    destruct (readString_took str rest str_rcv Hls Htext Hlen Hstr) as [F T].
    split; [exact F|].
    destruct T as (_ & T2 & _). rewrite Hstr, app_assoc in T2.
    apply app_inv_head in T2. auto.
Qed.

Lemma C1_codec_round_trip_witness :
  (fst (Socket.readInt int_receiver) = -2 /\
   inbound (snd (Socket.readInt int_receiver)) = lit "tail") /\
  (fst (Socket.readString string_receiver) = lit "Ada" /\
   inbound (snd (Socket.readString string_receiver)) = lit "tail").
Proof.
  apply (C1_codec_round_trip (-2) (lit "Ada") (lit "junk") (lit "tail") slow_sender);
    reflexivity.
Defined.

(** The empty string goes out as a zero length and comes back empty. *)
Example empty_string_round_trip :
  emitted (Socket.writeString [NUL]) quiet_session = Socket.buffer_of_int 0 /\
  fst (Socket.readString (session_receiving [Socket.buffer_of_int 0])) = [].
Proof. split; reflexivity. Qed.

(** ** The loops end by themselves

    [Socket.read] and [Socket.write] run their loops with the least fuel that
    always suffices; more fuel changes nothing, so the fuel never cuts a loop
    short. *)

Lemma read_loop_fuel (fuel1 : nat) :
  forall fuel2 s got len,
    (Z.to_nat len < fuel1)%nat ->
    (Z.to_nat len < fuel2)%nat ->
    Socket.read_loop fuel1 s got len = Socket.read_loop fuel2 s got len.
Proof.
  induction fuel1 as [|fuel1 IH]; intros fuel2 s got len H1 H2; [lia|].
  destruct fuel2 as [|fuel2]; [lia|].
  cbn [Socket.read_loop]. unfold Socket.recv.
  destruct (Socket.incoming s) as [|[seg|] inc']; try reflexivity.
  destruct (length seg <=? Z.to_nat len)%nat eqn:E.
  - destruct (Z.of_nat (length seg) =? 0) eqn:E0; [reflexivity|].
    destruct (Z.of_nat (length seg) =? SOCKET_ERROR); [reflexivity|].
    destruct (0 <? len - Z.of_nat (length seg)) eqn:E1; [|reflexivity].
    apply Z.eqb_neq in E0. apply Z.ltb_lt in E1. apply IH; lia.
  - destruct (Z.of_nat (Z.to_nat len) =? 0) eqn:E0; [reflexivity|].
    destruct (Z.of_nat (Z.to_nat len) =? SOCKET_ERROR); [reflexivity|].
    destruct (0 <? len - Z.of_nat (Z.to_nat len)) eqn:E1; [|reflexivity].
    apply Z.eqb_neq in E0. apply Z.ltb_lt in E1. lia.
Qed.

Lemma write_loop_fuel (fuel1 : nat) :
  forall fuel2 s buffer,
    (length (Socket.sending s) < fuel1)%nat ->
    (length (Socket.sending s) < fuel2)%nat ->
    Socket.write_loop fuel1 s buffer = Socket.write_loop fuel2 s buffer.
Proof.
  induction fuel1 as [|fuel1 IH]; intros fuel2 s buffer H1 H2; [lia|].
  destruct fuel2 as [|fuel2]; [lia|].
  cbn [Socket.write_loop]. unfold Socket.send.
  destruct (Socket.sending s) as [|[n|] out'] eqn:Eout; cbn [length] in H1, H2.
  - destruct (Z.of_nat (length buffer) =? SOCKET_ERROR); [reflexivity|].
    rewrite Nat2Z.id, skipn_all. reflexivity.
  - destruct (Z.of_nat (Nat.min n (length buffer)) =? SOCKET_ERROR); [reflexivity|].
    destruct (0 <? length _)%nat; [|reflexivity].
    apply IH; cbn [Socket.sending]; lia.
  - reflexivity.
Qed.

(** ** Claim C5: reads on a failing stream *)

(** A read that the stream cannot satisfy ends with the session dead. *)
Lemma read_loop_short (fuel : nat) :
  forall s got len,
    (Z.to_nat len < fuel)%nat ->
    Z.of_nat (length (inbound s)) < len ->
    live (snd (Socket.read_loop fuel s got len)) = false.
Proof.
  induction fuel as [|fuel IH]; intros s got len Hfuel Hlen; [lia|].
  destruct s as [sock inc out w g]. unfold inbound in *. cbn [Socket.incoming] in *.
  cbn [Socket.read_loop]. unfold Socket.recv. cbn [Socket.incoming Socket.m_socket
    Socket.sending Socket.wire Socket.garbage].
  destruct inc as [|[seg|] inc']; try reflexivity.
  destruct seg as [|b seg']; [reflexivity|].
  set (seg := b :: seg') in *.
  assert (Hseg : seg <> []) by (unfold seg; congruence).
  assert (Hsl : (0 < length seg)%nat) by (unfold seg; cbn; lia).
  rewrite stream_segment in Hlen by exact Hseg. rewrite length_app in Hlen.
  replace (length seg <=? Z.to_nat len)%nat with true by (symmetry; apply Nat.leb_le; lia).
  replace (Z.of_nat (length seg) =? 0) with false by (symmetry; apply Z.eqb_neq; lia).
  replace (Z.of_nat (length seg) =? SOCKET_ERROR) with false
    by (symmetry; apply Z.eqb_neq; unfold SOCKET_ERROR; lia).
  replace (0 <? len - Z.of_nat (length seg)) with true by (symmetry; apply Z.ltb_lt; lia).
  apply IH; [lia | cbn [Socket.incoming]; lia].
Qed.

Lemma read_short (buffer : list byte) (len : Z) (s : Socket.t) :
  Z.of_nat (length (inbound s)) < len ->
  live (snd (Socket.read buffer len s)) = false.
Proof.
  intros Hlen. unfold Socket.read.
  destruct (Socket.m_socket s =? 0) eqn:E.
  - cbn [snd]. unfold live. rewrite E. reflexivity.
  - pose proof (read_loop_short (S (Z.to_nat len)) s [] len) as H.
    destruct (Socket.read_loop (S (Z.to_nat len)) s [] len) as [got s'].
    cbn [snd] in *. apply H; lia.
Qed.

(** On a dead session every decoder returns its fixed value and leaves the
    session as it is. *)
Lemma dead_decoders (s : Socket.t) :
  live s = false ->
  Socket.readByte s = (-1, s) /\ Socket.readInt s = (-1, s) /\ Socket.readString s = ([], s).
Proof.
  unfold live. intros H. apply negb_false_iff in H.
  unfold Socket.readByte, Socket.readInt, Socket.readString. rewrite H. auto.
Qed.

(** C5, evaluated where it fails.  The peer sends the bytes 0x12 0x34 of an
    [int] and closes.  [read] marks the session dead, but [readInt] does not
    look at the session again after [read] returns: it assembles its result
    from the two bytes received and the two bytes the stack buffer happened
    to hold, and returns 0x1234ABAB to the caller as if it were the decoded
    value.  [readString] likewise returns the received part of a string
    completed by what the buffer held.  Only the decodes after that one are
    answered with the fixed values -1 and the empty string. *)
Theorem C5_readInt_returns_partial_data :
  fst (Socket.readInt torn_int_session) = 0x1234ABAB /\
  live (snd (Socket.readInt torn_int_session)) = false /\
  fst (Socket.readString torn_string_session) = lit "Hi???" /\
  live (snd (Socket.readString torn_string_session)) = false /\
  fst (Socket.readInt (snd (Socket.readInt torn_int_session))) = -1.
Proof. repeat split; vm_compute; reflexivity. Qed.

(** ** Application memory *)

Lemma store_bytes_outside (bs : list byte) :
  forall m a x, x < a \/ a + Z.of_nat (length bs) <= x -> store_bytes m a bs x = m x.
Proof.
  induction bs as [|b bs IH]; intros m a x Hx; cbn [store_bytes]; [reflexivity|].
  cbn [length] in Hx. rewrite IH by lia.
  unfold store_byte. replace (x =? a) with false by (symmetry; apply Z.eqb_neq; lia).
  reflexivity.
Qed.

Lemma load_store_bytes (bs : list byte) :
  forall m a, load_bytes (store_bytes m a bs) a (length bs) = bs.
Proof.
  induction bs as [|b bs IH]; intros m a; cbn [store_bytes load_bytes length];
    [reflexivity|].
  rewrite IH. f_equal.
  rewrite store_bytes_outside by lia.
  unfold store_byte. rewrite Z.eqb_refl. reflexivity.
Qed.

Lemma load_bytes_ext (n : nat) :
  forall m m' a,
    (forall x, a <= x < a + Z.of_nat n -> m' x = m x) ->
    load_bytes m' a n = load_bytes m a n.
Proof.
  induction n as [|n IH]; intros m m' a H; cbn [load_bytes]; [reflexivity|].
  rewrite (H a) by lia. f_equal. apply IH. intros x Hx. apply H. lia.
Qed.

Lemma load_bytes_firstn (n k : nat) :
  forall m a, (k <= n)%nat -> firstn k (load_bytes m a n) = load_bytes m a k.
Proof.
  revert k. induction n as [|n IH]; intros k m a Hk.
  - replace k with 0%nat by lia. reflexivity.
  - destruct k as [|k]; [reflexivity|]. cbn [load_bytes firstn]. rewrite IH by lia.
    reflexivity.
Qed.

Lemma le_value_le_bytes_4 (v : Z) : le_value (le_bytes 4 v) = Z.land v (Z.ones 32).
Proof.
  cbn [le_bytes le_value]. rewrite !byte.unsigned_of_Z. unfold byte.wrap.
  rewrite <- !Z.land_ones by lia.
  rewrite !Z.shiftr_shiftr by lia. cbn [Z.add Pos.add Pos.succ].
  rewrite Z.shiftl_0_l, Z.lor_0_r.
  rewrite !Z.shiftl_lor, !Z.shiftl_shiftl by lia. cbn [Z.add Pos.add Pos.succ].
  Z.bitblast.
Qed.

Lemma load_store_int32 (m : Mem) (a v : Z) :
  load_int32 (store_int32 m a v) a = wrap32 v.
Proof.
  unfold load_int32, store_int32.
  change 4%nat with (length (le_bytes 4 v)) at 1. rewrite load_store_bytes.
  rewrite le_value_le_bytes_4, Z.land_ones by lia. apply wrap32_mod.
Qed.

Lemma store_int32_outside (m : Mem) (a v x : Z) :
  x < a \/ a + 4 <= x -> store_int32 m a v x = m x.
Proof. intros H. unfold store_int32. apply store_bytes_outside. cbn [le_bytes length]. lia. Qed.

Lemma load_int32_ext (m m' : Mem) (a : Z) :
  (forall x, a <= x < a + 4 -> m' x = m x) -> load_int32 m' a = load_int32 m a.
Proof.
  intros H. unfold load_int32. rewrite (load_bytes_ext 4 m m' a); [reflexivity|].
  intros x Hx. apply H. lia.
Qed.

Lemma apart_inv (sp p n : Z) : apart sp p n = true -> sp + 4 <= p \/ p + n <= sp.
Proof.
  unfold apart. intros H. apply orb_true_iff in H.
  destruct H as [H|H]; apply Z.leb_le in H; lia.
Qed.

(** ** Claim C7: a null column reaches the indicator only *)

(** C7.  When the implementation record of a fetched column has its was-null
    flag set, [copyData] stores [SQL_NULL_DATA] in the indicator the
    application bound and changes no other byte of the application's memory,
    whatever target type the application record declares; in particular the
    bound data buffer, [capacity] bytes at [m_pointer] lying apart from the
    indicator, reads byte for byte as before. *)
Theorem C7_null_leaves_buffer_untouched
    (ir ar : DescriptorRecord.t) (m : Mem) (capacity : nat) :
  DescriptorRecord.m_wasNull ir = true ->
  DescriptorRecord.m_statusPointer ar <> 0 ->
  exists m',
    DescriptorRecord.copyData ir ar m = Some m' /\
    load_int32 m' (DescriptorRecord.m_statusPointer ar) = SQL_NULL_DATA /\
    (forall x,
        x < DescriptorRecord.m_statusPointer ar \/
        DescriptorRecord.m_statusPointer ar + 4 <= x ->
        m' x = m x) /\
    (apart (DescriptorRecord.m_statusPointer ar) (DescriptorRecord.m_pointer ar)
       (Z.of_nat capacity) = true ->
     load_bytes m' (DescriptorRecord.m_pointer ar) capacity
       = load_bytes m (DescriptorRecord.m_pointer ar) capacity).
Proof.
  intros Hnull Hsp. unfold DescriptorRecord.copyData, DescriptorRecord.setNull.
  rewrite Hnull. apply Z.eqb_neq in Hsp. rewrite Hsp. apply Z.eqb_neq in Hsp.
  eexists. split; [reflexivity|]. split; [|split].
  - rewrite load_store_int32. reflexivity.
  - intros x Hx. apply store_int32_outside, Hx.
  - intros Hap. apply apart_inv in Hap. apply load_bytes_ext.
    intros x Hx. apply store_int32_outside. lia.
Qed.

Lemma C7_null_leaves_buffer_untouched_witness :
  exists m',
    DescriptorRecord.copyData null_record small_buffer_record blank_memory = Some m' /\
    load_int32 m' 200 = SQL_NULL_DATA /\
    (forall x, x < 200 \/ 200 + 4 <= x -> m' x = blank_memory x) /\
    (apart 200 100 (Z.of_nat 3) = true ->
     load_bytes m' 100 3 = load_bytes blank_memory 100 3).
Proof.
  apply (C7_null_leaves_buffer_untouched null_record small_buffer_record blank_memory 3).
  - reflexivity.
  - discriminate.
Defined.

(** ** Claim C2: copying a text longer than the buffer *)

(** C2 as stated fails on [returnString].  The text "Hello" is fetched into
    a buffer of capacity 3 bound at address 100, whose indicator is at 200.
    The claim wants the buffer to read 'H' 'e' NUL, nothing written from
    address 103 on, and 5 in the indicator.  The code writes 'H' 'e' 'l' into
    the buffer and stores 3 in the indicator; its terminator goes to address
    103. *)
Lemma C2_counterexample :
  exists m',
    DescriptorRecord.copyData hello_record small_buffer_record blank_memory = Some m' /\
    fetched_text hello_record = lit "Hello" /\
    load_bytes m' 100 3 = lit "Hel" /\
    m' 103 = NUL /\ blank_memory 103 <> NUL /\
    load_int32 m' 200 = 3 /\
    ~ (load_bytes m' 100 3 = lit "He" ++ [NUL] /\
       m' 103 = blank_memory 103 /\
       load_int32 m' 200 = 5).
Proof.
  eexists. split; [reflexivity|].
  repeat split; try (vm_compute; congruence).
  intros (H & _). vm_compute in H. discriminate.
Qed.

Lemma fetched_text_returnString (ir : DescriptorRecord.t) (dest dest_len dest_pt : Z) (m : Mem) :
  dest_len <> 0 -> dest <> 0 -> dest_pt <> 0 ->
  0 < dest_len < Z.of_nat (length (fetched_text ir)) ->
  Z.of_nat (length (fetched_text ir)) < 2 ^ 31 ->
  SqlUtils.returnString dest dest_len dest_pt (DescriptorRecord.getString ir) m
  = Some (store_byte
            (store_bytes (store_int32 m dest_pt dest_len) dest
               (firstn (Z.to_nat dest_len) (fetched_text ir)))
            (dest + dest_len) NUL).
Proof.
  intros Hlen Hdest Hpt Hcap Hfit. unfold SqlUtils.returnString.
  fold (fetched_text ir).
  apply Z.eqb_neq in Hlen, Hdest, Hpt. rewrite Hlen, Hdest, Hpt.
  rewrite wrap32_id by (unfold int32; lia).
  replace (dest_len <? Z.of_nat (length (fetched_text ir))) with true
    by (symmetry; apply Z.ltb_lt; lia).
  replace (dest_len <? 0) with false by (symmetry; apply Z.ltb_ge; lia).
  reflexivity.
Qed.

(** C2, amended.  When the fetched text is longer than the positive capacity
    declared for the bound text buffer, [copyData] stores the truncated
    length, which is the capacity, in the bound indicator, and the first
    [capacity - 1] bytes of the buffer receive the first [capacity - 1] bytes
    of the text.  The indicator lies apart from the buffer and from the byte
    that follows it. *)
Theorem C2_truncating_copy (ir ar : DescriptorRecord.t) (m : Mem) :
  DescriptorRecord.m_wasNull ir = false ->
  DescriptorRecord.m_cDataType ar = SQL_C_CHAR ->
  DescriptorRecord.m_pointer ar <> 0 ->
  DescriptorRecord.m_statusPointer ar <> 0 ->
  0 < DescriptorRecord.m_targetBufferLength ar ->
  DescriptorRecord.m_targetBufferLength ar < Z.of_nat (length (fetched_text ir)) ->
  Z.of_nat (length (fetched_text ir)) < 2 ^ 31 ->
  apart (DescriptorRecord.m_statusPointer ar) (DescriptorRecord.m_pointer ar)
    (DescriptorRecord.m_targetBufferLength ar + 1) = true ->
  exists m',
    DescriptorRecord.copyData ir ar m = Some m' /\
    load_int32 m' (DescriptorRecord.m_statusPointer ar)
      = DescriptorRecord.m_targetBufferLength ar /\
    load_bytes m' (DescriptorRecord.m_pointer ar)
        (Z.to_nat (DescriptorRecord.m_targetBufferLength ar - 1))
      = firstn (Z.to_nat (DescriptorRecord.m_targetBufferLength ar - 1)) (fetched_text ir).
Proof.
  intros Hnull Htype Hp Hsp Hpos Hlong Hfit Hap.
  unfold DescriptorRecord.copyData. rewrite Hnull, Htype, Z.eqb_refl.
  set (p := DescriptorRecord.m_pointer ar) in *.
  set (sp := DescriptorRecord.m_statusPointer ar) in *.
  set (cap := DescriptorRecord.m_targetBufferLength ar) in *.
  set (text := fetched_text ir) in *.
  rewrite fetched_text_returnString by (fold text; lia). fold text.
  apply apart_inv in Hap.
  assert (Hcut : length (firstn (Z.to_nat cap) text) = Z.to_nat cap)
    by (rewrite length_firstn; lia).
  eexists. split; [reflexivity|]. split.
  - transitivity (load_int32 (store_int32 m sp cap) sp);
      [| rewrite load_store_int32; apply wrap32_id; unfold int32; lia].
    apply load_int32_ext. intros x Hx. unfold store_byte.
    replace (x =? p + cap) with false by (symmetry; apply Z.eqb_neq; lia).
    apply store_bytes_outside. rewrite Hcut. lia.
  - set (F := firstn (Z.to_nat cap) text) in *.
    assert (L : load_bytes (store_byte (store_bytes (store_int32 m sp cap) p F) (p + cap) NUL)
                  p (Z.to_nat cap) = F).
    { transitivity (load_bytes (store_bytes (store_int32 m sp cap) p F) p (Z.to_nat cap)).
      - apply load_bytes_ext. intros x Hx. unfold store_byte.
        replace (x =? p + cap) with false by (symmetry; apply Z.eqb_neq; lia).
        reflexivity.
      - rewrite <- Hcut. apply load_store_bytes. }
    rewrite <- (load_bytes_firstn (Z.to_nat cap) (Z.to_nat (cap - 1))) by lia.
    rewrite L. unfold F. rewrite firstn_firstn. f_equal. lia.
Qed.

Lemma C2_truncating_copy_witness :
  exists m',
    DescriptorRecord.copyData hello_record small_buffer_record blank_memory = Some m' /\
    load_int32 m' 200 = 3 /\
    load_bytes m' 100 (Z.to_nat (3 - 1)) = firstn (Z.to_nat (3 - 1)) (fetched_text hello_record).
Proof.
  apply (C2_truncating_copy hello_record small_buffer_record blank_memory);
    try reflexivity; discriminate.
Defined.

(** ** Claim C9: the auto-commit toggle *)

(** C9.  [setAutoCommit] called with the value the connection already holds
    leaves the session exactly as it was, so nothing is written; called with
    the other value on a session whose sends succeed it puts exactly the two
    bytes 'A' '1' or 'A' '0' on the wire and stores the new flag. *)
Theorem C9_setAutoCommit_toggle (c : Connection.t) (flag : bool) (s : Socket.t) :
  (flag = Connection.m_autoCommit c ->
   Connection.setAutoCommit flag c s = (c, s)) /\
  (flag <> Connection.m_autoCommit c ->
   reliable s = true ->
   emitted (Connection.setAutoCommit flag c) s = lit (if flag then "A1" else "A0") /\
   Connection.m_autoCommit (fst (Connection.setAutoCommit flag c s)) = flag).
Proof.
  split.
  - intros ->. unfold Connection.setAutoCommit. rewrite eqb_reflx. reflexivity.
  - intros Hne Hrel. unfold Connection.setAutoCommit.
    replace (Bool.eqb flag (Connection.m_autoCommit c)) with false
      by (symmetry; apply eqb_false_iff, Hne).
    cbn [negb]. split.
    + apply wrote_emitted. rewrite !bind_snd. cbn [Socket.ret snd].
      pose proof (writeByte_wrote (chr "A") s Hrel) as W1.
      eapply wrote_split; [exact W1 | apply writeByte_wrote, W1 |].
      destruct flag; reflexivity.
    + rewrite !bind_snd. reflexivity.
Qed.

Lemma C9_setAutoCommit_toggle_witness :
  Connection.setAutoCommit true autocommit_connection quiet_session
    = (autocommit_connection, quiet_session) /\
  emitted (Connection.setAutoCommit false autocommit_connection) slow_sender = lit "A0" /\
  Connection.m_autoCommit
    (fst (Connection.setAutoCommit false autocommit_connection slow_sender)) = false.
Proof.
  split.
  - apply (proj1 (C9_setAutoCommit_toggle autocommit_connection true quiet_session)).
    reflexivity.
  - apply (proj2 (C9_setAutoCommit_toggle autocommit_connection false slow_sender)).
    + discriminate.
    + reflexivity.
Defined.

(** ** Claim C8: sending a parameter value *)

(** C8 as stated fails on [sendParameterValue].  A parameter declared as
    [SQL_C_DOUBLE] makes it return without a byte written and without any
    error: the function has no result, and [executePrepared], which has
    already sent the tag '1' and the ordinal of the parameter, goes on,
    reports success and leaves the statement's diagnostic empty. *)
Lemma C8_counterexample :
  DescriptorRecord.m_cDataType double_parameter = SQL_C_DOUBLE /\
  DescriptorRecord.sendParameterValue blank_memory double_parameter update_session
    = (tt, update_session) /\
  exists st' s',
    Statement.executePrepared blank_memory double_statement update_session
      = (Some (true, st'), s') /\
    Statement.m_error st' = None /\
    Socket.wire s' = lit "Q" ++ Socket.buffer_of_int 7
                     ++ lit "1" ++ Socket.buffer_of_int 0 ++ lit "0".
Proof.
  split; [reflexivity|]. split; [reflexivity|].
  eexists. eexists. split; [vm_compute; reflexivity|]. split; reflexivity.
Qed.

(** C8, amended.  When the indicator of the parameter holds the null
    sentinel, [sendParameterValue] is one [writeInt(0)], which on a session
    whose sends succeed puts the four zero bytes of the null marker on the
    wire and nothing else.  For a declared C type other than [SQL_C_SHORT],
    [SQL_C_LONG] and [SQL_C_CHAR], with a data pointer bound and the
    indicator not holding the null sentinel, it returns with the session
    exactly as it was: no byte is written and no error is raised. *)
Theorem C8_sendParameterValue (m : Mem) (r : DescriptorRecord.t) (s : Socket.t) :
  (DescriptorRecord.m_statusPointer r <> 0 ->
   load_int32 m (DescriptorRecord.m_statusPointer r) = SQL_NULL_DATA ->
   DescriptorRecord.sendParameterValue m r s = Socket.writeInt 0 s /\
   (reliable s = true ->
    emitted (DescriptorRecord.sendParameterValue m r) s
      = [Byte.x00; Byte.x00; Byte.x00; Byte.x00])) /\
  (DescriptorRecord.m_cDataType r <> SQL_C_SHORT ->
   DescriptorRecord.m_cDataType r <> SQL_C_LONG ->
   DescriptorRecord.m_cDataType r <> SQL_C_CHAR ->
   DescriptorRecord.m_pointer r <> 0 ->
   DescriptorRecord.m_statusPointer r = 0 \/
   load_int32 m (DescriptorRecord.m_statusPointer r) <> SQL_NULL_DATA ->
   DescriptorRecord.sendParameterValue m r s = (tt, s)).
Proof.
  split.
  - intros Hsp Hind.
    assert (E : DescriptorRecord.sendParameterValue m r s = Socket.writeInt 0 s).
    { unfold DescriptorRecord.sendParameterValue.
      apply Z.eqb_neq in Hsp. rewrite Hsp, Hind, Z.eqb_refl. reflexivity. }
    split; [exact E|]. intros Hrel.
    apply wrote_emitted. rewrite E. apply (writeInt_wrote 0 s Hrel).
  - intros Hshort Hlong Hchar Hp Hind.
    assert (V : forall length, DescriptorRecord.sendValue m r length s = (tt, s)).
    { intros length. unfold DescriptorRecord.sendValue.
      apply Z.eqb_neq in Hshort, Hlong, Hchar. rewrite Hshort, Hlong, Hchar. reflexivity. }
    unfold DescriptorRecord.sendParameterValue.
    apply Z.eqb_neq in Hp. rewrite Hp.
    destruct (DescriptorRecord.m_statusPointer r =? 0) eqn:E; [apply V|].
    destruct Hind as [Hind|Hind]; [apply Z.eqb_eq in Hind; congruence|].
    apply Z.eqb_neq in Hind. rewrite Hind.
    destruct (_ || _); apply V.
Qed.

Lemma C8_sendParameterValue_witness :
  (DescriptorRecord.sendParameterValue null_indicator_memory long_parameter slow_sender
     = Socket.writeInt 0 slow_sender /\
   emitted (DescriptorRecord.sendParameterValue null_indicator_memory long_parameter)
     slow_sender = [Byte.x00; Byte.x00; Byte.x00; Byte.x00]) /\
  DescriptorRecord.sendParameterValue blank_memory double_parameter update_session
    = (tt, update_session).
Proof.
  split.
  - destruct (proj1 (C8_sendParameterValue null_indicator_memory long_parameter slow_sender))
      as [E W].
    + discriminate.
    + reflexivity.
    + split; [exact E | apply W; reflexivity].
  - apply (proj2 (C8_sendParameterValue blank_memory double_parameter update_session)).
    + discriminate.
    + discriminate.
    + discriminate.
    + discriminate.
    + left. reflexivity.
Defined.

(** ** Reads leave the wire alone *)

Lemma read_loop_wire (fuel : nat) :
  forall s got len, Socket.wire (snd (Socket.read_loop fuel s got len)) = Socket.wire s.
Proof.
  induction fuel as [|fuel IH]; intros s got len; [reflexivity|].
  cbn [Socket.read_loop]. unfold Socket.recv.
  destruct (Socket.incoming s) as [|[seg|] inc']; try reflexivity.
  destruct (length seg <=? Z.to_nat len)%nat;
    repeat match goal with
           | |- context [if ?c then _ else _] => destruct c
           end;
    try reflexivity; rewrite IH; reflexivity.
Qed.

Lemma silent_ret {A : Type} (a : A) : silent (Socket.ret a).
Proof. intros s. reflexivity. Qed.

Lemma silent_bind {A B : Type} (m : Socket.Net A) (k : A -> Socket.Net B) :
  silent m -> (forall a, silent (k a)) -> silent (Socket.bind m k).
Proof.
  intros Hm Hk s. rewrite bind_snd, Hk, Hm. reflexivity.
Qed.

Lemma silent_read (buffer : list byte) (len : Z) : silent (Socket.read buffer len).
Proof.
  intros s. unfold Socket.read.
  destruct (Socket.m_socket s =? 0); [reflexivity|].
  pose proof (read_loop_wire (S (Z.to_nat len)) s [] len) as H.
  destruct (Socket.read_loop (S (Z.to_nat len)) s [] len). exact H.
Qed.

Lemma silent_readByte : silent Socket.readByte.
Proof.
  intros s. unfold Socket.readByte.
  destruct (Socket.m_socket s =? 0); [reflexivity|].
  pose proof (silent_read (Socket.uninit s 1) 1 s) as H.
  destruct (Socket.read (Socket.uninit s 1) 1 s). exact H.
Qed.

Lemma silent_readInt : silent Socket.readInt.
Proof.
  intros s. unfold Socket.readInt.
  destruct (Socket.m_socket s =? 0); [reflexivity|].
  pose proof (silent_read (Socket.uninit s 4) 4 s) as H.
  destruct (Socket.read (Socket.uninit s 4) 4 s). exact H.
Qed.

Lemma silent_readString : silent Socket.readString.
Proof.
  intros s. unfold Socket.readString.
  destruct (Socket.m_socket s =? 0); [reflexivity|].
  pose proof (silent_readInt s) as H1.
  destruct (Socket.readInt s) as [len0 s1]. cbn [snd] in H1.
  destruct (_ =? 0); [exact H1|].
  match goal with |- context [Socket.read ?b ?l s1] =>
    pose proof (silent_read b l s1) as H2; destruct (Socket.read b l s1)
  end.
  cbn [snd] in *. congruence.
Qed.

Lemma silent_readMeta (r : DescriptorRecord.t) : silent (DescriptorRecord.readMeta r).
Proof.
  unfold DescriptorRecord.readMeta.
  repeat (apply silent_bind; [first [apply silent_readInt | apply silent_readString] | intros ?]).
  apply silent_ret.
Qed.

Lemma silent_readColumns (n : nat) :
  forall imp app, silent (Statement.readColumns n imp app).
Proof.
  induction n as [|n IH]; intros imp app; cbn [Statement.readColumns].
  - apply silent_ret.
  - apply silent_bind; [apply silent_readMeta | intros rec; apply IH].
Qed.

Lemma silent_processResultSet (st : Statement.t) : silent (Statement.processResultSet st).
Proof.
  unfold Statement.processResultSet.
  apply silent_bind; [apply silent_readInt | intros id].
  apply silent_bind; [apply silent_readInt | intros n].
  apply silent_bind; [apply silent_readColumns | intros d]. apply silent_ret.
Qed.

(** ** Claim C3: record counts of the descriptors *)

Lemma readColumns_counts (n : nat) :
  forall imp app s,
    length (Descriptor.m_records (fst (fst (Statement.readColumns n imp app s))))
      = (length (Descriptor.m_records imp) + n)%nat /\
    length (Descriptor.m_records (snd (fst (Statement.readColumns n imp app s))))
      = (length (Descriptor.m_records app) + n)%nat.
Proof.
  induction n as [|n IH]; intros imp app s; cbn [Statement.readColumns].
  - cbn. lia.
  - rewrite bind_snd.
    match goal with |- context [Statement.readColumns n ?i ?a ?s'] =>
      destruct (IH i a s') as [H1 H2]
    end.
    rewrite H1, H2. unfold Descriptor.addRecord. cbn [Descriptor.set_m_records
      Descriptor.m_records]. rewrite !length_app. cbn [length]. lia.
Qed.

(** After [processResultSet] both row descriptors hold as many records as
    the column count that was read. *)
Lemma processResultSet_counts (st : Statement.t) (s : Socket.t) :
  row_counts (fst (Statement.processResultSet st s))
  = (Z.max 0 (Statement.m_columnCount (fst (Statement.processResultSet st s))),
     Z.max 0 (Statement.m_columnCount (fst (Statement.processResultSet st s)))).
Proof.
  unfold Statement.processResultSet. rewrite !bind_snd. cbn [Socket.ret fst].
  set (s1 := snd (Socket.readInt s)).
  set (n := fst (Socket.readInt s1)).
  match goal with |- context [Statement.readColumns ?k ?i ?a ?s'] =>
    destruct (readColumns_counts k i a s') as [H1 H2];
    set (rc := Statement.readColumns k i a s') in *
  end.
  unfold row_counts, Descriptor.getRecordCount.
  cbn [Statement.m_impRow Statement.m_appRow Statement.set_m_appRow Statement.set_m_impRow
       Statement.m_columnCount Statement.set_m_columnCount Statement.set_m_resultSetId
       Statement.set_m_hasResultSet Statement.set_m_state Statement.set_m_updateCount
       Statement.set_m_rowId].
  rewrite H1, H2. unfold Descriptor.clearRecords. cbn [Descriptor.set_m_records
    Descriptor.m_records length]. f_equal; lia.
Qed.

(** The column count kept by [processResultSet] is the one on the stream. *)
Lemma processResultSet_reads_count (st : Statement.t) (s : Socket.t)
    (id n : Z) (rest : list byte) :
  live s = true -> int32 id -> int32 n ->
  inbound s = Socket.buffer_of_int id ++ Socket.buffer_of_int n ++ rest ->
  Statement.m_resultSetId (fst (Statement.processResultSet st s)) = id /\
  Statement.m_columnCount (fst (Statement.processResultSet st s)) = n.
Proof.
  intros Hlive Hid Hn Hin.
  unfold Statement.processResultSet. rewrite !bind_snd. cbn [Socket.ret fst].
  destruct (readInt_took _ _ s Hlive (buffer_of_int_length id) Hin) as [F1 T1].
  assert (Hin1 : inbound (snd (Socket.readInt s)) = Socket.buffer_of_int n ++ rest).
  { destruct T1 as (_ & T & _). rewrite Hin in T. apply app_inv_head in T. auto. }
  destruct (readInt_took _ _ _ (took_live _ _ _ T1 Hlive) (buffer_of_int_length n) Hin1)
    as [F2 _].
  cbn [Statement.m_resultSetId Statement.m_columnCount Statement.set_m_appRow
       Statement.set_m_impRow Statement.set_m_columnCount Statement.set_m_resultSetId].
  rewrite F1, F2, !int_of_buffer_of_int by assumption. auto.
Qed.

Lemma chr_R_not_E : (chr "R" =? chr "E") = false.
Proof. reflexivity. Qed.

Lemma chr_O_not_E : (chr "O" =? chr "E") = false.
Proof. reflexivity. Qed.

(** [execute] on the reply 'R' hands over to [processResultSet]. *)
Lemma execute_on_R (m : Mem) (sql : list byte) (st : Statement.t) (s : Socket.t) :
  fst (execute_reply sql s) = chr "R" ->
  exists st0,
    fst (Statement.execute m sql st s)
    = Some (true, fst (Statement.processResultSet st0 (snd (execute_reply sql s)))).
Proof.
  unfold execute_reply, Statement.execute. rewrite !bind_snd. intros H.
  rewrite H, chr_R_not_E, Z.eqb_refl, !bind_snd. cbn [Socket.ret fst].
  eexists. reflexivity.
Qed.

(** [executePrepared] on the reply 'R' hands over to [processResultSet]. *)
Lemma executePrepared_on_R (m : Mem) (st : Statement.t) (s : Socket.t) :
  fst (executePrepared_reply m st s) = Some (chr "R") ->
  exists st0 s0,
    fst (Statement.executePrepared m st s)
    = Some (true, fst (Statement.processResultSet st0 s0)).
Proof.
  unfold executePrepared_reply, Statement.executePrepared. rewrite !bind_snd.
  destruct (fst (Statement.sendParameters _ _ _ _ _)); cbn [negb].
  - rewrite !bind_snd. cbn [Socket.ret fst]. intros H. injection H as H.
    rewrite H, chr_R_not_E, Z.eqb_refl, !bind_snd. cbn [Socket.ret fst].
    eexists. eexists. reflexivity.
  - cbn [Socket.ret fst]. discriminate.
Qed.

(** [prepare] on the reply 'O' empties both parameter descriptors. *)
Lemma prepare_on_O (sql : list byte) (st : Statement.t) (s : Socket.t) :
  fst (prepare_reply sql s) = chr "O" ->
  exists st',
    fst (Statement.prepare sql st s) = (true, st') /\
    param_counts st' = (0, 0) /\
    Statement.m_parameterCount st'
      = fst (Socket.readInt (snd (Socket.readInt (snd (prepare_reply sql s))))).
Proof.
  unfold prepare_reply, Statement.prepare. rewrite !bind_snd. intros H.
  rewrite H, chr_O_not_E, Z.eqb_refl, !bind_snd. cbn [Socket.ret fst].
  eexists. split; [reflexivity|]. split; reflexivity.
Qed.

(** C3 as stated fails on [prepare].  The server answers 'O' with the id 7
    and two parameters; the statement records the count 2, and both
    parameter descriptors are left with no record at all. *)
Lemma C3_counterexample :
  fst (prepare_reply (lit "INSERT INTO TEST VALUES(?, ?)") prepared_session) = chr "O" /\
  exists st',
    fst (Statement.prepare (lit "INSERT INTO TEST VALUES(?, ?)")
           (Statement.new S_CLOSED) prepared_session) = (true, st') /\
    Statement.m_parameterCount st' = 2 /\
    param_counts st' = (0, 0) /\
    ~ (param_counts st' = (2, 2)).
Proof.
  split; [reflexivity|]. eexists. split; [reflexivity|].
  split; [reflexivity|]. split; [reflexivity|]. discriminate.
Qed.

(** The first index past the records is not refused by [SQLBindCol]: column
    number 3 of a two-column result passes the test against the column
    count and reaches the unchecked [getRecord(2)], while column number 4 is
    answered with [SQL_ERROR]. *)
Example SQLBindCol_one_past_the_end :
  row_counts two_column_statement = (2, 2) /\
  Api.SQLBindCol statement_heap 64 3 SQL_C_CHAR 100 3 200 = None /\
  option_map fst (Api.SQLBindCol statement_heap 64 4 SQL_C_CHAR 100 3 200)
    = Some SQL_ERROR /\
  option_map fst (Api.SQLBindCol statement_heap 64 2 SQL_C_CHAR 100 3 200)
    = Some SQL_SUCCESS.
Proof. repeat split; vm_compute; reflexivity. Qed.

(** C3, amended.  [processResultSet], the one path every response 'R' takes,
    leaves in the implementation and in the application row descriptor
    exactly as many records as the column count N it read from the server
    (none when N is negative), so the two counts are equal; this holds after
    [execute] and after [executePrepared] whenever the reply is 'R'.  After a
    [prepare] answered with 'O' the statement keeps the parameter count N
    that follows the prepared id on the stream, and both parameter
    descriptors are emptied: their counts are equal, and zero; [addParameter], which binding a parameter calls, adds
    one record to each of the two. *)
Theorem C3_record_counts (m : Mem) (sql : list byte) (st : Statement.t) (s : Socket.t) :
  (row_counts (fst (Statement.processResultSet st s))
   = (Z.max 0 (Statement.m_columnCount (fst (Statement.processResultSet st s))),
      Z.max 0 (Statement.m_columnCount (fst (Statement.processResultSet st s))))) /\
  (forall id n rest,
      live s = true -> int32b id = true -> int32b n = true ->
      inbound s = Socket.buffer_of_int id ++ Socket.buffer_of_int n ++ rest ->
      Statement.m_columnCount (fst (Statement.processResultSet st s)) = n) /\
  (fst (execute_reply sql s) = chr "R" ->
   exists st',
     fst (Statement.execute m sql st s) = Some (true, st') /\
     row_counts st' = (Z.max 0 (Statement.m_columnCount st'),
                       Z.max 0 (Statement.m_columnCount st'))) /\
  (fst (executePrepared_reply m st s) = Some (chr "R") ->
   exists st',
     fst (Statement.executePrepared m st s) = Some (true, st') /\
     row_counts st' = (Z.max 0 (Statement.m_columnCount st'),
                       Z.max 0 (Statement.m_columnCount st'))) /\
  (fst (prepare_reply sql s) = chr "O" ->
   exists st',
     fst (Statement.prepare sql st s) = (true, st') /\
     Statement.m_parameterCount st'
       = fst (Socket.readInt (snd (Socket.readInt (snd (prepare_reply sql s))))) /\
     param_counts st' = (0, 0)) /\
  param_counts (Statement.addParameter st)
  = (fst (param_counts st) + 1, snd (param_counts st) + 1).
Proof.
  split; [apply processResultSet_counts|]. split; [|split; [|split; [|split]]].
  - intros id n rest Hlive Hid Hn Hin.
    apply (processResultSet_reads_count st s id n rest Hlive
             (int32b_true id Hid) (int32b_true n Hn) Hin).
  - intros H. destruct (execute_on_R m sql st s H) as [st0 E].
    eexists. split; [exact E | apply processResultSet_counts].
  - intros H. destruct (executePrepared_on_R m st s H) as (st0 & s0 & E).
    eexists. split; [exact E | apply processResultSet_counts].
  - intros H. destruct (prepare_on_O sql st s H) as (st' & E & C & N).
    eexists. split; [exact E | split; [exact N | exact C]].
  - unfold param_counts, Statement.addParameter, Descriptor.getRecordCount,
      Descriptor.addRecord.
    cbn [Statement.m_impParam Statement.m_appParam Statement.set_m_appParam
         Statement.set_m_impParam Descriptor.set_m_records Descriptor.m_records fst snd].
    rewrite !length_app. cbn [length]. f_equal; lia.
Qed.

Lemma C3_record_counts_witness :
  (exists st',
     fst (Statement.execute blank_memory (lit "SELECT ID, NAME FROM TEST")
            (Statement.new S_CLOSED) query_session) = Some (true, st') /\
     row_counts st' = (Z.max 0 (Statement.m_columnCount st'),
                       Z.max 0 (Statement.m_columnCount st'))) /\
  (exists st',
     fst (Statement.prepare (lit "INSERT INTO TEST VALUES(?, ?)")
            (Statement.new S_CLOSED) prepared_session) = (true, st') /\
     Statement.m_parameterCount st'
       = fst (Socket.readInt (snd (Socket.readInt (snd
           (prepare_reply (lit "INSERT INTO TEST VALUES(?, ?)") prepared_session))))) /\
     param_counts st' = (0, 0)).
Proof.
  split.
  - apply (proj1 (proj2 (proj2 (C3_record_counts blank_memory
             (lit "SELECT ID, NAME FROM TEST") (Statement.new S_CLOSED) query_session)))).
    reflexivity.
  - apply (proj1 (proj2 (proj2 (proj2 (proj2 (C3_record_counts blank_memory
             (lit "INSERT INTO TEST VALUES(?, ?)") (Statement.new S_CLOSED)
             prepared_session)))))).
    reflexivity.
Defined.

(** ** Claim C6: a rejected prepare *)

(** C6 as stated fails on [executePrepared].  The server answers the prepare
    with 'E'; the statement is closed with diagnostic 42000.  The execute
    that follows does not look at the state: it sends 'Q', the prepared id
    and the end marker '0' to the server and reads the server's reply from
    the stream. *)
Lemma C6_counterexample :
  exists st1 s1,
    Statement.prepare (lit "SELEC 1") (Statement.new S_EXECUTED) rejecting_session
      = ((false, st1), s1) /\
    Statement.m_state st1 = S_CLOSED /\
    Statement.m_error st1 = Some E_42000 /\
    emitted (Statement.executePrepared blank_memory st1) s1
      = lit "Q" ++ Socket.buffer_of_int 0 ++ lit "0" /\
    inbound s1 = lit "U" ++ Socket.buffer_of_int 0 /\
    inbound (snd (Statement.executePrepared blank_memory st1 s1)) = [] /\
    fst (Statement.executePrepared blank_memory st1 s1)
      = Some (true, Statement.set_m_hasResultSet false
                      (Statement.set_m_updateCount 0 (Statement.set_m_columnCount 0
                         (Statement.set_m_resultSetId 0 (Statement.set_m_rowId 0
                            (Statement.set_m_state S_EXECUTED st1)))))).
Proof.
  eexists. eexists. split; [vm_compute; reflexivity|].
  repeat split; vm_compute; reflexivity.
Qed.

(** Without parameters, [executePrepared] sends 'Q', the id and '0'. *)
Lemma executePrepared_request (m : Mem) (st : Statement.t) (s : Socket.t) :
  Statement.m_parameterCount st = 0 ->
  reliable s = true ->
  emitted (Statement.executePrepared m st) s
  = lit "Q" ++ Socket.buffer_of_int (Statement.m_preparedId st) ++ lit "0".
Proof.
  intros Hcount Hrel. unfold emitted, Statement.executePrepared.
  rewrite Hcount. cbn [Z.to_nat Statement.sendParameters].
  rewrite !bind_snd. cbn [Socket.ret fst snd negb]. rewrite !bind_snd.
  set (s1 := snd (Socket.writeByte (chr "Q") s)).
  set (s2 := snd (Socket.writeInt (Statement.m_preparedId st) s1)).
  set (s3 := snd (Socket.writeByte (chr "0") s2)).
  assert (W1 : wrote s s1 (lit "Q")) by (apply (writeByte_wrote (chr "Q") s Hrel)).
  assert (W2 : wrote s1 s2 (Socket.buffer_of_int (Statement.m_preparedId st)))
    by (apply writeInt_wrote, W1).
  assert (W3 : wrote s2 s3 (lit "0")) by (apply (writeByte_wrote (chr "0") s2), W2).
  pose proof (wrote_trans _ _ _ _ _ W1 (wrote_trans _ _ _ _ _ W2 W3)) as W.
  assert (Hw : Socket.wire (snd (Socket.readByte s3)) = Socket.wire s3)
    by apply silent_readByte.
  match goal with
  | |- skipn _ (Socket.wire (snd ?t)) = _ =>
      assert (E : Socket.wire (snd t) = Socket.wire (snd (Socket.readByte s3)))
  end.
  { repeat match goal with
           | |- context [if ?c then _ else _] => destruct c
           end; rewrite ?bind_snd; cbn [Socket.ret snd]; try reflexivity.
    - apply silent_processResultSet.
    - apply silent_readInt. }
  rewrite E, Hw. destruct W as (_ & _ & _ & W & _). rewrite W.
  rewrite skipn_app, skipn_all, Nat.sub_diag. reflexivity.
Qed.

(** C6, amended.  When the reply to a prepare is 'E', [prepare] returns
    false, the statement is in state CLOSED with no parameters, and its
    diagnostic is the syntax-error class 42000.  A later execute is not
    stopped by that state: on any session whose sends succeed,
    [executePrepared] sends the request 'Q', the prepared id and the end
    marker '0' as for any other statement. *)
Theorem C6_rejected_prepare (m : Mem) (sql : list byte) (st : Statement.t) (s : Socket.t) :
  fst (prepare_reply sql s) = chr "E" ->
  exists st',
    fst (Statement.prepare sql st s) = (false, st') /\
    Statement.m_state st' = S_CLOSED /\
    Statement.m_parameterCount st' = 0 /\
    Statement.m_error st' = Some E_42000 /\
    sqlstate E_42000 = "42000"%string /\
    (forall s2,
        reliable s2 = true ->
        emitted (Statement.executePrepared m st') s2
        = lit "Q" ++ Socket.buffer_of_int (Statement.m_preparedId st') ++ lit "0").
Proof.
  intros H. unfold prepare_reply in H. rewrite !bind_snd in H.
  unfold Statement.prepare. rewrite !bind_snd, H, Z.eqb_refl. cbn [Socket.ret fst].
  eexists. split; [reflexivity|].
  repeat (split; [reflexivity|]).
  intros s2 Hrel. apply executePrepared_request; [reflexivity | exact Hrel].
Qed.

Lemma C6_rejected_prepare_witness :
  exists st',
    fst (Statement.prepare (lit "SELEC 1") (Statement.new S_EXECUTED) rejecting_session)
      = (false, st') /\
    Statement.m_state st' = S_CLOSED /\
    Statement.m_parameterCount st' = 0 /\
    Statement.m_error st' = Some E_42000 /\
    sqlstate E_42000 = "42000"%string /\
    (forall s2,
        reliable s2 = true ->
        emitted (Statement.executePrepared blank_memory st') s2
        = lit "Q" ++ Socket.buffer_of_int (Statement.m_preparedId st') ++ lit "0").
Proof.
  apply (C6_rejected_prepare blank_memory (lit "SELEC 1") (Statement.new S_EXECUTED)
           rejecting_session).
  reflexivity.
Defined.

(** ** Claim C4: opening a connection *)

(** No path through [open] assigns [m_state]. *)
Lemma open_keeps_state (net : Socket.Network) (stack : nat -> byte)
    (name user password : list byte) (c : Connection.t) :
  Connection.m_state (fst (Connection.open net stack name user password c))
  = Connection.m_state c.
Proof.
  unfold Connection.open.
  repeat match goal with
         | |- context [if ?b then _ else _] => destruct b
         | |- context [let '(_, _) := ?p in _] => destruct p
         end; reflexivity.
Qed.

(** C4, evaluated where it fails.  The target is well formed, the server
    accepts the stream and would answer the connect request with 'O'.
    [Socket::isClosed] returns [m_socket != 0], which is true for the stream
    that was just established, so [open] records 08001 and returns before
    the request 'C' is sent; and since [m_state == C_OPEN;] and
    [m_state == C_CLOSED;] are comparisons, the state stays INIT on every
    path.  When the stream cannot be established, [isClosed] is false, the
    handshake runs on the dead session, [readByte] returns -1 and the
    diagnostic is 08004 instead of 08001. *)
Theorem C4_open_misreports :
  fst (Connection.handshake (lit "test") (lit "sa") []
         (Socket.new accepting_network no_garbage (lit "localhost") 9082)) = chr "O" /\
  (exists c' s',
      Connection.open accepting_network no_garbage test_url (lit "sa") [] fresh_connection
        = (c', Some s') /\
      Connection.m_state c' = C_INIT /\
      Connection.m_error c' = Some E_08001 /\
      live s' = true /\ Socket.wire s' = [] /\ inbound s' = lit "O") /\
  (exists c' s',
      Connection.open unreachable_network no_garbage test_url (lit "sa") [] fresh_connection
        = (c', Some s') /\
      Connection.m_state c' = C_INIT /\
      Connection.m_error c' = Some E_08004 /\
      live s' = false).
Proof.
  split; [reflexivity|].
  split; eexists; eexists; (split; [vm_compute; reflexivity|]); repeat split; reflexivity.
Qed.

(** ** Claim C10: handle checks *)


Lemma Connection_cast_accepts (magic : MagicView) (p : Z) :
  Connection.cast magic p <> 0 <-> p <> 0 /\ magic p = MAGIC_CONNECTION.
Proof.
  unfold Connection.cast.
  destruct (p =? 0) eqn:E1; [apply Z.eqb_eq in E1; tauto|].
  apply Z.eqb_neq in E1.
  destruct (magic p =? MAGIC_CONNECTION) eqn:E2; cbn [negb].
  - apply Z.eqb_eq in E2. tauto.
  - apply Z.eqb_neq in E2. tauto.
Qed.

Lemma Environment_cast_accepts (magic : MagicView) (p : Z) :
  Environment.cast magic p <> 0 <-> p <> 0 /\ magic p = MAGIC_ENVIRONMENT.
Proof.
  unfold Environment.cast.
  destruct (p =? 0) eqn:E1; [apply Z.eqb_eq in E1; tauto|].
  apply Z.eqb_neq in E1.
  destruct (magic p =? MAGIC_ENVIRONMENT) eqn:E2; cbn [negb].
  - apply Z.eqb_eq in E2. tauto.
  - apply Z.eqb_neq in E2. tauto.
Qed.

(** A handle the statement check refuses is answered with
    [SQL_INVALID_HANDLE], the heap untouched. *)
Lemma SQLBindCol_invalid_handle (h : Api.Heap) (p col type value len ind : Z) :
  Statement.cast (Api.magic_at h) p = 0 ->
  Api.SQLBindCol h p col type value len ind = Some (SQL_INVALID_HANDLE, h).
Proof. intros H. unfold Api.SQLBindCol. rewrite H. reflexivity. Qed.


(** [Descriptor::cast] never returns for a pointer that is not null,
    whatever depth of calls is allowed. *)
Lemma Descriptor_cast_diverges (fuel : nat) (magic : MagicView) (p : Z) :
  p <> 0 -> Descriptor.cast fuel magic p = None.
Proof.
  intros Hp. apply Z.eqb_neq in Hp.
  induction fuel as [|fuel IH]; cbn [Descriptor.cast]; [reflexivity|].
  rewrite Hp, IH. reflexivity.
Qed.

(** C10, evaluated where it fails.  For a descriptor handle the check calls
    itself before it looks at the tag: given the valid descriptor at address
    64, or a statement passed as a descriptor, it returns nothing at any
    depth of calls, and [SQLFreeHandle] for a descriptor neither accepts the
    first nor answers the second with [SQL_INVALID_HANDLE].  Only the null
    pointer is refused.  The checks of the other three classes behave as C10
    says. *)
Theorem C10_descriptor_cast_never_returns (fuel : nat) :
  Descriptor.cast fuel (Api.magic_at descriptor_heap) 64 = None /\
  Descriptor.cast fuel (Api.magic_at statement_heap) 64 = None /\
  Api.SQLFreeHandle fuel descriptor_heap Api.SQL_HANDLE_DESC 64 = None /\
  Api.SQLFreeHandle fuel statement_heap Api.SQL_HANDLE_DESC 64 = None /\
  Api.SQLFreeHandle (S fuel) descriptor_heap Api.SQL_HANDLE_DESC 0
    = Some (SQL_INVALID_HANDLE, descriptor_heap) /\
  Api.SQLBindCol descriptor_heap 64 1 SQL_C_CHAR 100 3 200
    = Some (SQL_INVALID_HANDLE, descriptor_heap).
Proof.
  assert (D : forall magic, Descriptor.cast fuel magic 64 = None)
    by (intros magic; apply Descriptor_cast_diverges; discriminate).
  split; [apply D|]. split; [apply D|].
  split; [unfold Api.SQLFreeHandle; cbn [Z.eqb Api.SQL_HANDLE_DESC Api.SQL_HANDLE_ENV
            Api.SQL_HANDLE_DBC Api.SQL_HANDLE_STMT Pos.eqb]; rewrite D; reflexivity|].
  split; [unfold Api.SQLFreeHandle; cbn [Z.eqb Api.SQL_HANDLE_DESC Api.SQL_HANDLE_ENV
            Api.SQL_HANDLE_DBC Api.SQL_HANDLE_STMT Pos.eqb]; rewrite D; reflexivity|].
  split; reflexivity.
Qed.

(** ** The model at work on the scenarios of the specification *)

(** A fetch of the row (42, "Ada") into the bound targets: the long receives
    42, the text buffer "Ada" and its terminator, the indicators 4 and 3. *)
Example fetch_two_columns :
  match Statement.next blank_memory bound_statement row_session with
  | (Some (true, _, m'), s') =>
      load_int32 m' 300 = 42 /\ load_int32 m' 400 = 4 /\
      load_bytes m' 100 4 = lit "Ada" ++ [NUL] /\ load_int32 m' 200 = 3 /\
      Socket.wire s' = lit "G" ++ Socket.buffer_of_int 7
  | _ => False
  end.
Proof. vm_compute. repeat split. Qed.

(** An update statement: the count is kept, there is no result set, and a
    fetch answers "no row" without touching the session. *)
Example update_then_fetch :
  match Statement.execute blank_memory (lit "DELETE FROM TEST") (Statement.new S_CLOSED)
          three_rows_session with
  | (Some (true, st'), s') =>
      Statement.m_updateCount st' = 3 /\
      Statement.m_hasResultSet st' = false /\
      Statement.next blank_memory st' s' = (Some (false, st', blank_memory), s')
  | _ => False
  end.
Proof. vm_compute. repeat split. Qed.

(** * Further properties of the transport session *)





(** The loop of [read] on a stream that ends too early: everything that
    arrived is in the buffer and the session is dead. *)
Lemma read_loop_partial (fuel : nat) :
  forall s got len,
    (Z.to_nat len < fuel)%nat ->
    Z.of_nat (length (inbound s)) < len ->
    fst (Socket.read_loop fuel s got len) = got ++ inbound s /\
    live (snd (Socket.read_loop fuel s got len)) = false.
Proof.
  induction fuel as [|fuel IH]; intros s got len Hfuel Hlen; [lia|].
  destruct s as [sock inc out w g]. unfold inbound in *. cbn [Socket.incoming] in *.
  cbn [Socket.read_loop]. unfold Socket.recv. cbn [Socket.incoming Socket.m_socket
    Socket.sending Socket.wire Socket.garbage].
  destruct inc as [|[seg|] inc']; try (cbn; rewrite app_nil_r; split; reflexivity).
  destruct seg as [|b seg']; [cbn; rewrite app_nil_r; split; reflexivity|].
  set (seg := b :: seg') in *.
  assert (Hseg : seg <> []) by (unfold seg; congruence).
  assert (Hsl : (0 < length seg)%nat) by (unfold seg; cbn; lia).
  rewrite stream_segment in * by exact Hseg. rewrite length_app in Hlen.
  replace (length seg <=? Z.to_nat len)%nat with true by (symmetry; apply Nat.leb_le; lia).
  replace (Z.of_nat (length seg) =? 0) with false by (symmetry; apply Z.eqb_neq; lia).
  replace (Z.of_nat (length seg) =? SOCKET_ERROR) with false
    by (symmetry; apply Z.eqb_neq; unfold SOCKET_ERROR; lia).
  replace (0 <? len - Z.of_nat (length seg)) with true by (symmetry; apply Z.ltb_lt; lia).
  match goal with |- context [Socket.read_loop fuel ?s1 ?g ?l] =>
    destruct (IH s1 g l) as [F D]; [lia | cbn [Socket.incoming]; lia |]
  end.
  cbn [Socket.incoming] in F. rewrite F, <- app_assoc. split; [reflexivity | exact D].
Qed.

(** X2.  When the stream closes or fails before [len] bytes have arrived,
    [Socket::read] leaves the bytes that did arrive at the head of the
    buffer, the rest of the buffer as it was, the session dead and the wire
    unchanged. *)
Theorem read_short_leaves_partial_data (buffer : list byte) (len : Z) (s : Socket.t) :
  live s = true ->
  Z.of_nat (length (inbound s)) < len ->
  fst (Socket.read buffer len s) = inbound s ++ skipn (length (inbound s)) buffer /\
  live (snd (Socket.read buffer len s)) = false /\
  Socket.wire (snd (Socket.read buffer len s)) = Socket.wire s.
Proof.
  intros Hlive Hlen. split; [|split; [|apply silent_read]].
  - unfold Socket.read. rewrite (live_inv s Hlive).
    destruct (read_loop_partial (S (Z.to_nat len)) s [] len) as [F _]; [lia | lia |].
    destruct (Socket.read_loop (S (Z.to_nat len)) s [] len) as [got s'].
    cbn [fst] in *. subst got. reflexivity.
  - unfold Socket.read. rewrite (live_inv s Hlive).
    destruct (read_loop_partial (S (Z.to_nat len)) s [] len) as [_ D]; [lia | lia |].
    destruct (Socket.read_loop (S (Z.to_nat len)) s [] len) as [got s'].
    exact D.
Qed.

Lemma read_short_leaves_partial_data_witness :
  fst (Socket.read (lit "....") 4 torn_int_session)
    = inbound torn_int_session ++ skipn (length (inbound torn_int_session)) (lit "....") /\
  live (snd (Socket.read (lit "....") 4 torn_int_session)) = false /\
  Socket.wire (snd (Socket.read (lit "....") 4 torn_int_session))
    = Socket.wire torn_int_session.
Proof.
  apply (read_short_leaves_partial_data (lit "....") 4 torn_int_session).
  - reflexivity.
  - vm_compute. reflexivity.
Defined.

(** X3.  A dead session is inert: every decoder returns its fixed value
    (-1, false, the empty string), every encoder and [close] return at
    once, and the session, its stream and its wire are exactly as before. *)
Theorem dead_session_is_inert (s : Socket.t) (c x : Z) (b : bool) (str : list byte) :
  live s = false ->
  Socket.readByte s = (-1, s) /\
  Socket.readInt s = (-1, s) /\
  Socket.readBool s = (false, s) /\
  Socket.readString s = ([], s) /\
  Socket.writeByte c s = (tt, s) /\
  Socket.writeInt x s = (tt, s) /\
  Socket.writeBool b s = (tt, s) /\
  Socket.writeString str s = (tt, s) /\
  Socket.close s = s.
Proof.
  intros H. destruct (dead_decoders s H) as (R1 & R2 & R3).
  unfold live in H. apply negb_false_iff in H.
  repeat split; try assumption.
  - unfold Socket.readBool. rewrite R2. reflexivity.
  - unfold Socket.writeByte, Socket.write. rewrite H. reflexivity.
  - unfold Socket.writeInt, Socket.write. rewrite H. reflexivity.
  - unfold Socket.writeBool, Socket.writeInt, Socket.write. rewrite H. reflexivity.
  - unfold Socket.writeString, Socket.bind, Socket.writeInt, Socket.write. rewrite H.
    rewrite H. reflexivity.
  - unfold Socket.close. rewrite H. reflexivity.
Qed.

Lemma dead_session_is_inert_witness :
  Socket.readByte dead_session = (-1, dead_session) /\
  Socket.readInt dead_session = (-1, dead_session) /\
  Socket.readBool dead_session = (false, dead_session) /\
  Socket.readString dead_session = ([], dead_session) /\
  Socket.writeByte 65 dead_session = (tt, dead_session) /\
  Socket.writeInt 7 dead_session = (tt, dead_session) /\
  Socket.writeBool true dead_session = (tt, dead_session) /\
  Socket.writeString (lit "x") dead_session = (tt, dead_session) /\
  Socket.close dead_session = dead_session.
Proof.
  apply (dead_session_is_inert dead_session 65 7 true (lit "x")). reflexivity.
Defined.

(** ** Decoding step by step *)

Lemma sendable_inv (str : list byte) :
  sendable str = true -> is_text str /\ Z.of_nat (length str) < 2 ^ 31.
Proof.
  unfold sendable. intros H. apply andb_true_iff in H. destruct H as [H1 H2].
  split; [apply is_textb_true, H1 | apply Z.ltb_lt, H2].
Qed.

Lemma took_rest (s s' : Socket.t) (bs rest : list byte) :
  took s s' bs -> inbound s = bs ++ rest -> inbound s' = rest.
Proof.
  intros (_ & T & _) H. rewrite H in T. apply app_inv_head in T. auto.
Qed.

Lemma took_wire (s s' : Socket.t) (bs : list byte) :
  took s s' bs -> Socket.wire s' = Socket.wire s.
Proof. intros (_ & _ & _ & T & _). exact T. Qed.

Lemma readByte_next (b : byte) (rest : list byte) (s : Socket.t) :
  live s = true ->
  inbound s = b :: rest ->
  fst (Socket.readByte s) = char_to_int b /\
  live (snd (Socket.readByte s)) = true /\
  inbound (snd (Socket.readByte s)) = rest.
Proof.
  intros Hlive Hin. destruct (readByte_took b rest s Hlive Hin) as [F T].
  split; [exact F|]. split; [eapply took_live; eassumption|].
  apply (took_rest _ _ _ _ T Hin).
Qed.

Lemma readInt_next (x : Z) (rest : list byte) (s : Socket.t) :
  live s = true ->
  int32 x ->
  inbound s = Socket.buffer_of_int x ++ rest ->
  fst (Socket.readInt s) = x /\
  live (snd (Socket.readInt s)) = true /\
  inbound (snd (Socket.readInt s)) = rest.
Proof.
  intros Hlive Hx Hin.
  destruct (readInt_took _ _ s Hlive (buffer_of_int_length x) Hin) as [F T].
  split; [rewrite F; apply int_of_buffer_of_int, Hx|].
  split; [eapply took_live; eassumption|].
  apply (took_rest _ _ _ _ T Hin).
Qed.

Lemma readString_next (str rest : list byte) (s : Socket.t) :
  live s = true ->
  sendable str = true ->
  inbound s = wire_string str ++ rest ->
  fst (Socket.readString s) = str /\
  live (snd (Socket.readString s)) = true /\
  inbound (snd (Socket.readString s)) = rest.
Proof.
  intros Hlive Hstr Hin. destruct (sendable_inv str Hstr) as [Htext Hlen].
  unfold wire_string in Hin. rewrite <- app_assoc in Hin.
  destruct (readString_took str rest s Hlive Htext Hlen Hin) as [F T].
  split; [exact F|]. split; [eapply took_live; eassumption|].
  rewrite app_assoc in Hin. apply (took_rest _ _ _ _ T Hin).
Qed.

Lemma char_round_trip (c : Z) : char_to_int (char_of_int c) = as_char c.
Proof.
  unfold char_to_int, as_char. rewrite unsigned_char_of_int.
  change (2 ^ 8) with 256.
  destruct (c mod 256 <? 128) eqn:E.
  - apply Z.ltb_lt in E. Z.div_mod_to_equations. lia.
  - apply Z.ltb_ge in E. Z.div_mod_to_equations. lia.
Qed.

(** X4.  A byte in the range of a [char], -128..127, written by
    [writeByte] and read by [readByte] comes back unchanged, so the tags and
    digits of the protocol survive the wire; the rest of the stream is left
    for the next decode. *)
Theorem byte_round_trip (c : Z) (rest : list byte) (sender receiver : Socket.t) :
  (-128 <=? c) && (c <? 128) = true ->
  reliable sender = true ->
  live receiver = true ->
  inbound receiver = emitted (Socket.writeByte c) sender ++ rest ->
  fst (Socket.readByte receiver) = c /\
  inbound (snd (Socket.readByte receiver)) = rest.
Proof.
  intros Hc Hsend Hlive Hin.
  apply andb_true_iff in Hc. destruct Hc as [Hc1 Hc2].
  apply Z.leb_le in Hc1. apply Z.ltb_lt in Hc2.
  rewrite (wrote_emitted _ _ _ (writeByte_wrote c sender Hsend)) in Hin.
  destruct (readByte_next _ _ receiver Hlive Hin) as (F & _ & R).
  rewrite char_round_trip in F.
  split; [|exact R].
  rewrite F. unfold as_char. rewrite Z.mod_small; lia.
Qed.

Lemma byte_round_trip_witness :
  fst (Socket.readByte (session_receiving [lit "R"; lit "tail"])) = chr "R" /\
  inbound (snd (Socket.readByte (session_receiving [lit "R"; lit "tail"]))) = lit "tail".
Proof.
  apply (byte_round_trip (chr "R") (lit "tail") slow_sender); reflexivity.
Defined.

(** X5.  A boolean written by [writeBool] (the [int] 1 or 0) and read by
    [readBool] comes back unchanged, and the rest of the stream is left
    for the next decode. *)
Theorem bool_round_trip (b : bool) (rest : list byte) (sender receiver : Socket.t) :
  reliable sender = true ->
  live receiver = true ->
  inbound receiver = emitted (Socket.writeBool b) sender ++ rest ->
  fst (Socket.readBool receiver) = b /\
  inbound (snd (Socket.readBool receiver)) = rest.
Proof.
  intros Hsend Hlive Hin. unfold Socket.writeBool in Hin.
  rewrite (wrote_emitted _ _ _ (writeInt_wrote _ sender Hsend)) in Hin.
  assert (Hx : int32 (if b then 1 else 0)) by (unfold int32; destruct b; lia).
  destruct (readInt_next _ _ receiver Hlive Hx Hin) as (F & _ & R).
  unfold Socket.readBool.
  destruct (Socket.readInt receiver) as [x s']. cbn [fst snd] in *. subst x.
  split; [destruct b; reflexivity | exact R].
Qed.

Lemma bool_round_trip_witness :
  fst (Socket.readBool (session_receiving [Socket.buffer_of_int 1 ++ lit "tail"])) = true /\
  inbound (snd (Socket.readBool (session_receiving [Socket.buffer_of_int 1 ++ lit "tail"])))
    = lit "tail".
Proof.
  apply (bool_round_trip true (lit "tail") slow_sender); reflexivity.
Defined.

(** X6.  A string whose length prefix is zero or negative is read as the
    empty string: [readString] takes the four bytes of the length and
    nothing more, and the session stays live. *)
Theorem readString_nonpositive_length (n : Z) (rest : list byte) (s : Socket.t) :
  live s = true ->
  int32b n = true ->
  n <= 0 ->
  inbound s = Socket.buffer_of_int n ++ rest ->
  fst (Socket.readString s) = [] /\
  live (snd (Socket.readString s)) = true /\
  inbound (snd (Socket.readString s)) = rest.
Proof.
  intros Hlive Hn Hneg Hin. apply int32b_true in Hn.
  destruct (readInt_next n rest s Hlive Hn Hin) as (F & L & R).
  unfold Socket.readString. rewrite (live_inv s Hlive).
  destruct (Socket.readInt s) as [len0 s1]. cbn [fst snd] in *. subst len0.
  replace ((if n <? 0 then 0 else n) =? 0) with true.
  - cbn [fst snd]. auto.
  - symmetry. destruct (n <? 0) eqn:E; [reflexivity|].
    apply Z.ltb_ge in E. apply Z.eqb_eq. lia.
Qed.

Lemma readString_nonpositive_length_witness :
  fst (Socket.readString (session_receiving [Socket.buffer_of_int (-5) ++ lit "tail"])) = [] /\
  live (snd (Socket.readString
              (session_receiving [Socket.buffer_of_int (-5) ++ lit "tail"]))) = true /\
  inbound (snd (Socket.readString
                 (session_receiving [Socket.buffer_of_int (-5) ++ lit "tail"])))
    = lit "tail".
Proof.
  apply (readString_nonpositive_length (-5) (lit "tail")); try reflexivity. lia.
Defined.

(** * Decoding column metadata and row values *)

(** X7.  [readMeta] decodes the metadata of one column in the order the
    server sends it: type code, table name, column name, precision, scale,
    display size.  The name becomes both [m_name] and [m_columnName], the
    binding of the record is not touched, and the rest of the stream is left
    for the next column. *)
Theorem readMeta_decodes (r : DescriptorRecord.t) (ty p sc d : Z)
    (table name rest : list byte) (s : Socket.t) :
  live s = true ->
  int32b ty = true -> int32b p = true -> int32b sc = true -> int32b d = true ->
  sendable table = true -> sendable name = true ->
  inbound s = Socket.buffer_of_int ty ++ wire_string table ++ wire_string name
              ++ Socket.buffer_of_int p ++ Socket.buffer_of_int sc
              ++ Socket.buffer_of_int d ++ rest ->
  DescriptorRecord.m_sqlDataType (fst (DescriptorRecord.readMeta r s)) = ty /\
  DescriptorRecord.m_tableName (fst (DescriptorRecord.readMeta r s)) = table /\
  DescriptorRecord.m_name (fst (DescriptorRecord.readMeta r s)) = name /\
  DescriptorRecord.m_columnName (fst (DescriptorRecord.readMeta r s)) = name /\
  DescriptorRecord.m_precision (fst (DescriptorRecord.readMeta r s)) = p /\
  DescriptorRecord.m_scale (fst (DescriptorRecord.readMeta r s)) = sc /\
  DescriptorRecord.m_displaySize (fst (DescriptorRecord.readMeta r s)) = d /\
  DescriptorRecord.m_cDataType (fst (DescriptorRecord.readMeta r s))
    = DescriptorRecord.m_cDataType r /\
  DescriptorRecord.m_pointer (fst (DescriptorRecord.readMeta r s))
    = DescriptorRecord.m_pointer r /\
  DescriptorRecord.m_statusPointer (fst (DescriptorRecord.readMeta r s))
    = DescriptorRecord.m_statusPointer r /\
  inbound (snd (DescriptorRecord.readMeta r s)) = rest.
Proof.
  intros Hlive Hty Hp Hsc Hd Htable Hname Hin.
  apply int32b_true in Hty, Hp, Hsc, Hd.
  unfold DescriptorRecord.readMeta. rewrite !bind_snd.
  destruct (readInt_next ty _ s Hlive Hty Hin) as (F1 & L1 & R1).
  set (s1 := snd (Socket.readInt s)) in *.
  destruct (readString_next table _ s1 L1 Htable R1) as (F2 & L2 & R2).
  set (s2 := snd (Socket.readString s1)) in *.
  destruct (readString_next name _ s2 L2 Hname R2) as (F3 & L3 & R3).
  set (s3 := snd (Socket.readString s2)) in *.
  destruct (readInt_next p _ s3 L3 Hp R3) as (F4 & L4 & R4).
  set (s4 := snd (Socket.readInt s3)) in *.
  destruct (readInt_next sc _ s4 L4 Hsc R4) as (F5 & L5 & R5).
  set (s5 := snd (Socket.readInt s4)) in *.
  destruct (readInt_next d _ s5 L5 Hd R5) as (F6 & L6 & R6).
  cbn [Socket.ret fst snd DescriptorRecord.m_sqlDataType DescriptorRecord.m_tableName
       DescriptorRecord.m_name DescriptorRecord.m_columnName DescriptorRecord.m_precision
       DescriptorRecord.m_scale DescriptorRecord.m_displaySize DescriptorRecord.m_cDataType
       DescriptorRecord.m_pointer DescriptorRecord.m_statusPointer].
  repeat split; assumption || reflexivity.
Qed.

Lemma readMeta_decodes_witness :
  DescriptorRecord.m_sqlDataType
    (fst (DescriptorRecord.readMeta small_buffer_record
            (session_receiving [name_column_stream]))) = SQL_VARCHAR /\
  DescriptorRecord.m_tableName
    (fst (DescriptorRecord.readMeta small_buffer_record
            (session_receiving [name_column_stream]))) = lit "TEST" /\
  DescriptorRecord.m_name
    (fst (DescriptorRecord.readMeta small_buffer_record
            (session_receiving [name_column_stream]))) = lit "NAME" /\
  DescriptorRecord.m_columnName
    (fst (DescriptorRecord.readMeta small_buffer_record
            (session_receiving [name_column_stream]))) = lit "NAME" /\
  DescriptorRecord.m_precision
    (fst (DescriptorRecord.readMeta small_buffer_record
            (session_receiving [name_column_stream]))) = 50 /\
  DescriptorRecord.m_scale
    (fst (DescriptorRecord.readMeta small_buffer_record
            (session_receiving [name_column_stream]))) = 0 /\
  DescriptorRecord.m_displaySize
    (fst (DescriptorRecord.readMeta small_buffer_record
            (session_receiving [name_column_stream]))) = 50 /\
  DescriptorRecord.m_cDataType
    (fst (DescriptorRecord.readMeta small_buffer_record
            (session_receiving [name_column_stream])))
    = DescriptorRecord.m_cDataType small_buffer_record /\
  DescriptorRecord.m_pointer
    (fst (DescriptorRecord.readMeta small_buffer_record
            (session_receiving [name_column_stream])))
    = DescriptorRecord.m_pointer small_buffer_record /\
  DescriptorRecord.m_statusPointer
    (fst (DescriptorRecord.readMeta small_buffer_record
            (session_receiving [name_column_stream])))
    = DescriptorRecord.m_statusPointer small_buffer_record /\
  inbound (snd (DescriptorRecord.readMeta small_buffer_record
                  (session_receiving [name_column_stream]))) = lit "tail".
Proof.
  apply (readMeta_decodes small_buffer_record SQL_VARCHAR 50 0 50
           (lit "TEST") (lit "NAME") (lit "tail")); reflexivity.
Defined.

(** X8.  [readData] on an INTEGER or SMALLINT column reads the null flag as
    a boolean.  A flag of 1 makes the value null: the record holds 0 and the
    stream is read no further.  Any other flag is followed by the value,
    which the record then holds and [getInt] returns; [getString] renders it
    in decimal. *)
Theorem readData_integer (r : DescriptorRecord.t) (flag v : Z) (rest : list byte)
    (s : Socket.t) :
  (DescriptorRecord.m_sqlDataType r =? SQL_INTEGER)
    || (DescriptorRecord.m_sqlDataType r =? SQL_SMALLINT) = true ->
  live s = true ->
  int32b flag = true -> int32b v = true ->
  inbound s = Socket.buffer_of_int flag ++ Socket.buffer_of_int v ++ rest ->
  if flag =? 1 then
    DescriptorRecord.m_wasNull (fst (DescriptorRecord.readData r s)) = true /\
    DescriptorRecord.getInt (fst (DescriptorRecord.readData r s)) = 0 /\
    inbound (snd (DescriptorRecord.readData r s)) = Socket.buffer_of_int v ++ rest
  else
    DescriptorRecord.m_wasNull (fst (DescriptorRecord.readData r s)) = false /\
    DescriptorRecord.getInt (fst (DescriptorRecord.readData r s)) = v /\
    DescriptorRecord.getString (fst (DescriptorRecord.readData r s)) = Some (itoa v) /\
    inbound (snd (DescriptorRecord.readData r s)) = rest.
Proof.
  intros Hty Hlive Hflag Hv Hin. apply int32b_true in Hflag, Hv.
  assert (H0 : (DescriptorRecord.m_sqlDataType r =? 0) = false).
  { apply orb_true_iff in Hty. destruct Hty as [H|H]; apply Z.eqb_eq in H; rewrite H;
      reflexivity. }
  assert (Hvc : (DescriptorRecord.m_sqlDataType r =? SQL_VARCHAR) = false).
  { apply orb_true_iff in Hty. destruct Hty as [H|H]; apply Z.eqb_eq in H; rewrite H;
      reflexivity. }
  assert (Hty' : (DescriptorRecord.m_sqlDataType r =? SQL_SMALLINT)
                 || (DescriptorRecord.m_sqlDataType r =? SQL_INTEGER) = true)
    by (rewrite orb_comm; exact Hty).
  unfold DescriptorRecord.readData. rewrite H0, Hty', bind_snd.
  destruct (readInt_next flag _ s Hlive Hflag Hin) as (F1 & L1 & R1).
  assert (EB : Socket.readBool s = (flag =? 1, snd (Socket.readInt s))).
  { unfold Socket.readBool. destruct (Socket.readInt s) as [x s1].
    cbn [fst snd] in *. subst x. reflexivity. }
  rewrite EB. cbn [fst snd]. set (s1 := snd (Socket.readInt s)) in *.
  destruct (flag =? 1).
  - cbn [Socket.ret fst snd]. unfold DescriptorRecord.getInt.
    cbn [DescriptorRecord.with_data DescriptorRecord.m_wasNull
         DescriptorRecord.m_sqlDataType DescriptorRecord.m_dataInt].
    rewrite Hvc, Hty'. auto.
  - rewrite bind_snd.
    destruct (readInt_next v _ s1 L1 Hv R1) as (F2 & L2 & R2).
    cbn [Socket.ret fst snd]. unfold DescriptorRecord.getInt, DescriptorRecord.getString.
    cbn [DescriptorRecord.with_data DescriptorRecord.m_wasNull
         DescriptorRecord.m_sqlDataType DescriptorRecord.m_dataInt].
    rewrite Hvc, Hty', F2. auto.
Qed.

Lemma readData_integer_witness :
  DescriptorRecord.m_wasNull
    (fst (DescriptorRecord.readData integer_column
            (session_receiving [Socket.buffer_of_int 0 ++ Socket.buffer_of_int 42
                                ++ lit "tail"]))) = false /\
  DescriptorRecord.getInt
    (fst (DescriptorRecord.readData integer_column
            (session_receiving [Socket.buffer_of_int 0 ++ Socket.buffer_of_int 42
                                ++ lit "tail"]))) = 42 /\
  DescriptorRecord.getString
    (fst (DescriptorRecord.readData integer_column
            (session_receiving [Socket.buffer_of_int 0 ++ Socket.buffer_of_int 42
                                ++ lit "tail"]))) = Some (itoa 42) /\
  inbound
    (snd (DescriptorRecord.readData integer_column
            (session_receiving [Socket.buffer_of_int 0 ++ Socket.buffer_of_int 42
                                ++ lit "tail"]))) = lit "tail".
Proof.
  apply (readData_integer integer_column 0 42 (lit "tail")); reflexivity.
Defined.

(** X9.  [readData] on a VARCHAR column reads one string, which
    [getString] then returns as it is and [getInt] converts with [atoi].
    Such a column is never marked null, whatever the stream holds: the wire
    form of a VARCHAR has no null flag. *)
Theorem readData_varchar (r : DescriptorRecord.t) (text rest : list byte) (s : Socket.t) :
  DescriptorRecord.m_sqlDataType r = SQL_VARCHAR ->
  live s = true ->
  sendable text = true ->
  inbound s = wire_string text ++ rest ->
  (forall s0, DescriptorRecord.m_wasNull (fst (DescriptorRecord.readData r s0)) = false) /\
  DescriptorRecord.getString (fst (DescriptorRecord.readData r s)) = Some text /\
  DescriptorRecord.getInt (fst (DescriptorRecord.readData r s)) = atoi text /\
  inbound (snd (DescriptorRecord.readData r s)) = rest.
Proof.
  intros Hty Hlive Htext Hin.
  assert (E : forall s0, DescriptorRecord.readData r s0
                = (DescriptorRecord.with_data false (DescriptorRecord.m_dataInt r)
                     (fst (Socket.readString s0)) r, snd (Socket.readString s0))).
  { intros s0. unfold DescriptorRecord.readData. rewrite Hty. cbn [Z.eqb SQL_VARCHAR
      SQL_SMALLINT SQL_INTEGER Pos.eqb orb]. rewrite bind_snd. reflexivity. }
  split; [intros s0; rewrite E; reflexivity|].
  rewrite E. cbn [fst snd].
  destruct (readString_next text rest s Hlive Htext Hin) as (F & _ & R).
  unfold DescriptorRecord.getString, DescriptorRecord.getInt.
  cbn [DescriptorRecord.with_data DescriptorRecord.m_sqlDataType
       DescriptorRecord.m_dataString].
  rewrite Hty, F. cbn [Z.eqb SQL_VARCHAR Pos.eqb]. auto.
Qed.

Lemma readData_varchar_witness :
  (forall s0, DescriptorRecord.m_wasNull
                (fst (DescriptorRecord.readData varchar_column s0)) = false) /\
  DescriptorRecord.getString
    (fst (DescriptorRecord.readData varchar_column
            (session_receiving [wire_string (lit "17") ++ lit "tail"]))) = Some (lit "17") /\
  DescriptorRecord.getInt
    (fst (DescriptorRecord.readData varchar_column
            (session_receiving [wire_string (lit "17") ++ lit "tail"]))) = atoi (lit "17") /\
  inbound
    (snd (DescriptorRecord.readData varchar_column
            (session_receiving [wire_string (lit "17") ++ lit "tail"]))) = lit "tail".
Proof.
  apply (readData_varchar varchar_column (lit "17") (lit "tail")); reflexivity.
Defined.

(** * Copying fetched values into the application's memory *)

Lemma store_bytes_app (xs ys : list byte) :
  forall m a,
    store_bytes m a (xs ++ ys)
    = store_bytes (store_bytes m a xs) (a + Z.of_nat (length xs)) ys.
Proof.
  induction xs as [|x xs IH]; intros m a; cbn [app store_bytes length].
  - rewrite Z.add_0_r. reflexivity.
  - rewrite IH. f_equal. lia.
Qed.

Lemma returnString_whole (source : option (list byte)) (dest dest_len dest_pt : Z)
    (m : Mem) (text : list byte) :
  text = match source with Some s => c_str s | None => [] end ->
  dest <> 0 -> dest_len <> 0 ->
  Z.of_nat (length text) <= dest_len -> Z.of_nat (length text) < 2 ^ 31 ->
  SqlUtils.returnString dest dest_len dest_pt source m
  = Some (store_bytes
            (if dest_pt =? 0 then m else store_int32 m dest_pt (Z.of_nat (length text)))
            dest (text ++ [NUL])).
Proof.
  intros Htext Hd Hl Hfit Hsmall. unfold SqlUtils.returnString.
  rewrite <- Htext.
  replace (dest_len =? 0) with false by (symmetry; apply Z.eqb_neq; exact Hl).
  replace (dest =? 0) with false by (symmetry; apply Z.eqb_neq; exact Hd).
  rewrite wrap32_id by (unfold int32; lia).
  replace (dest_len <? Z.of_nat (length text)) with false
    by (symmetry; apply Z.ltb_ge; lia).
  replace (Z.of_nat (length text) <? 0) with false by (symmetry; apply Z.ltb_ge; lia).
  rewrite Nat2Z.id, firstn_all, store_bytes_app. reflexivity.
Qed.

(** X10.  When the fetched text fits the capacity bound for a text buffer,
    [copyData] stores the whole text followed by its terminator at the
    buffer, stores the length of the text in the indicator, and changes no
    byte apart from these: nothing beyond the terminator is written. *)
Theorem copyData_text_that_fits (ir ar : DescriptorRecord.t) (m : Mem) :
  DescriptorRecord.m_wasNull ir = false ->
  DescriptorRecord.m_cDataType ar = SQL_C_CHAR ->
  DescriptorRecord.m_pointer ar <> 0 ->
  DescriptorRecord.m_statusPointer ar <> 0 ->
  Z.of_nat (length (fetched_text ir)) < DescriptorRecord.m_targetBufferLength ar ->
  DescriptorRecord.m_targetBufferLength ar < 2 ^ 31 ->
  apart (DescriptorRecord.m_statusPointer ar) (DescriptorRecord.m_pointer ar)
    (DescriptorRecord.m_targetBufferLength ar) = true ->
  exists m',
    DescriptorRecord.copyData ir ar m = Some m' /\
    load_int32 m' (DescriptorRecord.m_statusPointer ar)
      = Z.of_nat (length (fetched_text ir)) /\
    load_bytes m' (DescriptorRecord.m_pointer ar) (length (fetched_text ir) + 1)
      = fetched_text ir ++ [NUL] /\
    (forall x,
        x < DescriptorRecord.m_pointer ar \/
        DescriptorRecord.m_pointer ar + Z.of_nat (length (fetched_text ir)) < x ->
        x < DescriptorRecord.m_statusPointer ar \/
        DescriptorRecord.m_statusPointer ar + 4 <= x ->
        m' x = m x).
Proof.
  intros Hnull Htype Hp Hsp Hfit Hcap Hap.
  unfold DescriptorRecord.copyData. rewrite Hnull, Htype, Z.eqb_refl.
  set (p := DescriptorRecord.m_pointer ar) in *.
  set (sp := DescriptorRecord.m_statusPointer ar) in *.
  set (cap := DescriptorRecord.m_targetBufferLength ar) in *.
  set (text := fetched_text ir) in *.
  rewrite (returnString_whole _ p cap sp m text) by (try reflexivity; lia).
  replace (sp =? 0) with false by (symmetry; apply Z.eqb_neq; exact Hsp).
  apply apart_inv in Hap.
  assert (Hlen : length (text ++ [NUL]) = (length text + 1)%nat)
    by (rewrite length_app; reflexivity).
  eexists. split; [reflexivity|]. split; [|split].
  - rewrite (load_int32_ext (store_int32 m sp (Z.of_nat (length text)))).
    + rewrite load_store_int32. apply wrap32_id. unfold int32. lia.
    + intros x Hx. apply store_bytes_outside. rewrite Hlen. lia.
  - rewrite <- Hlen. apply load_store_bytes.
  - intros x Hx Hx'. rewrite store_bytes_outside by (rewrite Hlen; lia).
    apply store_int32_outside. exact Hx'.
Qed.

Lemma copyData_text_that_fits_witness :
  exists m',
    DescriptorRecord.copyData hello_record wide_buffer_record blank_memory = Some m' /\
    load_int32 m' 200 = 5 /\
    load_bytes m' 100 6 = lit "Hello" ++ [NUL] /\
    (forall x, x < 100 \/ 100 + 5 < x -> x < 200 \/ 200 + 4 <= x ->
               m' x = blank_memory x).
Proof.
  apply (copyData_text_that_fits hello_record wide_buffer_record blank_memory);
    try reflexivity; discriminate.
Defined.

Lemma le_value_le_bytes_2 (v : Z) : le_value (le_bytes 2 v) = Z.land v (Z.ones 16).
Proof.
  cbn [le_bytes le_value]. rewrite !byte.unsigned_of_Z. unfold byte.wrap.
  rewrite <- !Z.land_ones by lia.
  rewrite Z.shiftl_0_l, Z.lor_0_r.
  Z.bitblast.
Qed.

Lemma load_store_int16 (m : Mem) (a v : Z) :
  load_int16 (store_int16 m a v) a = wrap16 v.
Proof.
  unfold load_int16, store_int16.
  change 2%nat with (length (le_bytes 2 v)) at 1. rewrite load_store_bytes.
  rewrite le_value_le_bytes_2, Z.land_ones by lia.
  unfold wrap16. rewrite Zplus_mod_idemp_l. reflexivity.
Qed.

(** X11.  [copyData] into a target bound as [SQL_C_SLONG] or [SQL_C_ULONG]
    stores the value of [getInt] as four bytes at the buffer and the size 4
    in the indicator; every other byte of the application's memory is left
    as it was. *)
Theorem copyData_long_target (ir ar : DescriptorRecord.t) (m : Mem) :
  DescriptorRecord.m_wasNull ir = false ->
  (DescriptorRecord.m_cDataType ar =? SQL_C_SLONG)
    || (DescriptorRecord.m_cDataType ar =? SQL_C_ULONG) = true ->
  DescriptorRecord.m_pointer ar <> 0 ->
  DescriptorRecord.m_statusPointer ar <> 0 ->
  apart (DescriptorRecord.m_statusPointer ar) (DescriptorRecord.m_pointer ar) 4 = true ->
  exists m',
    DescriptorRecord.copyData ir ar m = Some m' /\
    load_int32 m' (DescriptorRecord.m_pointer ar) = wrap32 (DescriptorRecord.getInt ir) /\
    load_int32 m' (DescriptorRecord.m_statusPointer ar) = 4 /\
    (forall x,
        x < DescriptorRecord.m_pointer ar \/ DescriptorRecord.m_pointer ar + 4 <= x ->
        x < DescriptorRecord.m_statusPointer ar \/
        DescriptorRecord.m_statusPointer ar + 4 <= x ->
        m' x = m x).
Proof.
  intros Hnull Htype Hp Hsp Hap.
  unfold DescriptorRecord.copyData. rewrite Hnull, Htype.
  assert (Hc : (DescriptorRecord.m_cDataType ar =? SQL_C_CHAR) = false).
  { apply orb_true_iff in Htype. destruct Htype as [H|H]; apply Z.eqb_eq in H; rewrite H;
      reflexivity. }
  rewrite Hc. unfold SqlUtils.returnInt.
  set (p := DescriptorRecord.m_pointer ar) in *.
  set (sp := DescriptorRecord.m_statusPointer ar) in *.
  replace (sp =? 0) with false by (symmetry; apply Z.eqb_neq; exact Hsp).
  replace (p =? 0) with false by (symmetry; apply Z.eqb_neq; exact Hp).
  apply apart_inv in Hap.
  eexists. split; [reflexivity|]. split; [|split].
  - apply load_store_int32.
  - rewrite (load_int32_ext (store_int32 m sp 4)).
    + apply load_store_int32.
    + intros x Hx. apply store_int32_outside. lia.
  - intros x Hx Hx'. rewrite !store_int32_outside by assumption. reflexivity.
Qed.

Lemma copyData_long_target_witness :
  exists m',
    DescriptorRecord.copyData seventy_thousand long_target blank_memory = Some m' /\
    load_int32 m' 100 = wrap32 (DescriptorRecord.getInt seventy_thousand) /\
    load_int32 m' 200 = 4 /\
    (forall x, x < 100 \/ 100 + 4 <= x -> x < 200 \/ 200 + 4 <= x ->
               m' x = blank_memory x).
Proof.
  apply (copyData_long_target seventy_thousand long_target blank_memory);
    try reflexivity; discriminate.
Defined.

(** X12.  [copyData] into a target bound as [SQL_C_SSHORT] writes two bytes
    only: the buffer then reads as the value of [getInt] narrowed to sixteen
    bits, the indicator holds the size 2, and the bytes behind the two of
    the buffer keep their contents. *)
Theorem copyData_short_target (ir ar : DescriptorRecord.t) (m : Mem) :
  DescriptorRecord.m_wasNull ir = false ->
  DescriptorRecord.m_cDataType ar = SQL_C_SSHORT ->
  DescriptorRecord.m_pointer ar <> 0 ->
  DescriptorRecord.m_statusPointer ar <> 0 ->
  apart (DescriptorRecord.m_statusPointer ar) (DescriptorRecord.m_pointer ar) 2 = true ->
  exists m',
    DescriptorRecord.copyData ir ar m = Some m' /\
    load_int16 m' (DescriptorRecord.m_pointer ar) = wrap16 (DescriptorRecord.getInt ir) /\
    load_int32 m' (DescriptorRecord.m_statusPointer ar) = 2 /\
    (forall x,
        x < DescriptorRecord.m_pointer ar \/ DescriptorRecord.m_pointer ar + 2 <= x ->
        x < DescriptorRecord.m_statusPointer ar \/
        DescriptorRecord.m_statusPointer ar + 4 <= x ->
        m' x = m x).
Proof.
  intros Hnull Htype Hp Hsp Hap.
  unfold DescriptorRecord.copyData. rewrite Hnull, Htype.
  cbn [Z.eqb SQL_C_SSHORT SQL_C_CHAR SQL_CHAR SQL_C_SLONG SQL_C_ULONG Pos.eqb orb].
  unfold SqlUtils.returnSmall.
  set (p := DescriptorRecord.m_pointer ar) in *.
  set (sp := DescriptorRecord.m_statusPointer ar) in *.
  replace (sp =? 0) with false by (symmetry; apply Z.eqb_neq; exact Hsp).
  replace (p =? 0) with false by (symmetry; apply Z.eqb_neq; exact Hp).
  apply apart_inv in Hap.
  assert (Out : forall m0 v x, x < p \/ p + 2 <= x -> store_int16 m0 p v x = m0 x).
  { intros m0 v x Hx. unfold store_int16. apply store_bytes_outside.
    cbn [le_bytes length]. lia. }
  eexists. split; [reflexivity|]. split; [|split].
  - apply load_store_int16.
  - rewrite (load_int32_ext (store_int32 m sp 2)).
    + apply load_store_int32.
    + intros x Hx. apply Out. lia.
  - intros x Hx Hx'. rewrite Out by assumption. apply store_int32_outside. exact Hx'.
Qed.

Lemma copyData_short_target_witness :
  exists m',
    DescriptorRecord.copyData seventy_thousand short_target blank_memory = Some m' /\
    load_int16 m' 100 = wrap16 (DescriptorRecord.getInt seventy_thousand) /\
    load_int32 m' 200 = 2 /\
    (forall x, x < 100 \/ 100 + 2 <= x -> x < 200 \/ 200 + 4 <= x ->
               m' x = blank_memory x).
Proof.
  apply (copyData_short_target seventy_thousand short_target blank_memory);
    try reflexivity; discriminate.
Defined.

(** * Copying the application's strings into local buffers *)

Lemma c_str_is_text (l : list byte) : is_text (c_str l).
Proof.
  unfold is_text. induction l as [|b l IH]; cbn [c_str]; [constructor|].
  destruct (is_NUL b) eqn:E; [constructor|]. constructor; assumption.
Qed.

Lemma c_str_length_le (l : list byte) : (length (c_str l) <= length l)%nat.
Proof.
  induction l as [|b l IH]; cbn [c_str length]; [lia|].
  destruct (is_NUL b); cbn [length]; lia.
Qed.

Lemma strncpy_bytes_length (source : list byte) (n : nat) :
  length (SqlUtils.strncpy_bytes source n) = n.
Proof.
  unfold SqlUtils.strncpy_bytes. rewrite length_app, repeat_length.
  pose proof (c_str_length_le (firstn n source)) as H.
  pose proof (firstn_le_length n source). lia.
Qed.

Lemma c_str_strncpy_bytes (source : list byte) (n : nat) :
  c_str (SqlUtils.strncpy_bytes source n ++ [NUL]) = c_str (firstn n source).
Proof.
  unfold SqlUtils.strncpy_bytes. rewrite <- app_assoc.
  destruct (n - length (c_str (firstn n source)))%nat as [|k]; cbn [repeat app];
    apply c_str_text, c_str_is_text.
Qed.

(** X13.  [setString] with a destination and a positive capacity copies at
    most [dest_len] bytes of the source and puts a terminator behind them:
    read back as a C string the destination holds the source cut at its own
    terminator and at the count copied.  It writes the bytes up to the
    terminator and no others; the terminator lies at [dest + dest_len], one
    past the capacity, when the source is not shorter than the capacity. *)
Theorem setString_result (dest dest_len : Z) (src : list byte) (source_len : Z) (m : Mem) :
  dest <> 0 -> 0 < dest_len ->
  (source_len =? SQL_NTS) || (0 <=? source_len) = true ->
  strlen src < 2 ^ 31 ->
  exists m',
    SqlUtils.setString dest dest_len (Some src) source_len m = Some m' /\
    0 <= SqlUtils.setString_len dest_len src source_len <= dest_len /\
    c_str (load_bytes m' dest
             (Z.to_nat (SqlUtils.setString_len dest_len src source_len) + 1))
      = c_str (firstn (Z.to_nat (SqlUtils.setString_len dest_len src source_len)) src) /\
    m' (dest + SqlUtils.setString_len dest_len src source_len) = NUL /\
    (forall x,
        x < dest \/ dest + SqlUtils.setString_len dest_len src source_len < x ->
        m' x = m x).
Proof.
  intros Hd Hl Hs Hsmall.
  assert (Hlen : 0 <= SqlUtils.setString_len dest_len src source_len <= dest_len).
  { unfold SqlUtils.setString_len. apply orb_true_iff in Hs.
    destruct (source_len =? SQL_NTS) eqn:E.
    - rewrite wrap32_id by (unfold int32, strlen in *; lia).
      unfold strlen. destruct (dest_len <? _) eqn:L;
        [apply Z.ltb_lt in L | apply Z.ltb_ge in L]; lia.
    - destruct Hs as [Hs|Hs]; [discriminate|]. apply Z.leb_le in Hs.
      destruct (dest_len <? source_len) eqn:L;
        [apply Z.ltb_lt in L | apply Z.ltb_ge in L]; lia. }
  set (len := SqlUtils.setString_len dest_len src source_len) in *.
  unfold SqlUtils.setString. fold len.
  replace (dest =? 0) with false by (symmetry; apply Z.eqb_neq; exact Hd).
  replace (dest_len =? 0) with false by (symmetry; apply Z.eqb_neq; lia).
  replace (len <? 0) with false by (symmetry; apply Z.ltb_ge; lia).
  cbn [orb].
  set (copied := SqlUtils.strncpy_bytes src (Z.to_nat len)).
  assert (Hc : length copied = Z.to_nat len) by apply strncpy_bytes_length.
  assert (E : store_byte (store_bytes m dest copied) (dest + len) NUL
              = store_bytes m dest (copied ++ [NUL])).
  { rewrite store_bytes_app, Hc, Z2Nat.id by lia. reflexivity. }
  rewrite E.
  assert (Hc' : length (copied ++ [NUL]) = (Z.to_nat len + 1)%nat)
    by (rewrite length_app, Hc; reflexivity).
  eexists. split; [reflexivity|]. split; [exact Hlen|]. split; [|split].
  - rewrite <- Hc', load_store_bytes. apply c_str_strncpy_bytes.
  - rewrite <- E. unfold store_byte. rewrite Z.eqb_refl. reflexivity.
  - intros x Hx. apply store_bytes_outside. rewrite Hc'. lia.
Qed.

Lemma setString_result_witness :
  exists m',
    SqlUtils.setString 100 4 (Some (lit "Hello")) SQL_NTS blank_memory = Some m' /\
    0 <= SqlUtils.setString_len 4 (lit "Hello") SQL_NTS <= 4 /\
    c_str (load_bytes m' 100 (Z.to_nat (SqlUtils.setString_len 4 (lit "Hello") SQL_NTS) + 1))
      = c_str (firstn (Z.to_nat (SqlUtils.setString_len 4 (lit "Hello") SQL_NTS))
                 (lit "Hello")) /\
    m' (100 + SqlUtils.setString_len 4 (lit "Hello") SQL_NTS) = NUL /\
    (forall x,
        x < 100 \/ 100 + SqlUtils.setString_len 4 (lit "Hello") SQL_NTS < x ->
        m' x = blank_memory x).
Proof.
  apply (setString_result 100 4 (lit "Hello") SQL_NTS blank_memory);
    try reflexivity; discriminate.
Defined.

(** * Statements: one request, one reply *)

Lemma wrote_inbound (s s' : Socket.t) (bs : list byte) :
  wrote s s' bs -> inbound s' = inbound s.
Proof. intros (_ & H & _). unfold inbound. rewrite H. reflexivity. Qed.

Lemma wrote_reliable (s s' : Socket.t) (bs : list byte) :
  wrote s s' bs -> reliable s' = true.
Proof. intros (_ & _ & _ & _ & H). exact H. Qed.

Lemma reliable_live (s : Socket.t) : reliable s = true -> live s = true.
Proof. unfold reliable. intros H. apply andb_true_iff in H. apply H. Qed.

Lemma emitted_wire {A : Type} (op : Socket.Net A) (s : Socket.t) (bs : list byte) :
  Socket.wire (snd (op s)) = Socket.wire s ++ bs -> emitted op s = bs.
Proof.
  intros H. unfold emitted. rewrite H, skipn_app, skipn_all, Nat.sub_diag. reflexivity.
Qed.

(** The reply byte read once a request has gone out. *)
Lemma reply_byte (s s2 : Socket.t) (bs : list byte) (b : byte) (rest : list byte) :
  wrote s s2 bs ->
  inbound s = b :: rest ->
  fst (Socket.readByte s2) = char_to_int b /\
  Socket.wire (snd (Socket.readByte s2)) = Socket.wire s ++ bs /\
  inbound (snd (Socket.readByte s2)) = rest /\
  reliable (snd (Socket.readByte s2)) = true.
Proof.
  intros W Hin.
  assert (Hin2 : inbound s2 = b :: rest) by (rewrite (wrote_inbound _ _ _ W); exact Hin).
  pose proof (wrote_reliable _ _ _ W) as R2.
  destruct (readByte_took b rest s2 (reliable_live _ R2) Hin2) as [F T].
  split; [exact F|]. split; [|split].
  - rewrite (took_wire _ _ _ T). destruct W as (_ & _ & _ & W & _). exact W.
  - apply (took_rest _ _ [b] rest T). exact Hin2.
  - apply (took_reliable _ _ _ T R2).
Qed.

Lemma readInt_reply (x : Z) (rest : list byte) (s : Socket.t) :
  reliable s = true ->
  int32 x ->
  inbound s = Socket.buffer_of_int x ++ rest ->
  fst (Socket.readInt s) = x /\
  Socket.wire (snd (Socket.readInt s)) = Socket.wire s /\
  inbound (snd (Socket.readInt s)) = rest /\
  reliable (snd (Socket.readInt s)) = true.
Proof.
  intros R Hx Hin.
  destruct (readInt_took (Socket.buffer_of_int x) rest s (reliable_live _ R)
              (buffer_of_int_length x) Hin) as [F T].
  split; [rewrite F; apply int_of_buffer_of_int, Hx|]. split; [|split].
  - apply (took_wire _ _ _ T).
  - apply (took_rest _ _ _ rest T). exact Hin.
  - apply (took_reliable _ _ _ T R).
Qed.

Lemma execute_request (sql : list byte) (s : Socket.t) :
  reliable s = true ->
  Z.of_nat (length (c_str sql)) < 2 ^ 31 ->
  wrote s (snd (Socket.writeString sql (snd (Socket.writeByte (chr "E") s))))
    (lit "E" ++ wire_string (c_str sql)).
Proof.
  intros R Hlen.
  pose proof (writeByte_wrote (chr "E") s R) as W1.
  pose proof (writeString_wrote sql _ (wrote_reliable _ _ _ W1) Hlen) as W2.
  exact (wrote_trans _ _ _ _ _ W1 W2).
Qed.

(** X14.  When the server answers an [execute] with 'U' and a count, the
    statement keeps the count as its update count and has no result set and
    no columns; the request on the wire is 'E' and the statement text, and
    nothing behind the count is read.  A [next] on that statement then
    reports no row without touching the session or the application's
    memory. *)
Theorem execute_update (m : Mem) (sql : list byte) (st : Statement.t) (n : Z)
    (rest : list byte) (s : Socket.t) :
  reliable s = true ->
  Z.of_nat (length (c_str sql)) < 2 ^ 31 ->
  int32b n = true ->
  inbound s = lit "U" ++ Socket.buffer_of_int n ++ rest ->
  exists st',
    fst (Statement.execute m sql st s) = Some (true, st') /\
    Statement.m_updateCount st' = n /\
    Statement.m_hasResultSet st' = false /\
    Statement.m_columnCount st' = 0 /\
    Statement.m_state st' = S_EXECUTED /\
    emitted (Statement.execute m sql st) s = lit "E" ++ wire_string (c_str sql) /\
    inbound (snd (Statement.execute m sql st s)) = rest /\
    Statement.next m st' (snd (Statement.execute m sql st s))
      = (Some (false, st', m), snd (Statement.execute m sql st s)).
Proof.
  intros R Hlen Hn Hin. apply int32b_true in Hn.
  change (lit "U" ++ Socket.buffer_of_int n ++ rest)
    with (byte_lit "U" :: Socket.buffer_of_int n ++ rest) in Hin.
  pose proof (execute_request sql s R Hlen) as W.
  destruct (reply_byte _ _ _ _ _ W Hin) as (F3 & W3 & I3 & R3).
  destruct (readInt_reply n rest _ R3 Hn I3) as (F4 & W4 & I4 & R4).
  unfold emitted, Statement.execute. rewrite !bind_snd, F3.
  change (char_to_int (byte_lit "U") =? chr "E") with false.
  change (char_to_int (byte_lit "U") =? chr "R") with false.
  change (char_to_int (byte_lit "U") =? chr "U") with true.
  cbv iota. rewrite !bind_snd. cbn [Socket.ret fst snd]. rewrite F4, W4, W3, I4.
  eexists. split; [reflexivity|].
  repeat (split; [reflexivity|]).
  split; [rewrite skipn_app, skipn_all, Nat.sub_diag; reflexivity|].
  split; reflexivity.
Qed.

Lemma execute_update_witness :
  exists st',
    fst (Statement.execute blank_memory (lit "DELETE FROM TEST") (Statement.new S_CLOSED)
           three_rows_session) = Some (true, st') /\
    Statement.m_updateCount st' = 3 /\
    Statement.m_hasResultSet st' = false /\
    Statement.m_columnCount st' = 0 /\
    Statement.m_state st' = S_EXECUTED /\
    emitted (Statement.execute blank_memory (lit "DELETE FROM TEST")
               (Statement.new S_CLOSED)) three_rows_session
      = lit "E" ++ wire_string (c_str (lit "DELETE FROM TEST")) /\
    inbound (snd (Statement.execute blank_memory (lit "DELETE FROM TEST")
                    (Statement.new S_CLOSED) three_rows_session)) = [] /\
    Statement.next blank_memory st'
      (snd (Statement.execute blank_memory (lit "DELETE FROM TEST")
              (Statement.new S_CLOSED) three_rows_session))
      = (Some (false, st', blank_memory),
         snd (Statement.execute blank_memory (lit "DELETE FROM TEST")
                (Statement.new S_CLOSED) three_rows_session)).
Proof.
  apply (execute_update blank_memory (lit "DELETE FROM TEST") (Statement.new S_CLOSED) 3 []
           three_rows_session); reflexivity.
Defined.

(** X15.  When the server answers an [execute] with 'E', the call returns
    false, the statement is closed with the diagnostic 42000 and its counts
    are zero, while its row descriptors and its result-set flag stay as the
    statement before left them.  Nothing behind the reply byte is read. *)
Theorem execute_rejected (m : Mem) (sql : list byte) (st : Statement.t)
    (rest : list byte) (s : Socket.t) :
  reliable s = true ->
  Z.of_nat (length (c_str sql)) < 2 ^ 31 ->
  inbound s = lit "E" ++ rest ->
  exists st',
    fst (Statement.execute m sql st s) = Some (false, st') /\
    Statement.m_state st' = S_CLOSED /\
    Statement.m_error st' = Some E_42000 /\
    Statement.m_updateCount st' = 0 /\
    Statement.m_columnCount st' = 0 /\
    Statement.m_parameterCount st' = 0 /\
    Statement.m_hasResultSet st' = Statement.m_hasResultSet st /\
    Statement.m_impRow st' = Statement.m_impRow st /\
    Statement.m_appRow st' = Statement.m_appRow st /\
    emitted (Statement.execute m sql st) s = lit "E" ++ wire_string (c_str sql) /\
    inbound (snd (Statement.execute m sql st s)) = rest.
Proof.
  intros R Hlen Hin.
  change (lit "E" ++ rest) with (byte_lit "E" :: rest) in Hin.
  pose proof (execute_request sql s R Hlen) as W.
  destruct (reply_byte _ _ _ _ _ W Hin) as (F3 & W3 & I3 & R3).
  unfold emitted, Statement.execute. rewrite !bind_snd, F3.
  change (char_to_int (byte_lit "E") =? chr "E") with true.
  cbv iota. cbn [Socket.ret fst snd]. rewrite W3, I3.
  eexists. split; [reflexivity|].
  repeat (split; [reflexivity|]).
  split; [rewrite skipn_app, skipn_all, Nat.sub_diag; reflexivity|].
  reflexivity.
Qed.

Lemma execute_rejected_witness :
  exists st',
    fst (Statement.execute blank_memory (lit "SELEC") two_column_statement
           refusing_session) = Some (false, st') /\
    Statement.m_state st' = S_CLOSED /\
    Statement.m_error st' = Some E_42000 /\
    Statement.m_updateCount st' = 0 /\
    Statement.m_columnCount st' = 0 /\
    Statement.m_parameterCount st' = 0 /\
    Statement.m_hasResultSet st' = Statement.m_hasResultSet two_column_statement /\
    Statement.m_impRow st' = Statement.m_impRow two_column_statement /\
    Statement.m_appRow st' = Statement.m_appRow two_column_statement /\
    emitted (Statement.execute blank_memory (lit "SELEC") two_column_statement)
      refusing_session = lit "E" ++ wire_string (c_str (lit "SELEC")) /\
    inbound (snd (Statement.execute blank_memory (lit "SELEC") two_column_statement
                    refusing_session)) = lit "syntax".
Proof.
  apply (execute_rejected blank_memory (lit "SELEC") two_column_statement (lit "syntax")
           refusing_session); reflexivity.
Defined.

(** * Prepared statements and their parameters *)

Lemma getRecord_defined (d : Descriptor.t) (i : Z) :
  0 <= i ->
  (Descriptor.getRecord d i = None <-> Descriptor.getRecordCount d <= i).
Proof.
  intros Hi. unfold Descriptor.getRecord, Descriptor.getRecordCount.
  replace (i <? 0) with false by (symmetry; apply Z.ltb_ge; exact Hi).
  rewrite nth_error_None. lia.
Qed.



(** * Catalog requests *)

Lemma adds_then {A B : Type} (w : Socket.Net A) (k : Socket.Net B) (s : Socket.t)
    (bs1 bs2 : list byte) :
  wrote s (snd (w s)) bs1 ->
  (forall s1, reliable s1 = true ->
              Socket.wire (snd (k s1)) = Socket.wire s1 ++ bs2) ->
  Socket.wire (snd ((w ;;; k) s)) = Socket.wire s ++ bs1 ++ bs2.
Proof.
  intros W K. rewrite bind_snd, K by apply (wrote_reliable _ _ _ W).
  destruct W as (_ & _ & _ & W & _). rewrite W, app_assoc. reflexivity.
Qed.

Lemma adds_last {A B : Type} (w : Socket.Net A) (k : Socket.Net B) (s : Socket.t)
    (bs : list byte) :
  wrote s (snd (w s)) bs ->
  silent k ->
  Socket.wire (snd ((w ;;; k) s)) = Socket.wire s ++ bs.
Proof.
  intros W K. rewrite bind_snd, K. destruct W as (_ & _ & _ & W & _). exact W.
Qed.

Lemma writeString_sent (str : list byte) (s : Socket.t) :
  Z.of_nat (length (c_str str)) < 2 ^ 31 ->
  reliable s = true ->
  wrote s (snd (Socket.writeString str s)) (wire_string (c_str str)).
Proof. intros Hlen H. apply writeString_wrote; assumption. Qed.

(** A request is a run of writes followed by reads: what it adds to the
    wire is what the writes send. *)
Ltac request :=
  apply emitted_wire;
  repeat (eapply adds_then;
          [first [apply writeByte_wrote | apply writeInt_wrote | apply writeString_sent];
           assumption
          | intros ? ?]);
  eapply adds_last;
  [first [apply writeByte_wrote | apply writeInt_wrote | apply writeString_sent];
   assumption
  | first [apply silent_processResultSet | apply silent_readString
          | apply silent_readByte]].

(** The request of a prepare: 'P' and the statement text. *)
Lemma prepare_request (sql : list byte) (s : Socket.t) :
  reliable s = true ->
  Z.of_nat (length (c_str sql)) < 2 ^ 31 ->
  emitted (prepare_reply sql) s = lit "P" ++ wire_string (c_str sql).
Proof. intros R Hlen. unfold prepare_reply. request. Qed.

(** X17.  On a session whose sends succeed, each catalog request of a
    statement puts on the wire the byte 'M', the code of the request and its
    arguments in the order of the call, strings as length and text, and
    nothing else; reading the result set that answers it sends nothing. *)
Theorem catalog_requests (catalog schema table fourth : list byte) (scope sqlType : Z)
    (nullable unique approximate : bool) (st : Statement.t) (s : Socket.t) :
  reliable s = true ->
  Z.of_nat (length (c_str catalog)) < 2 ^ 31 ->
  Z.of_nat (length (c_str schema)) < 2 ^ 31 ->
  Z.of_nat (length (c_str table)) < 2 ^ 31 ->
  Z.of_nat (length (c_str fourth)) < 2 ^ 31 ->
  emitted (Statement.getMetaTables catalog schema table fourth st) s
    = lit "M" ++ lit "T" ++ wire_string (c_str catalog) ++ wire_string (c_str schema)
      ++ wire_string (c_str table) ++ wire_string (c_str fourth) /\
  emitted (Statement.getMetaBestRowIdentifier catalog schema table scope nullable st) s
    = lit "M" ++ lit "B" ++ wire_string (c_str catalog) ++ wire_string (c_str schema)
      ++ wire_string (c_str table) ++ Socket.buffer_of_int scope
      ++ Socket.buffer_of_int (if nullable then 1 else 0) /\
  emitted (Statement.getMetaVersionColumns catalog schema table st) s
    = lit "M" ++ lit "V" ++ wire_string (c_str catalog) ++ wire_string (c_str schema)
      ++ wire_string (c_str table) /\
  emitted (Statement.getMetaIndexInfo catalog schema table unique approximate st) s
    = lit "M" ++ lit "I" ++ wire_string (c_str catalog) ++ wire_string (c_str schema)
      ++ wire_string (c_str table) ++ Socket.buffer_of_int (if unique then 1 else 0)
      ++ Socket.buffer_of_int (if approximate then 1 else 0) /\
  emitted (Statement.getMetaColumns catalog schema table fourth st) s
    = lit "M" ++ lit "C" ++ wire_string (c_str catalog) ++ wire_string (c_str schema)
      ++ wire_string (c_str table) ++ wire_string (c_str fourth) /\
  emitted (Statement.getMetaTypeInfoAll st) s = lit "M" ++ lit "D" ++ lit "A" /\
  emitted (Statement.getMetaTypeInfo sqlType st) s
    = lit "M" ++ lit "D" ++ lit "T" ++ Socket.buffer_of_int sqlType.
Proof.
  intros R H1 H2 H3 H4.
  repeat split.
  - unfold Statement.getMetaTables. request.
  - unfold Statement.getMetaBestRowIdentifier, Socket.writeBool. request.
  - unfold Statement.getMetaVersionColumns. request.
  - unfold Statement.getMetaIndexInfo, Socket.writeBool. request.
  - unfold Statement.getMetaColumns. request.
  - unfold Statement.getMetaTypeInfoAll. request.
  - unfold Statement.getMetaTypeInfo. request.
Qed.

Lemma catalog_requests_witness :
  emitted (Statement.getMetaTables (lit "") (lit "PUBLIC") (lit "TEST") (lit "TABLE")
             (Statement.new S_CLOSED)) slow_sender
    = lit "M" ++ lit "T" ++ wire_string (c_str (lit "")) ++ wire_string (c_str (lit "PUBLIC"))
      ++ wire_string (c_str (lit "TEST")) ++ wire_string (c_str (lit "TABLE")) /\
  emitted (Statement.getMetaBestRowIdentifier (lit "") (lit "PUBLIC") (lit "TEST") 2 true
             (Statement.new S_CLOSED)) slow_sender
    = lit "M" ++ lit "B" ++ wire_string (c_str (lit "")) ++ wire_string (c_str (lit "PUBLIC"))
      ++ wire_string (c_str (lit "TEST")) ++ Socket.buffer_of_int 2
      ++ Socket.buffer_of_int (if true then 1 else 0) /\
  emitted (Statement.getMetaVersionColumns (lit "") (lit "PUBLIC") (lit "TEST")
             (Statement.new S_CLOSED)) slow_sender
    = lit "M" ++ lit "V" ++ wire_string (c_str (lit "")) ++ wire_string (c_str (lit "PUBLIC"))
      ++ wire_string (c_str (lit "TEST")) /\
  emitted (Statement.getMetaIndexInfo (lit "") (lit "PUBLIC") (lit "TEST") false true
             (Statement.new S_CLOSED)) slow_sender
    = lit "M" ++ lit "I" ++ wire_string (c_str (lit "")) ++ wire_string (c_str (lit "PUBLIC"))
      ++ wire_string (c_str (lit "TEST")) ++ Socket.buffer_of_int (if false then 1 else 0)
      ++ Socket.buffer_of_int (if true then 1 else 0) /\
  emitted (Statement.getMetaColumns (lit "") (lit "PUBLIC") (lit "TEST") (lit "TABLE")
             (Statement.new S_CLOSED)) slow_sender
    = lit "M" ++ lit "C" ++ wire_string (c_str (lit "")) ++ wire_string (c_str (lit "PUBLIC"))
      ++ wire_string (c_str (lit "TEST")) ++ wire_string (c_str (lit "TABLE")) /\
  emitted (Statement.getMetaTypeInfoAll (Statement.new S_CLOSED)) slow_sender
    = lit "M" ++ lit "D" ++ lit "A" /\
  emitted (Statement.getMetaTypeInfo 12 (Statement.new S_CLOSED)) slow_sender
    = lit "M" ++ lit "D" ++ lit "T" ++ Socket.buffer_of_int 12.
Proof.
  apply (catalog_requests (lit "") (lit "PUBLIC") (lit "TEST") (lit "TABLE") 2 12
           true false true (Statement.new S_CLOSED) slow_sender); reflexivity.
Defined.

(** * Fetching and closing *)

Lemma silent_readBool : silent Socket.readBool.
Proof.
  intros s. unfold Socket.readBool. pose proof (silent_readInt s) as H.
  destruct (Socket.readInt s). exact H.
Qed.

Lemma silent_record_readData (r : DescriptorRecord.t) :
  silent (DescriptorRecord.readData r).
Proof.
  unfold DescriptorRecord.readData.
  repeat match goal with
         | |- context [if ?c then _ else _] => destruct c
         end; try apply silent_ret.
  - apply silent_bind; [apply silent_readBool | intros [|]]; [apply silent_ret|].
    apply silent_bind; [apply silent_readInt | intros ?; apply silent_ret].
  - apply silent_bind; [apply silent_readString | intros ?; apply silent_ret].
Qed.

Lemma silent_descriptor_readData (i : Z) (d : Descriptor.t) :
  silent (Descriptor.readData i d).
Proof.
  unfold Descriptor.readData. destruct (Descriptor.getRecord d i); [|apply silent_ret].
  apply silent_bind; [apply silent_record_readData | intros ?; apply silent_ret].
Qed.

Lemma silent_fetchColumns (n : nat) :
  forall i imp app m, silent (Statement.fetchColumns n i imp app m).
Proof.
  induction n as [|n IH]; intros i imp app m; cbn [Statement.fetchColumns];
    [apply silent_ret|].
  apply silent_bind; [apply silent_descriptor_readData | intros [imp'|]];
    [|apply silent_ret].
  destruct (Descriptor.getRecord imp' i) as [ir|]; [|apply silent_ret].
  destruct (Descriptor.getRecord app i) as [ar|]; [|apply silent_ret].
  destruct (DescriptorRecord.copyData ir ar m); [apply IH | apply silent_ret].
Qed.

(** X18.  A [next] on a statement without result set touches nothing.  On a
    statement with a result set, and a session whose sends succeed, it puts
    on the wire the byte 'G' and the result-set id and nothing else,
    whatever the server answers and however many columns are fetched. *)
Theorem next_request (m : Mem) (st : Statement.t) (s : Socket.t) :
  reliable s = true ->
  if Statement.m_hasResultSet st then
    emitted (Statement.next m st) s
    = lit "G" ++ Socket.buffer_of_int (Statement.m_resultSetId st)
  else Statement.next m st s = (Some (false, st, m), s).
Proof.
  intros R. unfold Statement.next. destruct (Statement.m_hasResultSet st); cbn [negb];
    [|reflexivity].
  apply emitted_wire.
  eapply adds_then; [apply writeByte_wrote; assumption | intros s1 R1].
  eapply adds_last; [apply writeInt_wrote; assumption|].
  apply silent_bind; [apply silent_readByte | intros result].
  destruct (result =? chr "E"); [apply silent_ret|].
  destruct (result =? chr "1"); [|apply silent_ret].
  apply silent_bind; [apply silent_fetchColumns | intros [[imp m']|]]; apply silent_ret.
Qed.

Lemma next_request_witness :
  if Statement.m_hasResultSet bound_statement then
    emitted (Statement.next blank_memory bound_statement) row_session
    = lit "G" ++ Socket.buffer_of_int (Statement.m_resultSetId bound_statement)
  else Statement.next blank_memory bound_statement row_session
       = (Some (false, bound_statement, blank_memory), row_session).
Proof.
  apply (next_request blank_memory bound_statement row_session); reflexivity.
Defined.

Lemma Statement_cast_live (h : Api.Heap) (p : Z) (st : Statement.t) :
  p <> 0 -> h p = Api.Stat st -> Statement.m_magic st = MAGIC_STATEMENT ->
  Statement.cast (Api.magic_at h) p = p.
Proof.
  intros Hp Hh Hm. unfold Statement.cast, Api.magic_at. rewrite Hh. cbn [Api.magic_of].
  rewrite Hm, Z.eqb_refl. apply Z.eqb_neq in Hp. rewrite Hp. reflexivity.
Qed.

(** X19.  When the server answers a fetch with 'E', [SQLFetch] returns
    [SQL_NO_DATA] as at the end of the rows: the statement is closed, but no
    diagnostic is recorded and the application's memory is not written. *)
Theorem SQLFetch_rejected (h : Api.Heap) (m : Mem) (handle : Z) (st : Statement.t)
    (rest : list byte) (s : Socket.t) :
  handle <> 0 ->
  h handle = Api.Stat st ->
  Statement.m_magic st = MAGIC_STATEMENT ->
  Statement.m_hasResultSet st = true ->
  reliable s = true ->
  inbound s = lit "E" ++ rest ->
  exists st',
    fst (Api.SQLFetch h m handle s) = Some (SQL_NO_DATA, Api.update h handle (Api.Stat st'), m) /\
    Statement.m_state st' = S_CLOSED /\
    Statement.m_error st' = None /\
    Statement.m_hasResultSet st' = true /\
    inbound (snd (Api.SQLFetch h m handle s)) = rest.
Proof.
  intros Hp Hh Hm Hrs R Hin.
  change (lit "E" ++ rest) with (byte_lit "E" :: rest) in Hin.
  unfold Api.SQLFetch. rewrite (Statement_cast_live h handle st Hp Hh Hm).
  apply Z.eqb_neq in Hp. rewrite Hp, Hh.
  unfold Statement.next, Statement.setError.
  replace (Statement.m_hasResultSet (Statement.set_m_error None st)) with true
    by (rewrite <- Hrs; destruct st; reflexivity).
  cbn [negb]. rewrite !bind_snd.
  pose proof (writeByte_wrote (chr "G") s R) as W1.
  match goal with
  | |- context [Socket.writeInt ?id (snd (Socket.writeByte (chr "G") s))] =>
      pose proof (writeInt_wrote id _ (wrote_reliable _ _ _ W1)) as W2
  end.
  destruct (reply_byte _ _ _ _ _ (wrote_trans _ _ _ _ _ W1 W2) Hin) as (F3 & W3 & I3 & R3).
  rewrite F3. change (char_to_int (byte_lit "E") =? chr "E") with true. cbv iota.
  cbn [Socket.ret fst snd]. rewrite I3.
  eexists. split; [reflexivity|]. destruct st. cbn in Hrs. subst. repeat split.
Qed.

Lemma SQLFetch_rejected_witness :
  exists st',
    fst (Api.SQLFetch bound_heap blank_memory 64 refusing_session)
      = Some (SQL_NO_DATA, Api.update bound_heap 64 (Api.Stat st'), blank_memory) /\
    Statement.m_state st' = S_CLOSED /\
    Statement.m_error st' = None /\
    Statement.m_hasResultSet st' = true /\
    inbound (snd (Api.SQLFetch bound_heap blank_memory 64 refusing_session)) = lit "syntax".
Proof.
  apply (SQLFetch_rejected bound_heap blank_memory 64 bound_statement (lit "syntax")
           refusing_session); try reflexivity; discriminate.
Defined.

(** X20.  [closeCursor] on a session whose sends succeed tells the server to
    free the result set, with the byte 'F' and the id, only when the id is
    not negative; afterwards the id is negative and the statement closed, so
    that a second [closeCursor] changes neither the statement nor the
    session.  The result-set flag that [next] looks at is not reset. *)
Theorem closeCursor_once (st : Statement.t) (s : Socket.t) :
  reliable s = true ->
  emitted (Statement.closeCursor st) s
    = (if 0 <=? Statement.m_resultSetId st
       then lit "F" ++ Socket.buffer_of_int (Statement.m_resultSetId st) else []) /\
  Statement.m_resultSetId (fst (Statement.closeCursor st s)) < 0 /\
  Statement.m_state (fst (Statement.closeCursor st s)) = S_CLOSED /\
  Statement.m_hasResultSet (fst (Statement.closeCursor st s)) = Statement.m_hasResultSet st /\
  Statement.closeCursor (fst (Statement.closeCursor st s)) (snd (Statement.closeCursor st s))
    = Statement.closeCursor st s.
Proof.
  intros R. destruct (0 <=? Statement.m_resultSetId st) eqn:E.
  - set (s' := snd (Socket.writeInt (Statement.m_resultSetId st)
                      (snd (Socket.writeByte (chr "F") s)))).
    assert (Ec : Statement.closeCursor st s
                 = (Statement.set_m_state S_CLOSED (Statement.set_m_resultSetId (-1) st), s')).
    { unfold Statement.closeCursor. rewrite E, !bind_snd. reflexivity. }
    assert (W : wrote s s' (lit "F" ++ Socket.buffer_of_int (Statement.m_resultSetId st))).
    { pose proof (writeByte_wrote (chr "F") s R) as W1.
      exact (wrote_trans _ _ _ _ _ W1
               (writeInt_wrote (Statement.m_resultSetId st) _ (wrote_reliable _ _ _ W1))). }
    unfold emitted. rewrite Ec. cbn [fst snd].
    split.
    { destruct W as (_ & _ & _ & W & _).
      rewrite W, skipn_app, skipn_all, Nat.sub_diag. reflexivity. }
    split; [destruct st; cbn; lia|]. split; [destruct st; reflexivity|].
    split; [destruct st; reflexivity|].
    unfold Statement.closeCursor.
    replace (0 <=? Statement.m_resultSetId
                     (Statement.set_m_state S_CLOSED (Statement.set_m_resultSetId (-1) st)))
      with false by (destruct st; reflexivity).
    destruct st; reflexivity.
  - assert (Ec : Statement.closeCursor st s = (Statement.set_m_state S_CLOSED st, s)).
    { unfold Statement.closeCursor. rewrite E. reflexivity. }
    unfold emitted. rewrite Ec. cbn [fst snd].
    split; [rewrite skipn_all; reflexivity|].
    split; [apply Z.leb_gt in E; destruct st; cbn in *; lia|].
    split; [destruct st; reflexivity|]. split; [destruct st; reflexivity|].
    unfold Statement.closeCursor.
    replace (0 <=? Statement.m_resultSetId (Statement.set_m_state S_CLOSED st)) with false
      by (rewrite <- E; destruct st; reflexivity).
    destruct st; reflexivity.
Qed.

Lemma closeCursor_once_witness :
  emitted (Statement.closeCursor two_column_statement) quiet_session
    = (if 0 <=? Statement.m_resultSetId two_column_statement
       then lit "F" ++ Socket.buffer_of_int (Statement.m_resultSetId two_column_statement)
       else []) /\
  Statement.m_resultSetId (fst (Statement.closeCursor two_column_statement quiet_session)) < 0 /\
  Statement.m_state (fst (Statement.closeCursor two_column_statement quiet_session))
    = S_CLOSED /\
  Statement.m_hasResultSet (fst (Statement.closeCursor two_column_statement quiet_session))
    = Statement.m_hasResultSet two_column_statement /\
  Statement.closeCursor (fst (Statement.closeCursor two_column_statement quiet_session))
    (snd (Statement.closeCursor two_column_statement quiet_session))
    = Statement.closeCursor two_column_statement quiet_session.
Proof.
  apply (closeCursor_once two_column_statement quiet_session); reflexivity.
Defined.

(** * Connections *)

(** X21.  [getNativeSQL] sends 'M', 'N' and the statement text and returns
    the string the server answers with, leaving what follows it in the
    stream. *)
Theorem getNativeSQL_round_trip (sql native rest : list byte) (s : Socket.t) :
  reliable s = true ->
  Z.of_nat (length (c_str sql)) < 2 ^ 31 ->
  sendable native = true ->
  inbound s = wire_string native ++ rest ->
  fst (Connection.getNativeSQL sql s) = native /\
  emitted (Connection.getNativeSQL sql) s = lit "M" ++ lit "N" ++ wire_string (c_str sql) /\
  inbound (snd (Connection.getNativeSQL sql s)) = rest.
Proof.
  intros R Hlen Hnat Hin.
  split; [|split].
  - unfold Connection.getNativeSQL. rewrite !bind_snd.
    pose proof (writeByte_wrote (chr "M") s R) as W1.
    pose proof (writeByte_wrote (chr "N") _ (wrote_reliable _ _ _ W1)) as W2.
    pose proof (writeString_sent sql _ Hlen (wrote_reliable _ _ _ W2)) as W3.
    apply (readString_next native rest).
    + apply reliable_live, (wrote_reliable _ _ _ W3).
    + exact Hnat.
    + rewrite (wrote_inbound _ _ _ W3), (wrote_inbound _ _ _ W2), (wrote_inbound _ _ _ W1).
      exact Hin.
  - unfold Connection.getNativeSQL. request.
  - unfold Connection.getNativeSQL. rewrite !bind_snd.
    pose proof (writeByte_wrote (chr "M") s R) as W1.
    pose proof (writeByte_wrote (chr "N") _ (wrote_reliable _ _ _ W1)) as W2.
    pose proof (writeString_sent sql _ Hlen (wrote_reliable _ _ _ W2)) as W3.
    apply (readString_next native rest).
    + apply reliable_live, (wrote_reliable _ _ _ W3).
    + exact Hnat.
    + rewrite (wrote_inbound _ _ _ W3), (wrote_inbound _ _ _ W2), (wrote_inbound _ _ _ W1).
      exact Hin.
Qed.

Lemma getNativeSQL_round_trip_witness :
  fst (Connection.getNativeSQL (lit "SELECT 1")
         (session_receiving [wire_string (lit "SELECT 1 FROM DUAL") ++ lit "tail"]))
    = lit "SELECT 1 FROM DUAL" /\
  emitted (Connection.getNativeSQL (lit "SELECT 1"))
    (session_receiving [wire_string (lit "SELECT 1 FROM DUAL") ++ lit "tail"])
    = lit "M" ++ lit "N" ++ wire_string (c_str (lit "SELECT 1")) /\
  inbound (snd (Connection.getNativeSQL (lit "SELECT 1")
                  (session_receiving [wire_string (lit "SELECT 1 FROM DUAL") ++ lit "tail"])))
    = lit "tail".
Proof.
  apply (getNativeSQL_round_trip (lit "SELECT 1") (lit "SELECT 1 FROM DUAL") (lit "tail"));
    reflexivity.
Defined.

Lemma Connection_cast_live (h : Api.Heap) (p : Z) (c : Connection.t) :
  p <> 0 -> h p = Api.Conn c -> Connection.m_magic c = MAGIC_CONNECTION ->
  Connection.cast (Api.magic_at h) p = p.
Proof.
  intros Hp Hh Hm. unfold Connection.cast, Api.magic_at. rewrite Hh. cbn [Api.magic_of].
  rewrite Hm, Z.eqb_refl. apply Z.eqb_neq in Hp. rewrite Hp. reflexivity.
Qed.

(** X22.  [SQLEndTran] on a connection handle sends 'A' 'C' for a commit and
    'A' 'R' for a rollback and returns [SQL_SUCCESS] without reading a
    reply; any other completion type sends nothing, records HY012 on the
    connection and returns [SQL_ERROR]. *)
Theorem SQLEndTran_connection (h : Api.Heap) (handle completion : Z) (c : Connection.t)
    (s : Socket.t) :
  handle <> 0 ->
  h handle = Api.Conn c ->
  Connection.m_magic c = MAGIC_CONNECTION ->
  reliable s = true ->
  fst (Api.SQLEndTran h Api.SQL_HANDLE_DBC handle completion s)
    = Some (if (completion =? SQL_COMMIT) || (completion =? SQL_ROLLBACK)
            then SQL_SUCCESS else SQL_ERROR,
            Api.update h handle
              (Api.Conn (Connection.setError
                           (if (completion =? SQL_COMMIT) || (completion =? SQL_ROLLBACK)
                            then None else Some E_HY012) c))) /\
  emitted (Api.SQLEndTran h Api.SQL_HANDLE_DBC handle completion) s
    = (if completion =? SQL_COMMIT then lit "A" ++ lit "C"
       else if completion =? SQL_ROLLBACK then lit "A" ++ lit "R" else []) /\
  inbound (snd (Api.SQLEndTran h Api.SQL_HANDLE_DBC handle completion s)) = inbound s.
Proof.
  intros Hp Hh Hm R. unfold Api.SQLEndTran.
  change (Api.SQL_HANDLE_DBC =? Api.SQL_HANDLE_ENV) with false.
  change (Api.SQL_HANDLE_DBC =? Api.SQL_HANDLE_DBC) with true. cbv iota.
  rewrite (Connection_cast_live h handle c Hp Hh Hm).
  apply Z.eqb_neq in Hp. rewrite Hp, Hh.
  assert (Two : forall x y (k : option (Z * Api.Heap)),
             Socket.bind (Socket.bind (Socket.writeByte x) (fun _ => Socket.writeByte y))
               (fun _ : unit => Socket.ret k) s
             = (k, snd (Socket.writeByte y (snd (Socket.writeByte x s)))) /\
             wrote s (snd (Socket.writeByte y (snd (Socket.writeByte x s))))
               ([char_of_int x] ++ [char_of_int y])).
  { intros x y k. split.
    - rewrite !bind_snd. reflexivity.
    - pose proof (writeByte_wrote x s R) as W1.
      exact (wrote_trans _ _ _ _ _ W1 (writeByte_wrote y _ (wrote_reliable _ _ _ W1))). }
  destruct (completion =? SQL_COMMIT) eqn:E1; cbn [orb].
  - unfold Connection.commit, emitted.
    destruct (Two (chr "A") (chr "C")
                (Some (SQL_SUCCESS, Api.update h handle (Api.Conn (Connection.setError None c)))))
      as [Eq W].
    rewrite Eq. cbn [fst snd]. split; [reflexivity|].
    split; [|apply (wrote_inbound _ _ _ W)].
    destruct W as (_ & _ & _ & W & _). rewrite W, skipn_app, skipn_all, Nat.sub_diag.
    reflexivity.
  - destruct (completion =? SQL_ROLLBACK) eqn:E2.
    + unfold Connection.rollback, emitted.
      destruct (Two (chr "A") (chr "R")
                  (Some (SQL_SUCCESS,
                         Api.update h handle (Api.Conn (Connection.setError None c)))))
        as [Eq W].
      rewrite Eq. cbn [fst snd]. split; [reflexivity|].
      split; [|apply (wrote_inbound _ _ _ W)].
      destruct W as (_ & _ & _ & W & _). rewrite W, skipn_app, skipn_all, Nat.sub_diag.
      reflexivity.
    + unfold emitted. cbn [Socket.ret fst snd]. rewrite skipn_all.
      split; [|split; reflexivity].
      destruct c; reflexivity.
Qed.

Lemma SQLEndTran_connection_witness :
  fst (Api.SQLEndTran connection_heap Api.SQL_HANDLE_DBC 32 SQL_ROLLBACK quiet_session)
    = Some (if (SQL_ROLLBACK =? SQL_COMMIT) || (SQL_ROLLBACK =? SQL_ROLLBACK)
            then SQL_SUCCESS else SQL_ERROR,
            Api.update connection_heap 32
              (Api.Conn (Connection.setError
                           (if (SQL_ROLLBACK =? SQL_COMMIT) || (SQL_ROLLBACK =? SQL_ROLLBACK)
                            then None else Some E_HY012) autocommit_connection))) /\
  emitted (Api.SQLEndTran connection_heap Api.SQL_HANDLE_DBC 32 SQL_ROLLBACK) quiet_session
    = (if SQL_ROLLBACK =? SQL_COMMIT then lit "A" ++ lit "C"
       else if SQL_ROLLBACK =? SQL_ROLLBACK then lit "A" ++ lit "R" else []) /\
  inbound (snd (Api.SQLEndTran connection_heap Api.SQL_HANDLE_DBC 32 SQL_ROLLBACK
                  quiet_session)) = inbound quiet_session.
Proof.
  apply (SQLEndTran_connection connection_heap 32 SQL_ROLLBACK autocommit_connection
           quiet_session); try reflexivity; discriminate.
Defined.

Lemma write_dead (buffer : list byte) (len : Z) (s : Socket.t) :
  live s = false -> Socket.write buffer len s = (tt, s).
Proof.
  unfold live. intros H. apply negb_false_iff in H. unfold Socket.write. rewrite H.
  reflexivity.
Qed.

Lemma handshake_dead (dbname user password : list byte) (s : Socket.t) :
  live s = false -> Connection.handshake dbname user password s = (-1, s).
Proof.
  intros H. unfold Connection.handshake, Socket.writeByte, Socket.writeString,
    Socket.writeInt.
  repeat (progress (rewrite ?bind_snd, ?(write_dead _ _ s H); cbn [fst snd])).
  destruct (dead_decoders s H) as (E & _). exact E.
Qed.

Lemma new_wire (net : Socket.Network) (stack : nat -> byte) (host : list byte) (port : Z) :
  Socket.wire (Socket.new net stack host port) = [].
Proof. unfold Socket.new. destruct (net host port); reflexivity. Qed.

(** X23.  On every target and every network, [open] leaves the state of the
    connection as it was.  Whenever it has established the stream it
    records 08001 and returns with nothing sent; whenever the stream could
    not be established it records 08004; and where it creates no stream at
    all the diagnostic is the one for the format of the target or is left
    alone. *)
Theorem open_reports (net : Socket.Network) (stack : nat -> byte)
    (name user password : list byte) (c : Connection.t) :
  Connection.m_state (fst (Connection.open net stack name user password c))
    = Connection.m_state c /\
  match snd (Connection.open net stack name user password c) with
  | Some s' =>
      if live s' then
        Connection.m_error (fst (Connection.open net stack name user password c))
          = Some E_08001 /\ Socket.wire s' = []
      else
        Connection.m_error (fst (Connection.open net stack name user password c))
          = Some E_08004
  | None =>
      Connection.m_error (fst (Connection.open net stack name user password c))
        = Connection.m_error c \/
      Connection.m_error (fst (Connection.open net stack name user password c))
        = Some "Wrong URL format"%string
  end.
Proof.
  split; [apply open_keeps_state|].
  unfold Connection.open.
  destruct (negb (bytes_eqb _ _)); [left; destruct c; reflexivity|].
  destruct (_ <=? 0); [right; destruct c; reflexivity|].
  match goal with
  | |- context [Socket.isClosed ?s0] =>
      set (sock := s0); destruct (Socket.isClosed sock) eqn:E
  end.
  - cbn [fst snd]. change (live sock) with (Socket.isClosed sock). rewrite E.
    split; [destruct c; reflexivity | apply new_wire].
  - rewrite handshake_dead by exact E.
    change (-1 =? chr "O") with false. cbv iota. cbn [fst snd].
    change (live sock) with (Socket.isClosed sock). rewrite E. destruct c; reflexivity.
Qed.

Lemma find_from_absent (c : byte) (l : list byte) :
  forall i, without c l = true -> find_from c l i = -1.
Proof.
  induction l as [|b l IH]; intros i H; cbn [find_from]; [reflexivity|].
  cbn [without forallb] in H. apply andb_true_iff in H. destruct H as [H1 H2].
  apply negb_true_iff in H1. rewrite H1. apply IH, H2.
Qed.

Lemma find_from_first (c : byte) (l rest : list byte) :
  forall i, without c l = true ->
            find_from c (l ++ c :: rest) i = i + Z.of_nat (length l).
Proof.
  induction l as [|b l IH]; intros i H; cbn [find_from app length].
  - rewrite (Stdlib.Strings.Byte.byte_dec_lb eq_refl). lia.
  - cbn [without forallb] in H. apply andb_true_iff in H. destruct H as [H1 H2].
    apply negb_true_iff in H1. rewrite H1, IH by exact H2. lia.
Qed.

Lemma without_app (c : byte) (a b : list byte) :
  without c (a ++ b) = without c a && without c b.
Proof. unfold without. apply forallb_app. Qed.

Lemma open_socket (net : Socket.Network) (stack : nat -> byte)
    (server dbname user password : list byte) (c : Connection.t) :
  server <> [] ->
  without (byte_lit "/") server = true ->
  snd (Connection.open net stack (url_prefix ++ server ++ lit "/" ++ dbname) user password c)
  = Some (Socket.new net stack
            (if negb (find (byte_lit ":") server =? 0)
             then substr0 server (find (byte_lit ":") server) else server)
            (if negb (find (byte_lit ":") server =? 0)
             then atoi (substr server (find (byte_lit ":") server + 1)) else 9082)).
Proof.
  intros Hne Hslash. unfold Connection.open, url_prefix. cbv zeta.
  change (lit "/" ++ dbname) with (byte_lit "/" :: dbname).
  set (pre := lit "jdbc:h2:odbc://").
  set (rest := server ++ byte_lit "/" :: dbname).
  assert (Hpos : 0 < Z.of_nat (length server)) by (destruct server; [congruence|cbn; lia]).
  assert (E0 : firstn (length pre) (pre ++ rest) = pre)
    by (rewrite firstn_app, firstn_all, Nat.sub_diag, firstn_O, app_nil_r; reflexivity).
  assert (E1 : substr (pre ++ rest) (Z.of_nat (length pre)) = rest)
    by (unfold substr; rewrite Nat2Z.id, skipn_app, skipn_all, Nat.sub_diag; reflexivity).
  assert (E2 : find (byte_lit "/") rest = Z.of_nat (length server))
    by (unfold find, rest; rewrite (find_from_first _ server dbname 0 Hslash); lia).
  assert (E3 : substr0 rest (Z.of_nat (length server)) = server).
  { unfold substr0, rest.
    replace (Z.of_nat (length server) <? 0) with false by (symmetry; apply Z.ltb_ge; lia).
    rewrite Nat2Z.id, firstn_app, firstn_all, Nat.sub_diag, firstn_O, app_nil_r.
    reflexivity. }
  rewrite E0, !E1, !E2, !E3.
  replace (bytes_eqb pre pre) with true by reflexivity. cbn [negb].
  replace (Z.of_nat (length server) <=? 0) with false by (symmetry; apply Z.leb_gt; lia).
  match goal with
  | |- context [Socket.isClosed ?s0] =>
      set (sock := s0); destruct (Socket.isClosed sock) eqn:E
  end; [reflexivity|].
  rewrite handshake_dead by exact E.
  change (-1 =? chr "O") with false. reflexivity.
Qed.

(** X24.  For a target of the form prefix, host, ['/'], database, with or
    without [':'] and a port behind the host, [open] creates its stream to
    the host and the port that [atoi] makes of the text behind the colon.
    Without a colon that text is the host itself: the port is [atoi] of the
    host name, not the default 9082. *)
Theorem open_target (net : Socket.Network) (stack : nat -> byte)
    (host port dbname user password : list byte) (c : Connection.t) :
  host <> [] ->
  without (byte_lit "/") host && without (byte_lit ":") host = true ->
  without (byte_lit "/") port = true ->
  snd (Connection.open net stack
         (url_prefix ++ (host ++ lit ":" ++ port) ++ lit "/" ++ dbname) user password c)
    = Some (Socket.new net stack host (atoi port)) /\
  snd (Connection.open net stack (url_prefix ++ host ++ lit "/" ++ dbname) user password c)
    = Some (Socket.new net stack host (atoi host)).
Proof.
  intros Hne Hhost Hport. apply andb_true_iff in Hhost. destruct Hhost as [Hs Hc].
  assert (Hpos : 0 < Z.of_nat (length host)) by (destruct host; [congruence|cbn; lia]).
  split.
  - rewrite open_socket.
    + change (lit ":" ++ port) with (byte_lit ":" :: port).
      unfold find. rewrite (find_from_first _ host port 0 Hc).
      replace (0 + Z.of_nat (length host) =? 0) with false
        by (symmetry; apply Z.eqb_neq; lia).
      cbn [negb]. unfold substr0, substr.
      replace (0 + Z.of_nat (length host) <? 0) with false
        by (symmetry; apply Z.ltb_ge; lia).
      replace (Z.to_nat (0 + Z.of_nat (length host) + 1)) with (length host + 1)%nat by lia.
      rewrite Z.add_0_l, Nat2Z.id, firstn_app, firstn_all, Nat.sub_diag, firstn_O, app_nil_r.
      rewrite skipn_app, skipn_all2 by lia.
      replace (length host + 1 - length host)%nat with 1%nat by lia. reflexivity.
    + destruct host; [congruence | discriminate].
    + rewrite without_app, Hs. cbn [andb]. change (lit ":" ++ port) with (byte_lit ":" :: port).
      cbn [without forallb]. fold (without (byte_lit "/") port). rewrite Hport. reflexivity.
  - rewrite open_socket by assumption.
    unfold find. rewrite (find_from_absent _ host 0 Hc).
    change (negb (-1 =? 0)) with true. cbv iota.
    unfold substr0, substr. reflexivity.
Qed.

Lemma open_target_witness :
  snd (Connection.open accepting_network no_garbage
         (url_prefix ++ (lit "localhost" ++ lit ":" ++ lit "9082") ++ lit "/" ++ lit "test")
         (lit "sa") [] fresh_connection)
    = Some (Socket.new accepting_network no_garbage (lit "localhost") (atoi (lit "9082"))) /\
  snd (Connection.open accepting_network no_garbage
         (url_prefix ++ lit "localhost" ++ lit "/" ++ lit "test") (lit "sa") []
         fresh_connection)
    = Some (Socket.new accepting_network no_garbage (lit "localhost")
              (atoi (lit "localhost"))).
Proof.
  apply (open_target accepting_network no_garbage (lit "localhost") (lit "9082") (lit "test")
           (lit "sa") [] fresh_connection); try reflexivity; discriminate.
Defined.

(** * Entry points of the driver *)

Lemma replace_nth_length {A : Type} (a : A) (l : list A) :
  forall n, length (Descriptor.replace_nth n a l) = length l.
Proof.
  induction l as [|x l IH]; intros n; [destruct n; reflexivity|].
  destruct n; cbn [Descriptor.replace_nth length]; [reflexivity | rewrite IH; reflexivity].
Qed.

Lemma nth_error_replace_nth_eq {A : Type} (a : A) (l : list A) :
  forall n, (n < length l)%nat -> nth_error (Descriptor.replace_nth n a l) n = Some a.
Proof.
  induction l as [|x l IH]; intros n H; cbn [length] in H; [lia|].
  destruct n; cbn [Descriptor.replace_nth nth_error]; [reflexivity | apply IH; lia].
Qed.

Lemma nth_error_replace_nth_neq {A : Type} (a : A) (l : list A) :
  forall n j, j <> n -> nth_error (Descriptor.replace_nth n a l) j = nth_error l j.
Proof.
  induction l as [|x l IH]; intros n j H; [destruct n; reflexivity|].
  destruct n, j; cbn [Descriptor.replace_nth nth_error]; try reflexivity; try congruence.
  apply IH. congruence.
Qed.

Lemma addParameters_records (k : Z) (fuel : nat) :
  forall st,
    (Z.to_nat (k + 1 - Descriptor.getRecordCount (Statement.m_appParam st)) <= fuel)%nat ->
    Descriptor.m_records (Statement.m_appParam (Api.addParameters fuel k st))
      = Descriptor.m_records (Statement.m_appParam st)
        ++ repeat DescriptorRecord.new
             (Z.to_nat (k + 1 - Descriptor.getRecordCount (Statement.m_appParam st))) /\
    Descriptor.m_records (Statement.m_impParam (Api.addParameters fuel k st))
      = Descriptor.m_records (Statement.m_impParam st)
        ++ repeat DescriptorRecord.new
             (Z.to_nat (k + 1 - Descriptor.getRecordCount (Statement.m_appParam st))).
Proof.
  induction fuel as [|fuel IH]; intros st H; cbn [Api.addParameters].
  - replace (Z.to_nat _) with 0%nat by lia. cbn [repeat]. rewrite !app_nil_r. auto.
  - destruct (Descriptor.getRecordCount (Statement.m_appParam st) <=? k) eqn:E.
    + apply Z.leb_le in E.
      assert (C : Descriptor.getRecordCount (Statement.m_appParam (Statement.addParameter st))
                  = Descriptor.getRecordCount (Statement.m_appParam st) + 1).
      { unfold Descriptor.getRecordCount, Statement.addParameter, Descriptor.addRecord.
        destruct st as [? ? ? [] [] ? ? ? ? ? ? ? ? ? ? ?]. cbn. rewrite length_app. cbn. lia. }
      destruct (IH (Statement.addParameter st)) as [Ea Ei]; [rewrite C; lia|].
      rewrite Ea, Ei, C.
      replace (Z.to_nat (k + 1 - Descriptor.getRecordCount (Statement.m_appParam st)))
        with (S (Z.to_nat (k + 1 - (Descriptor.getRecordCount (Statement.m_appParam st) + 1))))
        by lia.
      cbn [repeat]. unfold Statement.addParameter, Descriptor.addRecord.
      destruct st as [? ? ? [] [] ? ? ? ? ? ? ? ? ? ? ?]. cbn. rewrite <- !app_assoc. auto.
    + apply Z.leb_gt in E. replace (Z.to_nat _) with 0%nat by lia.
      cbn [repeat]. rewrite !app_nil_r. auto.
Qed.

(** X25.  [SQLBindParameter] with one of the three parameter directions
    succeeds for every parameter number.  It first adds empty records to
    both parameter descriptors, the same number to each, until the
    application descriptor has a record for the parameter; then it stores in
    that record the SQL type, the C type (the default for the SQL type when
    [SQL_C_DEFAULT] is asked), the value pointer and the indicator pointer,
    and as the length of the buffer the argument [ColumnSize], not
    [BufferLength].  The other records are not touched. *)
Theorem SQLBindParameter_binds (h : Api.Heap) (handle : Z) (st : Statement.t)
    (n iotype vtype ptype colsize digits ptr buflen ind : Z) :
  handle <> 0 ->
  h handle = Api.Stat st ->
  Statement.m_magic st = MAGIC_STATEMENT ->
  (iotype =? SQL_PARAM_INPUT) || (iotype =? SQL_PARAM_INPUT_OUTPUT)
    || (iotype =? SQL_PARAM_OUTPUT) = true ->
  exists st' rec,
    Api.SQLBindParameter h handle n iotype vtype ptype colsize digits ptr buflen ind
      = Some (SQL_SUCCESS, Api.update h handle (Api.Stat st')) /\
    Descriptor.getRecordCount (Statement.m_appParam st')
      = Z.max (Descriptor.getRecordCount (Statement.m_appParam st))
              (Api.usmallint (n - 1) + 1) /\
    Descriptor.getRecordCount (Statement.m_impParam st')
      - Descriptor.getRecordCount (Statement.m_impParam st)
      = Descriptor.getRecordCount (Statement.m_appParam st')
        - Descriptor.getRecordCount (Statement.m_appParam st) /\
    Descriptor.getRecord (Statement.m_appParam st') (Api.usmallint (n - 1)) = Some rec /\
    DescriptorRecord.m_sqlDataType rec = ptype /\
    DescriptorRecord.m_cDataType rec
      = (if vtype =? SQL_C_DEFAULT then SqlUtils.getDefaultCType ptype else vtype) /\
    DescriptorRecord.m_pointer rec = ptr /\
    DescriptorRecord.m_statusPointer rec = ind /\
    DescriptorRecord.m_targetBufferLength rec = wrap32 colsize /\
    (forall j,
        j <> Api.usmallint (n - 1) ->
        0 <= j < Descriptor.getRecordCount (Statement.m_appParam st) ->
        Descriptor.getRecord (Statement.m_appParam st') j
        = Descriptor.getRecord (Statement.m_appParam st) j).
Proof.
  intros Hp Hh Hm Hio. unfold Api.SQLBindParameter.
  rewrite (Statement_cast_live h handle st Hp Hh Hm).
  apply Z.eqb_neq in Hp. rewrite Hp, Hh, Hio. cbn [negb].
  set (k := Api.usmallint (n - 1)).
  assert (Hk : 0 <= k < 2 ^ 16) by (apply Z.mod_pos_bound; lia).
  set (st0 := Statement.setError None st).
  assert (A0 : Statement.m_appParam st0 = Statement.m_appParam st) by (destruct st; reflexivity).
  assert (I0 : Statement.m_impParam st0 = Statement.m_impParam st) by (destruct st; reflexivity).
  destruct (addParameters_records k (S (Z.to_nat k)) st0) as [Ea Ei].
  { rewrite A0. unfold Descriptor.getRecordCount. lia. }
  rewrite A0 in Ea, Ei. rewrite I0 in Ei.
  set (st1 := Api.addParameters (S (Z.to_nat k)) k st0) in *.
  set (old := Descriptor.m_records (Statement.m_appParam st)) in *.
  set (j0 := Z.to_nat (k + 1 - Descriptor.getRecordCount (Statement.m_appParam st))) in *.
  assert (Hlen : Z.of_nat (length (old ++ repeat DescriptorRecord.new j0))
                 = Z.max (Z.of_nat (length old)) (k + 1)).
  { rewrite length_app, repeat_length. unfold j0, Descriptor.getRecordCount. fold old. lia. }
  unfold Descriptor.getRecord at 1.
  replace (k <? 0) with false by (symmetry; apply Z.ltb_ge; lia).
  destruct (nth_error (Descriptor.m_records (Statement.m_appParam st1)) (Z.to_nat k))
    as [r0|] eqn:E0.
  2:{ exfalso. apply nth_error_None in E0. rewrite Ea in E0. lia. }
  eexists. eexists. split; [reflexivity|].
  assert (R : Descriptor.m_records
                (Statement.m_appParam
                   (Statement.set_m_appParam
                      (Descriptor.set_m_records
                         (Descriptor.replace_nth (Z.to_nat k)
                            (DescriptorRecord.bind_target
                               (if vtype =? SQL_C_DEFAULT
                                then SqlUtils.getDefaultCType ptype else vtype)
                               ptr (wrap32 colsize) ind
                               (DescriptorRecord.setSqlDataType ptype r0))
                            (Descriptor.m_records (Statement.m_appParam st1)))
                         (Statement.m_appParam st1)) st1))
              = Descriptor.replace_nth (Z.to_nat k)
                  (DescriptorRecord.bind_target
                     (if vtype =? SQL_C_DEFAULT
                      then SqlUtils.getDefaultCType ptype else vtype)
                     ptr (wrap32 colsize) ind (DescriptorRecord.setSqlDataType ptype r0))
                  (old ++ repeat DescriptorRecord.new j0)).
  { rewrite <- Ea. destruct st1 as [? ? ? [] ? ? ? ? ? ? ? ? ? ? ? ?]. reflexivity. }
  assert (RI : Descriptor.m_records
                 (Statement.m_impParam
                    (Statement.set_m_appParam
                       (Descriptor.set_m_records
                          (Descriptor.replace_nth (Z.to_nat k)
                             (DescriptorRecord.bind_target
                                (if vtype =? SQL_C_DEFAULT
                                 then SqlUtils.getDefaultCType ptype else vtype)
                                ptr (wrap32 colsize) ind
                                (DescriptorRecord.setSqlDataType ptype r0))
                             (Descriptor.m_records (Statement.m_appParam st1)))
                          (Statement.m_appParam st1)) st1))
               = Descriptor.m_records (Statement.m_impParam st) ++ repeat DescriptorRecord.new j0).
  { rewrite <- Ei. destruct st1. reflexivity. }
  unfold Descriptor.getRecordCount, Descriptor.getRecord. rewrite R, RI.
  fold old. rewrite replace_nth_length.
  split; [exact Hlen|].
  split; [rewrite !length_app, repeat_length; lia|].
  replace (k <? 0) with false by (symmetry; apply Z.ltb_ge; lia).
  split; [apply nth_error_replace_nth_eq; lia|].
  repeat (split; [reflexivity|]).
  intros j Hj Hr.
  replace (j <? 0) with false by (symmetry; apply Z.ltb_ge; lia).
  rewrite nth_error_replace_nth_neq by lia.
  rewrite nth_error_app1 by lia. reflexivity.
Qed.

Lemma SQLBindParameter_binds_witness :
  exists st' rec,
    Api.SQLBindParameter prepared_heap 64 2 SQL_PARAM_INPUT SQL_C_DEFAULT SQL_VARCHAR
      20 0 100 7 200
      = Some (SQL_SUCCESS, Api.update prepared_heap 64 (Api.Stat st')) /\
    Descriptor.getRecordCount (Statement.m_appParam st')
      = Z.max (Descriptor.getRecordCount (Statement.m_appParam (Statement.new S_PREPARED)))
              (Api.usmallint (2 - 1) + 1) /\
    Descriptor.getRecordCount (Statement.m_impParam st')
      - Descriptor.getRecordCount (Statement.m_impParam (Statement.new S_PREPARED))
      = Descriptor.getRecordCount (Statement.m_appParam st')
        - Descriptor.getRecordCount (Statement.m_appParam (Statement.new S_PREPARED)) /\
    Descriptor.getRecord (Statement.m_appParam st') (Api.usmallint (2 - 1)) = Some rec /\
    DescriptorRecord.m_sqlDataType rec = SQL_VARCHAR /\
    DescriptorRecord.m_cDataType rec
      = (if SQL_C_DEFAULT =? SQL_C_DEFAULT
         then SqlUtils.getDefaultCType SQL_VARCHAR else SQL_C_DEFAULT) /\
    DescriptorRecord.m_pointer rec = 100 /\
    DescriptorRecord.m_statusPointer rec = 200 /\
    DescriptorRecord.m_targetBufferLength rec = wrap32 20 /\
    (forall j,
        j <> Api.usmallint (2 - 1) ->
        0 <= j < Descriptor.getRecordCount (Statement.m_appParam (Statement.new S_PREPARED)) ->
        Descriptor.getRecord (Statement.m_appParam st') j
        = Descriptor.getRecord (Statement.m_appParam (Statement.new S_PREPARED)) j).
Proof.
  apply (SQLBindParameter_binds prepared_heap 64 (Statement.new S_PREPARED)
           2 SQL_PARAM_INPUT SQL_C_DEFAULT SQL_VARCHAR 20 0 100 7 200);
    try reflexivity; discriminate.
Defined.

Lemma store_int32_small (m : Mem) (p v : Z) :
  0 <= v < 2 ^ 15 ->
  load_int16 (store_int32 m p v) p = v /\
  store_int32 m p v (p + 2) = NUL /\
  store_int32 m p v (p + 3) = NUL.
Proof.
  intros Hv.
  assert (Z2 : Z.shiftr (Z.shiftr v 8) 8 = 0).
  { rewrite Z.shiftr_shiftr, Z.shiftr_div_pow2 by lia. apply Z.div_small. lia. }
  assert (Z3 : Z.shiftr (Z.shiftr (Z.shiftr v 8) 8) 8 = 0) by (rewrite Z2; reflexivity).
  assert (F : forall x, store_int32 m p v x
                = if x =? p + 1 + 1 + 1 then NUL
                  else if x =? p + 1 + 1 then NUL
                  else if x =? p + 1 then byte.of_Z (Z.shiftr v 8)
                  else if x =? p then byte.of_Z v else m x).
  { intros x. unfold store_int32. cbn [le_bytes store_bytes]. unfold store_byte.
    rewrite Z3, Z2. reflexivity. }
  split; [|split].
  - unfold load_int16. cbn [load_bytes]. rewrite !F.
    replace (p =? p + 1 + 1 + 1) with false by (symmetry; apply Z.eqb_neq; lia).
    replace (p =? p + 1 + 1) with false by (symmetry; apply Z.eqb_neq; lia).
    replace (p =? p + 1) with false by (symmetry; apply Z.eqb_neq; lia).
    replace (p + 1 =? p + 1 + 1 + 1) with false by (symmetry; apply Z.eqb_neq; lia).
    replace (p + 1 =? p + 1 + 1) with false by (symmetry; apply Z.eqb_neq; lia).
    rewrite !Z.eqb_refl.
    change [byte.of_Z v; byte.of_Z (Z.shiftr v 8)] with (le_bytes 2 v).
    rewrite le_value_le_bytes_2, Z.land_ones by lia.
    unfold wrap16. rewrite Zplus_mod_idemp_l. rewrite Z.mod_small by lia. lia.
  - rewrite F.
    replace (p + 2 =? p + 1 + 1 + 1) with false by (symmetry; apply Z.eqb_neq; lia).
    replace (p + 2 =? p + 1 + 1) with true by (symmetry; apply Z.eqb_eq; lia).
    reflexivity.
  - rewrite F.
    replace (p + 3 =? p + 1 + 1 + 1) with true by (symmetry; apply Z.eqb_eq; lia).
    reflexivity.
Qed.

(** X26.  [SQLNumResultCols] and [SQLNumParams] receive the address of a
    [SQLSMALLINT] and store the count there as a four-byte integer: the
    two bytes of the [SQLSMALLINT] then hold the count, and the two bytes
    behind it are overwritten with zero, whatever they held.  No other byte
    is written, and the diagnostic of the statement is cleared. *)
Theorem counts_stored_as_four_bytes (h : Api.Heap) (m : Mem) (handle p : Z)
    (st : Statement.t) :
  handle <> 0 ->
  h handle = Api.Stat st ->
  Statement.m_magic st = MAGIC_STATEMENT ->
  p <> 0 ->
  0 <= Statement.m_columnCount st < 2 ^ 15 ->
  0 <= Statement.m_parameterCount st < 2 ^ 15 ->
  exists m1 m2,
    Api.SQLNumResultCols h m handle p
      = Some (SQL_SUCCESS, Api.update h handle (Api.Stat (Statement.setError None st)), m1) /\
    load_int16 m1 p = Statement.m_columnCount st /\
    m1 (p + 2) = NUL /\ m1 (p + 3) = NUL /\
    (forall x, x < p \/ p + 4 <= x -> m1 x = m x) /\
    Api.SQLNumParams h m handle p
      = Some (SQL_SUCCESS, Api.update h handle (Api.Stat (Statement.setError None st)), m2) /\
    load_int16 m2 p = Statement.m_parameterCount st /\
    m2 (p + 2) = NUL /\ m2 (p + 3) = NUL /\
    (forall x, x < p \/ p + 4 <= x -> m2 x = m x).
Proof.
  intros Hh0 Hh Hm Hp Hc Hn. unfold Api.SQLNumResultCols, Api.SQLNumParams.
  rewrite (Statement_cast_live h handle st Hh0 Hh Hm).
  apply Z.eqb_neq in Hh0. rewrite Hh0, Hh. unfold SqlUtils.returnIntPtr.
  apply Z.eqb_neq in Hp. rewrite Hp.
  replace (Statement.m_columnCount (Statement.setError None st))
    with (Statement.m_columnCount st) by (destruct st; reflexivity).
  replace (Statement.m_parameterCount (Statement.setError None st))
    with (Statement.m_parameterCount st) by (destruct st; reflexivity).
  destruct (store_int32_small m p _ Hc) as (C1 & C2 & C3).
  destruct (store_int32_small m p _ Hn) as (N1 & N2 & N3).
  eexists. eexists.
  split; [reflexivity|]. split; [exact C1|]. split; [exact C2|]. split; [exact C3|].
  split; [intros x Hx; apply store_int32_outside, Hx|].
  split; [reflexivity|]. split; [exact N1|]. split; [exact N2|]. split; [exact N3|].
  intros x Hx; apply store_int32_outside, Hx.
Qed.

Lemma counts_stored_as_four_bytes_witness :
  exists m1 m2,
    Api.SQLNumResultCols statement_heap blank_memory 64 100
      = Some (SQL_SUCCESS,
              Api.update statement_heap 64
                (Api.Stat (Statement.setError None two_column_statement)), m1) /\
    load_int16 m1 100 = Statement.m_columnCount two_column_statement /\
    m1 (100 + 2) = NUL /\ m1 (100 + 3) = NUL /\
    (forall x, x < 100 \/ 100 + 4 <= x -> m1 x = blank_memory x) /\
    Api.SQLNumParams statement_heap blank_memory 64 100
      = Some (SQL_SUCCESS,
              Api.update statement_heap 64
                (Api.Stat (Statement.setError None two_column_statement)), m2) /\
    load_int16 m2 100 = Statement.m_parameterCount two_column_statement /\
    m2 (100 + 2) = NUL /\ m2 (100 + 3) = NUL /\
    (forall x, x < 100 \/ 100 + 4 <= x -> m2 x = blank_memory x).
Proof.
  apply (counts_stored_as_four_bytes statement_heap blank_memory 64 100 two_column_statement);
    try reflexivity; try discriminate; split; vm_compute; congruence.
Defined.

(** X27.  [SQLGetData] on a column of the current row has the same effect
    on the application's memory as the fetch into a bound column: for
    [SQL_C_CHAR] the same as [copyData] into a record bound with the same
    buffer, capacity and indicator.  For integers the two paths answer to
    different type codes: [SQLGetData] stores for [SQL_C_LONG] and
    [SQL_C_SHORT] what [copyData] stores for [SQL_C_SLONG] and
    [SQL_C_SSHORT]; asked for [SQL_C_SLONG], [SQL_C_ULONG] or
    [SQL_C_SSHORT] it writes nothing for a value that is not null, not
    even the indicator. *)
Theorem SQLGetData_and_bound_columns (h : Api.Heap) (m : Mem) (handle col p len ind : Z)
    (st : Statement.t) (rec ar : DescriptorRecord.t) :
  handle <> 0 ->
  h handle = Api.Stat st ->
  Statement.m_magic st = MAGIC_STATEMENT ->
  Api.usmallint (col - 1) <= Statement.m_columnCount st ->
  Descriptor.getRecord (Statement.m_impRow st) (Api.usmallint (col - 1)) = Some rec ->
  option_map snd (Api.SQLGetData h m handle col SQL_C_CHAR p len ind)
    = DescriptorRecord.copyData rec (DescriptorRecord.bind_target SQL_C_CHAR p len ind ar) m /\
  option_map snd (Api.SQLGetData h m handle col SQL_C_LONG p len ind)
    = DescriptorRecord.copyData rec (DescriptorRecord.bind_target SQL_C_SLONG p len ind ar) m /\
  option_map snd (Api.SQLGetData h m handle col SQL_C_SHORT p len ind)
    = DescriptorRecord.copyData rec (DescriptorRecord.bind_target SQL_C_SSHORT p len ind ar) m /\
  (forall t,
      (t =? SQL_C_SLONG) || (t =? SQL_C_ULONG) || (t =? SQL_C_SSHORT) = true ->
      option_map snd (Api.SQLGetData h m handle col t p len ind)
      = Some (if DescriptorRecord.m_wasNull rec
              then DescriptorRecord.setNull
                     (DescriptorRecord.bind_target t p len ind ar) m
              else m)).
Proof.
  intros Hp Hh Hm Hk Hrec.
  assert (G : forall t,
             Api.SQLGetData h m handle col t p len ind
             = if DescriptorRecord.m_wasNull rec then
                 if ind =? 0 then
                   Some (SQL_ERROR,
                         Api.update h handle
                           (Api.Stat (Statement.setError (Some E_22002)
                                        (Statement.setError None st))), m)
                 else
                   Some (SQL_SUCCESS,
                         Api.update h handle (Api.Stat (Statement.setError None st)),
                         store_int32 m ind SQL_NULL_DATA)
               else
                 let t' := if t =? SQL_C_DEFAULT
                           then SqlUtils.getDefaultCType (DescriptorRecord.m_sqlDataType rec)
                           else t in
                 match
                   (if (t' =? SQL_CHAR) || (t' =? SQL_VARCHAR) then
                      SqlUtils.returnString p len ind (DescriptorRecord.getString rec) m
                    else if t' =? SQL_INTEGER then
                      SqlUtils.returnInt p ind (DescriptorRecord.getInt rec) m
                    else if t' =? SQL_SMALLINT then
                      SqlUtils.returnSmall p ind (DescriptorRecord.getInt rec) m
                    else Some m)
                 with
                 | None => None
                 | Some m' =>
                     Some (SQL_SUCCESS,
                           Api.update h handle (Api.Stat (Statement.setError None st)), m')
                 end).
  { intros t. unfold Api.SQLGetData.
    rewrite (Statement_cast_live h handle st Hp Hh Hm).
    apply Z.eqb_neq in Hp. rewrite Hp, Hh.
    replace (Statement.m_columnCount (Statement.setError None st))
      with (Statement.m_columnCount st) by (destruct st; reflexivity).
    replace (Statement.m_impRow (Statement.setError None st))
      with (Statement.m_impRow st) by (destruct st; reflexivity).
    replace (Statement.m_columnCount st <? Api.usmallint (col - 1)) with false
      by (symmetry; apply Z.ltb_ge; exact Hk).
    rewrite Hrec. reflexivity. }
  unfold DescriptorRecord.copyData, DescriptorRecord.setNull.
  cbn [DescriptorRecord.bind_target DescriptorRecord.m_cDataType DescriptorRecord.m_pointer
       DescriptorRecord.m_statusPointer DescriptorRecord.m_targetBufferLength].
  repeat split.
  - rewrite G. destruct (DescriptorRecord.m_wasNull rec).
    + destruct (ind =? 0); reflexivity.
    + cbn [Z.eqb SQL_C_CHAR SQL_CHAR SQL_C_DEFAULT SQL_VARCHAR Pos.eqb orb].
      destruct (SqlUtils.returnString _ _ _ _ _); reflexivity.
  - rewrite G. destruct (DescriptorRecord.m_wasNull rec).
    + destruct (ind =? 0); reflexivity.
    + cbn [Z.eqb SQL_C_LONG SQL_INTEGER SQL_C_SLONG SQL_C_CHAR SQL_CHAR SQL_C_DEFAULT
           SQL_VARCHAR Pos.eqb orb].
      destruct (SqlUtils.returnInt _ _ _ _); reflexivity.
  - rewrite G. destruct (DescriptorRecord.m_wasNull rec).
    + destruct (ind =? 0); reflexivity.
    + cbn [Z.eqb SQL_C_SHORT SQL_SMALLINT SQL_C_SSHORT SQL_C_SLONG SQL_C_ULONG SQL_INTEGER
           SQL_C_CHAR SQL_CHAR SQL_C_DEFAULT SQL_VARCHAR Pos.eqb orb].
      destruct (SqlUtils.returnSmall _ _ _ _); reflexivity.
  - intros t Ht. rewrite G. destruct (DescriptorRecord.m_wasNull rec).
    + destruct (ind =? 0); reflexivity.
    + assert (T : t = SQL_C_SLONG \/ t = SQL_C_ULONG \/ t = SQL_C_SSHORT).
      { apply orb_true_iff in Ht. destruct Ht as [Ht|Ht].
        - apply orb_true_iff in Ht. destruct Ht as [Ht|Ht]; apply Z.eqb_eq in Ht; auto.
        - apply Z.eqb_eq in Ht. auto. }
      destruct T as [T|[T|T]]; subst t; reflexivity.
Qed.

Lemma SQLGetData_and_bound_columns_witness :
  option_map snd (Api.SQLGetData statement_heap blank_memory 64 1 SQL_C_CHAR 100 16 200)
    = DescriptorRecord.copyData id_column
        (DescriptorRecord.bind_target SQL_C_CHAR 100 16 200 DescriptorRecord.new)
        blank_memory /\
  option_map snd (Api.SQLGetData statement_heap blank_memory 64 1 SQL_C_LONG 100 16 200)
    = DescriptorRecord.copyData id_column
        (DescriptorRecord.bind_target SQL_C_SLONG 100 16 200 DescriptorRecord.new)
        blank_memory /\
  option_map snd (Api.SQLGetData statement_heap blank_memory 64 1 SQL_C_SHORT 100 16 200)
    = DescriptorRecord.copyData id_column
        (DescriptorRecord.bind_target SQL_C_SSHORT 100 16 200 DescriptorRecord.new)
        blank_memory /\
  (forall t,
      (t =? SQL_C_SLONG) || (t =? SQL_C_ULONG) || (t =? SQL_C_SSHORT) = true ->
      option_map snd (Api.SQLGetData statement_heap blank_memory 64 1 t 100 16 200)
      = Some (if DescriptorRecord.m_wasNull id_column
              then DescriptorRecord.setNull
                     (DescriptorRecord.bind_target t 100 16 200 DescriptorRecord.new)
                     blank_memory
              else blank_memory)).
Proof.
  apply (SQLGetData_and_bound_columns statement_heap blank_memory 64 1 100 16 200
           two_column_statement id_column DescriptorRecord.new);
    [discriminate | reflexivity | reflexivity | vm_compute; discriminate
    | vm_compute; reflexivity].
Defined.

(** X28.  The column checks of [SQLDescribeCol] and [SQLGetData] differ.  On
    a statement whose implementation row descriptor holds one record for
    each of its N columns, [SQLDescribeCol] answers the column N + 1 with
    [SQL_ERROR] and the diagnostic 07009, whereas [SQLGetData] lets the
    column N + 1 pass its check and reads a record outside the descriptor,
    which is undefined.  Column 0 wraps to 65535 and is refused by both,
    by [SQLGetData] without a diagnostic.  The application's memory is not
    written in the refused calls. *)
Theorem column_range_checks (h : Api.Heap) (m : Mem) (handle : Z) (st : Statement.t)
    (name len lenp typep sizep digitsp nullp ttype tvalue buflen ind : Z) :
  handle <> 0 ->
  h handle = Api.Stat st ->
  Statement.m_magic st = MAGIC_STATEMENT ->
  Descriptor.getRecordCount (Statement.m_impRow st) = Statement.m_columnCount st ->
  Statement.m_columnCount st < 65535 ->
  Api.SQLDescribeCol h m handle (Statement.m_columnCount st + 1)
      name len lenp typep sizep digitsp nullp
    = Some (SQL_ERROR,
            Api.update h handle (Api.Stat (Statement.setError (Some E_07009) st)), m) /\
  Api.SQLDescribeCol h m handle 0 name len lenp typep sizep digitsp nullp
    = Some (SQL_ERROR,
            Api.update h handle (Api.Stat (Statement.setError (Some E_07009) st)), m) /\
  Api.SQLGetData h m handle (Statement.m_columnCount st + 1) ttype tvalue buflen ind = None /\
  Api.SQLGetData h m handle 0 ttype tvalue buflen ind
    = Some (SQL_ERROR, Api.update h handle (Api.Stat (Statement.setError None st)), m).
Proof.
  intros Hp Hh Hm Hc Hn.
  assert (H0 : 0 <= Statement.m_columnCount st)
    by (rewrite <- Hc; unfold Descriptor.getRecordCount; lia).
  assert (K1 : Api.usmallint (Statement.m_columnCount st + 1 - 1) = Statement.m_columnCount st).
  { unfold Api.usmallint. rewrite Z.add_simpl_r. apply Z.mod_small. lia. }
  assert (K0 : Api.usmallint (0 - 1) = 65535) by reflexivity.
  assert (I : Statement.m_impRow (Statement.setError None st) = Statement.m_impRow st)
    by (destruct st; reflexivity).
  assert (C : Statement.m_columnCount (Statement.setError None st) = Statement.m_columnCount st)
    by (destruct st; reflexivity).
  assert (E : Statement.setError (Some E_07009) (Statement.setError None st)
              = Statement.setError (Some E_07009) st) by (destruct st; reflexivity).
  unfold Api.SQLDescribeCol, Api.SQLGetData.
  rewrite (Statement_cast_live h handle st Hp Hh Hm).
  apply Z.eqb_neq in Hp. rewrite Hp, Hh, I, C, K1, K0, Hc, E.
  replace (Statement.m_columnCount st <=? Statement.m_columnCount st) with true
    by (symmetry; apply Z.leb_le; lia).
  replace (Statement.m_columnCount st <=? 65535) with true
    by (symmetry; apply Z.leb_le; lia).
  replace (Statement.m_columnCount st <? Statement.m_columnCount st) with false
    by (symmetry; apply Z.ltb_ge; lia).
  replace (Statement.m_columnCount st <? 65535) with true
    by (symmetry; apply Z.ltb_lt; lia).
  repeat split.
  replace (Descriptor.getRecord (Statement.m_impRow st) (Statement.m_columnCount st))
    with (@None DescriptorRecord.t); [reflexivity|].
  symmetry. apply getRecord_defined; lia.
Qed.

Lemma column_range_checks_witness :
  Api.SQLDescribeCol statement_heap blank_memory 64
      (Statement.m_columnCount two_column_statement + 1) 100 16 200 300 400 500 600
    = Some (SQL_ERROR,
            Api.update statement_heap 64
              (Api.Stat (Statement.setError (Some E_07009) two_column_statement)),
            blank_memory) /\
  Api.SQLDescribeCol statement_heap blank_memory 64 0 100 16 200 300 400 500 600
    = Some (SQL_ERROR,
            Api.update statement_heap 64
              (Api.Stat (Statement.setError (Some E_07009) two_column_statement)),
            blank_memory) /\
  Api.SQLGetData statement_heap blank_memory 64
      (Statement.m_columnCount two_column_statement + 1) SQL_C_CHAR 100 16 200 = None /\
  Api.SQLGetData statement_heap blank_memory 64 0 SQL_C_CHAR 100 16 200
    = Some (SQL_ERROR,
            Api.update statement_heap 64
              (Api.Stat (Statement.setError None two_column_statement)), blank_memory).
Proof.
  apply (column_range_checks statement_heap blank_memory 64 two_column_statement
           100 16 200 300 400 500 600 SQL_C_CHAR 100 16 200);
    [discriminate | reflexivity | reflexivity | vm_compute; reflexivity
    | vm_compute; reflexivity].
Defined.

Lemma returnStringSmall_truncated (dest dest_len : Z) (text : list byte) (m : Mem) :
  dest <> 0 -> 0 < dest_len <= Z.of_nat (length text) ->
  Z.of_nat (length text) < 2 ^ 31 ->
  is_text text ->
  SqlUtils.returnStringSmall dest dest_len 0 (Some text) m
  = Some (store_bytes m dest (firstn (Z.to_nat dest_len) text ++ [NUL])).
Proof.
  intros Hd Hl Hsmall Htext. unfold SqlUtils.returnStringSmall.
  assert (Ec : c_str text = text).
  { rewrite <- (app_nil_r text) at 1. clear - Htext.
    induction Htext as [|b s Hb Hs IH]; cbn; [reflexivity|].
    rewrite Hb. rewrite app_nil_r in *. rewrite IH. reflexivity. }
  rewrite Ec.
  replace (dest_len =? 0) with false by (symmetry; apply Z.eqb_neq; lia).
  replace (dest =? 0) with false by (symmetry; apply Z.eqb_neq; exact Hd).
  rewrite wrap32_id by (unfold int32; lia).
  cbn [Z.eqb].
  assert (L : (if dest_len <? Z.of_nat (length text) then dest_len
               else Z.of_nat (length text)) = dest_len).
  { destruct (dest_len <? Z.of_nat (length text)) eqn:E; [reflexivity|].
    apply Z.ltb_ge in E. lia. }
  rewrite L.
  replace (dest_len <? 0) with false by (symmetry; apply Z.ltb_ge; lia).
  rewrite store_bytes_app, length_firstn.
  replace (Z.of_nat (Nat.min (Z.to_nat dest_len) (length text))) with dest_len by lia.
  reflexivity.
Qed.

(** X29.  When a statement carries a diagnostic and the application asks
    [SQLGetDiagRec] for its SQLSTATE only, the call returns [SQL_SUCCESS]
    and writes seven bytes at [Sqlstate]: the first six bytes of the
    diagnostic, which are the five characters of the class and the blank
    behind them, and a terminator at [Sqlstate + 6].  No byte outside these
    seven is written. *)
Theorem SQLGetDiagRec_sqlstate (fuel : nat) (h : Api.Heap) (m : Mem)
    (handle state buflen : Z) (st : Statement.t) (msg : string) :
  handle <> 0 ->
  h handle = Api.Stat st ->
  Statement.m_magic st = MAGIC_STATEMENT ->
  Statement.m_error st = Some msg ->
  sendable (lit msg) && (6 <=? Z.of_nat (length (lit msg))) = true ->
  state <> 0 ->
  0 <= buflen ->
  exists m',
    Api.SQLGetDiagRec fuel h m Api.SQL_HANDLE_STMT handle 1 state 0 0 buflen 0
      = Some (SQL_SUCCESS, m') /\
    load_bytes m' state 7 = firstn 6 (lit msg) ++ [NUL] /\
    (forall x, x < state \/ state + 7 <= x -> m' x = m x).
Proof.
  intros Hp Hh Hm He Hmsg Hs Hb.
  apply andb_true_iff in Hmsg. destruct Hmsg as [Hsend Hlen].
  apply Z.leb_le in Hlen. destruct (sendable_inv _ Hsend) as [Htext Hsmall].
  unfold Api.SQLGetDiagRec.
  change (1 <? 0) with false. change (1 <? 1) with false.
  replace (buflen <? 0) with false by (symmetry; apply Z.ltb_ge; exact Hb).
  change (Api.SQL_HANDLE_STMT =? Api.SQL_HANDLE_ENV) with false.
  change (Api.SQL_HANDLE_STMT =? Api.SQL_HANDLE_DBC) with false.
  change (Api.SQL_HANDLE_STMT =? Api.SQL_HANDLE_STMT) with true. cbv iota.
  rewrite (Statement_cast_live h handle st Hp Hh Hm).
  apply Z.eqb_neq in Hp. rewrite Hp, Hh, He.
  rewrite (returnStringSmall_truncated state 6 (lit msg) m Hs) by (try assumption; lia).
  assert (E2 : forall m1, SqlUtils.returnStringSmall 0 buflen 0 (Some (skipn 6 (lit msg))) m1
                          = Some m1).
  { intros m1. unfold SqlUtils.returnStringSmall. destruct (buflen =? 0); reflexivity. }
  rewrite E2. cbn [Z.eqb].
  assert (L : length (firstn (Z.to_nat 6) (lit msg) ++ [NUL]) = 7%nat).
  { rewrite length_app, length_firstn. cbn [length]. lia. }
  eexists. split; [reflexivity|]. split.
  - rewrite <- L at 1. apply load_store_bytes.
  - intros x Hx. apply store_bytes_outside. rewrite L. lia.
Qed.

Lemma SQLGetDiagRec_sqlstate_witness :
  exists m',
    Api.SQLGetDiagRec 1 failed_heap blank_memory Api.SQL_HANDLE_STMT 64 1 100 0 0 0 0
      = Some (SQL_SUCCESS, m') /\
    load_bytes m' 100 7 = firstn 6 (lit E_07009) ++ [NUL] /\
    (forall x, x < 100 \/ 100 + 7 <= x -> m' x = blank_memory x).
Proof.
  apply (SQLGetDiagRec_sqlstate 1 failed_heap blank_memory 64 100 0
           (Statement.setError (Some E_07009) two_column_statement) E_07009);
    try reflexivity; discriminate.
Defined.


